(** * foodingredientscraper: the extraction-and-crawl pipeline

    A shallow embedding of the Python sources under [app/]:
    - [app/scrapers/base.py]   ([BaseScraper]: field parsers, error handler),
    - [app/scrapers/traderjoes.py] ([TraderJoesScraper]),
    - [app/scrapers/product_url_scraper.py] ([ProductUrlScraper]),
    - [app/models/product.py] ([ProductData], [ScrapeJob]),
    - [app/models/api.py], [app/main.py] (the submit-scrape endpoint),
    - [app/services/firebase.py] ([FirebaseService]).

    Texts are Python [str] values restricted to code points below 256: a
    character is an [ascii], a text is a [string].  Whitespace, case mapping
    and UTF-8 encoding follow CPython on that range.

    Effectful code runs in a state-and-exception monad whose state holds
    the variables the code assigns, the number of clock readings and
    identifiers taken, and the trace of the calls made to the browser.  The
    browser, the clock and the identifier generator answer as oracles.
    Faults are exceptions of class [Exception]; calls to the logger are left
    out; the document store is modelled while it is reachable. *)

From Stdlib Require Import ZArith NArith List Ascii String Bool Lia DecimalString.
From stdpp Require Import base option list strings gmap.

Local Open Scope string_scope.
Local Open Scope list_scope.
Local Open Scope Z_scope.

(** ** Python text primitives *)

Module Py.

Definition code (c : ascii) : N := N_of_ascii c.

(** [str.isspace] on one character, which is also what [str.strip] removes
    and what the pattern [\s] matches: TAB..CR, FS..US, SPACE, NEL, NBSP. *)
Definition is_space (c : ascii) : bool :=
  let n := code c in
  ((9 <=? n) && (n <=? 13) || (28 <=? n) && (n <=? 32)
   || (n =? 133) || (n =? 160))%N.

(** One character of [str.lower]: A..Z, and the Latin-1 capitals
    U+00C0..U+00DE except the multiplication sign U+00D7. *)
Definition lower_char (c : ascii) : ascii :=
  let n := code c in
  if ((65 <=? n) && (n <=? 90)
      || (192 <=? n) && (n <=? 222) && negb (n =? 215))%N
  then ascii_of_N (n + 32) else c.

Fixpoint lower (s : string) : string :=
  match s with
  | EmptyString => EmptyString
  | String c r => String (lower_char c) (lower r)
  end.

Fixpoint lstrip (s : string) : string :=
  match s with
  | String c r => if is_space c then lstrip r else s
  | EmptyString => EmptyString
  end.

Fixpoint rstrip (s : string) : string :=
  match s with
  | EmptyString => EmptyString
  | String c r =>
      match rstrip r with
      | EmptyString => if is_space c then EmptyString else String c EmptyString
      | r' => String c r'
      end
  end.

(** [s.strip()] *)
Definition strip (s : string) : string := rstrip (lstrip s).

(** Truthiness of a [str]: non-empty. *)
Definition truthy (s : string) : bool :=
  match s with EmptyString => false | _ => true end.

(** [s.startswith(p)] and the rest of [s] after [p]. *)
Fixpoint drop_prefix (p s : string) : option string :=
  match p, s with
  | EmptyString, _ => Some s
  | String a p', String b s' =>
      if Ascii.eqb a b then drop_prefix p' s' else None
  | String _ _, EmptyString => None
  end.

(** [old in s], for a non-empty [old]. *)
Fixpoint contains (old s : string) : bool :=
  match drop_prefix old s with
  | Some _ => true
  | None => match s with
            | EmptyString => false
            | String _ r => contains old r
            end
  end.

(** [s.replace(old, new)] for a non-empty [old]: leftmost,
    non-overlapping occurrences.  [fuel] bounds the number of steps;
    [String.length s + 1] steps always suffice. *)
Fixpoint replace_fuel (fuel : nat) (old new s : string) : string :=
  match fuel with
  | O => s
  | S fuel' =>
      match drop_prefix old s with
      | Some rest => new +:+ replace_fuel fuel' old new rest
      | None =>
          match s with
          | EmptyString => EmptyString
          | String c r => String c (replace_fuel fuel' old new r)
          end
      end
  end.

Definition replace (old new s : string) : string :=
  replace_fuel (S (String.length s)) old new s.

(** Splitting at every character of a class: [s.split(sep)] for a
    one-character [sep], and [re.split] with a one-character class.  The
    result always has at least one field. *)
Fixpoint split_on (sep : ascii -> bool) (s : string) : list string :=
  match s with
  | EmptyString => [EmptyString]
  | String c r =>
      if sep c then EmptyString :: split_on sep r
      else match split_on sep r with
           | f :: fs => String c f :: fs
           | [] => [String c EmptyString]
           end
  end.

(** [s.split(sep)[0]] *)
Definition first_field (sep : ascii -> bool) (s : string) : string :=
  match split_on sep s with f :: _ => f | [] => EmptyString end.

Definition is_digit (c : ascii) : bool :=
  let n := code c in ((48 <=? n) && (n <=? 57))%N.

Definition digit_val (c : ascii) : Z := Z.of_N (code c) - 48.

(** The digits of an [int] literal after its sign: one or more groups of
    decimal digits separated by single underscores.  [acc] is the value
    read so far, [after_digit] says whether the previous character was a
    digit. *)
Fixpoint int_digits (s : string) (acc : Z) (after_digit : bool) : option Z :=
  match s with
  | EmptyString => if after_digit then Some acc else None
  | String c r =>
      if is_digit c then int_digits r (10 * acc + digit_val c) true
      else if Ascii.eqb c "_" && after_digit then
             match r with
             | String d _ => if is_digit d then int_digits r acc false else None
             | EmptyString => None
             end
           else None
  end.

(** [int(s)] in base ten; [None] stands for [ValueError]. *)
Definition int (s : string) : option Z :=
  match strip s with
  | String "-" r => option_map Z.opp (int_digits r 0 false)
  | String "+" r => int_digits r 0 false
  | t => int_digits t 0 false
  end.

(** [str(n)] for an [int]. *)
Definition str_of_int (n : Z) : string :=
  DecimalString.NilZero.string_of_int (Z.to_int n).

(** A literal of a pattern compiled with [re.IGNORECASE], matched at the
    start of [s]: [p] is the literal in lower case, and a character of [s]
    matches when its lower case is the character of [p].  The result is
    the rest of [s] after the match. *)
Fixpoint drop_prefix_ci (p s : string) : option string :=
  match p, s with
  | EmptyString, _ => Some s
  | String a p', String b s' =>
      if Ascii.eqb a (lower_char b) then drop_prefix_ci p' s' else None
  | String _ _, EmptyString => None
  end.

(** [re.search]: [m] matches the pattern at the start of a text; the
    positions of [s] are tried from left to right, the end of [s]
    included, and the first match is the result. *)
Fixpoint search {A} (m : string -> option A) (s : string) : option A :=
  match m s with
  | Some a => Some a
  | None =>
      match s with
      | EmptyString => None
      | String _ r => search m r
      end
  end.

(** [re.finditer], for a pattern whose matches are never empty: [m] gives
    what is kept of a match and the rest of the text after it, where the
    next match is looked for.  [fuel] bounds the number of steps. *)
Fixpoint finditer_fuel {A} (fuel : nat) (m : string -> option (A * string))
    (s : string) : list A :=
  match fuel with
  | O => []
  | S fuel' =>
      match m s with
      | Some (a, rest) => a :: finditer_fuel fuel' m rest
      | None =>
          match s with
          | EmptyString => []
          | String _ r => finditer_fuel fuel' m r
          end
      end
  end.

Definition finditer {A} (m : string -> option (A * string)) (s : string)
  : list A :=
  finditer_fuel (S (String.length s)) m s.

(** The longest prefix of [s] made of characters that satisfy [p], and the
    rest of [s]: a greedy class with a star. *)
Fixpoint span (p : ascii -> bool) (s : string) : string * string :=
  match s with
  | String c r =>
      if p c then let '(g, rest) := span p r in (String c g, rest)
      else (EmptyString, s)
  | EmptyString => (EmptyString, EmptyString)
  end.

(** What [float(s)] removes at both ends of [s]: TAB..CR and SPACE, and
    the two whitespace characters above 127, NEL and NBSP.  Unlike
    [str.strip] it keeps FS..US. *)
Definition is_float_space (c : ascii) : bool :=
  let n := code c in
  ((9 <=? n) && (n <=? 13) || (n =? 32) || (n =? 133) || (n =? 160))%N.

Fixpoint lstrip_float (s : string) : string :=
  match s with
  | String c r => if is_float_space c then lstrip_float r else s
  | EmptyString => EmptyString
  end.

Fixpoint rstrip_float (s : string) : string :=
  match s with
  | EmptyString => EmptyString
  | String c r =>
      match rstrip_float r with
      | EmptyString =>
          if is_float_space c then EmptyString else String c EmptyString
      | r' => String c r'
      end
  end.

Definition strip_float (s : string) : string := rstrip_float (lstrip_float s).

(** The rest of [s] after the digits and the single underscores between
    digits it starts with; [s] follows a digit. *)
Fixpoint digits_rest (s : string) : string :=
  match s with
  | String c r =>
      if is_digit c then digits_rest r
      else if Ascii.eqb c "_" then
             match r with
             | String d _ => if is_digit d then digits_rest r else s
             | EmptyString => s
             end
           else s
  | EmptyString => EmptyString
  end.

(** The rest of [s] after a [digitpart] of the grammar of [float]. *)
Definition digitpart (s : string) : option string :=
  match s with
  | String c r => if is_digit c then Some (digits_rest r) else None
  | EmptyString => None
  end.

(** [number]: digits with an optional point and optional digits after it,
    or a point followed by digits. *)
Definition number (s : string) : option string :=
  match digitpart s with
  | Some (String "." r) =>
      match digitpart r with
      | Some r' => Some r'
      | None => Some r
      end
  | Some r => Some r
  | None =>
      match s with
      | String "." r => digitpart r
      | _ => None
      end
  end.

(** [exponent]: [e] or [E], an optional sign, digits. *)
Definition exponent (s : string) : option string :=
  match s with
  | String c r =>
      if Ascii.eqb (lower_char c) "e" then
        match r with
        | String "+" t => digitpart t
        | String "-" t => digitpart t
        | _ => digitpart r
        end
      else None
  | EmptyString => None
  end.

Definition is_floatnumber (s : string) : bool :=
  match number s with
  | Some EmptyString => true
  | Some r =>
      match exponent r with
      | Some EmptyString => true
      | _ => false
      end
  | None => false
  end.

(** [inf], [infinity] and [nan], in any case. *)
Definition is_float_word (s : string) : bool :=
  String.eqb (lower s) "inf" || String.eqb (lower s) "infinity"
  || String.eqb (lower s) "nan".

(** Whether [float(s)] returns; otherwise it raises [ValueError]. *)
Definition is_float_literal (s : string) : bool :=
  match strip_float s with
  | String "+" r => is_floatnumber r || is_float_word r
  | String "-" r => is_floatnumber r || is_float_word r
  | t => is_floatnumber t || is_float_word t
  end.

End Py.

(** ** Field parsers ([app/scrapers/base.py]) *)

Module BaseScraper.

(** The character class of [re.split] in both parsers: comma and
    semicolon. *)
Definition is_separator (c : ascii) : bool :=
  Ascii.eqb c "," || Ascii.eqb c ";".

(** [re.sub] of the pattern [^contains\s+] by the empty text: without
    [re.MULTILINE] the anchor matches at the start of [s] only, and
    [\s+] is greedy. *)
Definition sub_contains (s : string) : string :=
  match Py.drop_prefix "contains" s with
  | Some (String c r) => if Py.is_space c then Py.lstrip r else s
  | _ => s
  end.

(** [re.sub] of the pattern [^ingredients:] followed by any run of
    whitespace, by the empty text. *)
Definition sub_ingredients (s : string) : string :=
  match Py.drop_prefix "ingredients:" s with
  | Some r => Py.lstrip r
  | None => s
  end.

(** The body of the loop of [parse_ingredients]: one field of the split
    text, appended to [ingredients] when it is non-empty once stripped and
    lower-cased. *)
Definition parse_ingredients_step (ingredients : list string) (part : string)
  : list string :=
  let ingredient := Py.lower (Py.strip part) in
  if Py.truthy ingredient then
    let ingredient := sub_contains ingredient in
    let ingredient := sub_ingredients ingredient in
    ingredients ++ [ingredient]
  else ingredients.

(** [parse_ingredients(text)]; [None] is Python's [None], which
    [if not text] treats like the empty text. *)
Definition parse_ingredients (text : option string) : list string :=
  match text with
  | None => []
  | Some t =>
      if Py.truthy t
      then fold_left parse_ingredients_step (Py.split_on is_separator t) []
      else []
  end.

(** The literal each pattern of [parse_allergens] starts with, in the
    order of [allergen_patterns]; every pattern goes on with optional
    whitespace and a group that takes everything up to the next full
    stop. *)
Definition allergen_labels : list string :=
  [ "contains:"; "allergens:"; "may contain:";
    "manufactured in a facility that processes:" ].

(** One pattern matched at the start of [s]: group 1 and the rest of [s]
    after the match. *)
Definition match_allergens (label : string) (s : string)
  : option (string * string) :=
  match Py.drop_prefix_ci label s with
  | Some r => Some (Py.span (fun c => negb (Ascii.eqb c ".")) (Py.lstrip r))
  | None => None
  end.

(** The loop over the fields of one group. *)
Definition parse_allergens_group (allergens : list string) (group : string)
  : list string :=
  fold_left
    (fun allergens allergen =>
       let allergen := Py.lower (Py.strip allergen) in
       if Py.truthy allergen then allergens ++ [allergen] else allergens)
    (Py.split_on is_separator group) allergens.

(** The loop over the matches of one pattern. *)
Definition parse_allergens_pattern (text : string) (allergens : list string)
    (label : string) : list string :=
  fold_left parse_allergens_group
    (Py.finditer (match_allergens label) text) allergens.

(** [parse_allergens(text)] *)
Definition parse_allergens (text : option string) : option (list string) :=
  match text with
  | None => None
  | Some t =>
      if Py.truthy t then
        match fold_left (parse_allergens_pattern t) allergen_labels [] with
        | [] => None
        | allergens => Some allergens
        end
      else None
  end.

End BaseScraper.

(** ** Faults, the rendering capability and the effect monad *)

(** A Python exception of class [Exception], the class every handler of the
    sources names or includes; [exc_str] is what [str(e)] gives. *)
Record PyException : Type := { exc_str : string }.

(** The answer of an external call: a value or a raised exception. *)
Inductive outcome (A : Type) : Type :=
| Ok (a : A)
| Fault (e : PyException).
Arguments Ok {A} a.
Arguments Fault {A} e.

(** An element handle as the sources use it: [text_content()] and
    [get_attribute(name)]. *)
Record ElementHandle : Type := {
  el_text_content : outcome (option string);
  el_get_attribute : string -> outcome (option string);
}.

(** A page handle observed during one stretch of time in which its answers
    do not change: a given query is answered the same way every time. *)
Record Page : Type := {
  page_url : string;
  page_wait_for_load_state : string -> outcome unit;
  page_wait_for_selector : string -> outcome unit;
  page_query_selector : string -> outcome (option ElementHandle);
  page_query_selector_all : string -> outcome (list ElementHandle);
  page_title : outcome string;
}.

(** The calls made to the outside, in the order they are made. *)
Inductive Event : Type :=
| EvLaunch
| EvClose
| EvNewPage
| EvSetViewport
| EvSetHeaders
| EvSetTimeout
| EvGoto (url : string)
| EvWaitLoadState (state : string)
| EvWaitSelector (selector : string)
| EvQuerySelector (selector : string)
| EvQuerySelectorAll (selector : string)
| EvTextContent
| EvGetAttribute (name : string)
| EvTitle.

Section Effects.

(** [L] is the type of the variables the code assigns and reads back:
    the locals a handler inspects after the body of its [try] set them,
    or the objects a service holds. *)
Context {L : Type}.

Record Runtime : Type := {
  vars : L;
  ticks : nat;          (* clock readings taken so far *)
  ids : nat;            (* identifiers drawn so far *)
  trace : list Event;   (* external calls made so far, oldest first *)
}.

(** How a computation ends.  [Diverged] is a loop that was still running
    when its fuel ran out; no handler catches it. *)
Inductive res (A : Type) : Type :=
| Val (a : A)
| Exc (e : PyException)
| Diverged.

Definition M (A : Type) : Type := Runtime -> res A * Runtime.

Definition ret {A} (a : A) : M A := fun s => (Val A a, s).

Definition raise {A} (e : PyException) : M A := fun s => (Exc A e, s).

Definition diverge {A} : M A := fun s => (Diverged A, s).

Definition bind {A B} (m : M A) (k : A -> M B) : M B :=
  fun s =>
    match m s with
    | (Val _ a, s') => k a s'
    | (Exc _ e, s') => (Exc B e, s')
    | (Diverged _, s') => (Diverged B, s')
    end.

(** [try: body  except Exception as e: handler(e)], and the bare
    [except:] which for exceptions of class [Exception] is the same. *)
Definition try_except {A} (body : M A) (handler : PyException -> M A) : M A :=
  fun s =>
    match body s with
    | (Exc _ e, s') => handler e s'
    | r => r
    end.

(** [async with <browser> as browser: body]: leaving the block, normally
    or by a fault, closes the browser; a fault of the close replaces the
    one in flight. *)
Definition leaving {A} (body : M A) (on_exit : M unit) : M A :=
  fun s =>
    match body s with
    | (Val _ a, s') =>
        match on_exit s' with
        | (Val _ _, s'') => (Val A a, s'')
        | (Exc _ e, s'') => (Exc A e, s'')
        | (Diverged _, s'') => (Diverged A, s'')
        end
    | (Exc _ e, s') =>
        match on_exit s' with
        | (Val _ _, s'') => (Exc A e, s'')
        | (Exc _ e', s'') => (Exc A e', s'')
        | (Diverged _, s'') => (Diverged A, s'')
        end
    | (Diverged _, s') => (Diverged A, s')
    end.

(** One external call: it is recorded, then it answers. *)
Definition call {A} (ev : Event) (answer : outcome A) : M A :=
  fun s =>
    let s' := {| vars := vars s; ticks := ticks s; ids := ids s;
                 trace := trace s ++ [ev] |} in
    match answer with
    | Ok a => (Val A a, s')
    | Fault e => (Exc A e, s')
    end.

Definition get_vars : M L := fun s => (Val L (vars s), s).

Definition set_vars (l : L) : M unit :=
  fun s => (Val unit tt,
            {| vars := l; ticks := ticks s; ids := ids s; trace := trace s |}).

(** [datetime.now()] / [datetime.utcnow()]: the next reading of [clock],
    in microseconds. *)
Definition now (clock : nat -> Z) : M Z :=
  fun s => (Val Z (clock (ticks s)),
            {| vars := vars s; ticks := S (ticks s); ids := ids s;
               trace := trace s |}).

(** [str(uuid.uuid4())]: the next identifier of the supply. *)
Definition uuid4 (supply : nat -> string) : M string :=
  fun s => (Val string (supply (ids s)),
            {| vars := vars s; ticks := ticks s; ids := S (ids s);
               trace := trace s |}).

End Effects.

Arguments Runtime L : clear implicits.
Arguments M L A : clear implicits.
Arguments res A : clear implicits.
Arguments Val {A} a.
Arguments Exc {A} e.
Arguments Diverged {A}.

Declare Scope py_scope.
Delimit Scope py_scope with py.
Notation "x <- m ;; k" := (bind m (fun x => k))
  (at level 100, m at next level, right associativity) : py_scope.
Notation "m ;;; k" := (bind m (fun _ => k))
  (at level 100, right associativity) : py_scope.

(** The methods of the page and element handles, as calls. *)
Section Handles.
Context {L : Type}.

Definition goto_ (answer : string -> outcome unit) (url : string) : M L unit :=
  call (EvGoto url) (answer url).

Definition wait_for_load_state (p : Page) (state : string) : M L unit :=
  call (EvWaitLoadState state) (page_wait_for_load_state p state).

Definition wait_for_selector (p : Page) (selector : string) : M L unit :=
  call (EvWaitSelector selector) (page_wait_for_selector p selector).

Definition query_selector (p : Page) (selector : string)
  : M L (option ElementHandle) :=
  call (EvQuerySelector selector) (page_query_selector p selector).

Definition query_selector_all (p : Page) (selector : string)
  : M L (list ElementHandle) :=
  call (EvQuerySelectorAll selector) (page_query_selector_all p selector).

Definition title (p : Page) : M L string := call EvTitle (page_title p).

Definition text_content (el : ElementHandle) : M L (option string) :=
  call EvTextContent (el_text_content el).

Definition get_attribute (el : ElementHandle) (name : string)
  : M L (option string) :=
  call (EvGetAttribute name) (el_get_attribute el name).

End Handles.

(** ** The data model ([app/models/product.py]) *)

(** A Python [float] obtained by [float(literal)], kept as the decimal
    numeral it was read from. *)
Record PyFloat : Type := { literal : string }.

Inductive NutritionValue : Type :=
| NumberValue (x : PyFloat)
| TextValue (s : string).

(** A [dict] from nutrient keys to values, in insertion order. *)
Definition NutritionFacts : Type := list (string * NutritionValue).

(** The nondeterministic sources of the process: the wall clock, read in
    microseconds, and the generator of identifiers. *)
Record World : Type := {
  clock : nat -> Z;
  uuid_supply : nat -> string;
}.

Module ProductData.

Record t : Type := {
  id : string;
  url : string;
  product_name : string;
  brand : option string;
  description : option string;
  price : option PyFloat;
  ingredients : list string;
  allergens : option (list string);
  nutrition_facts : option NutritionFacts;
  scraped_at : Z;            (* the instant whose ISO text the field holds *)
  scrape_duration : Z;       (* microseconds; [total_seconds()] is this / 10^6 *)
  scrape_status : string;
  error_message : option string;
  scraper_version : string;
}.

(** The generated [__init__]: keyword arguments are evaluated by the
    caller; then the [default_factory] of [id] draws an identifier, and
    that of [scraped_at] reads the clock unless the caller gave a value. *)
Definition init {L} (w : World)
    (url product_name : string) (brand description : option string)
    (price : option PyFloat) (ingredients : list string)
    (allergens : option (list string))
    (nutrition_facts : option NutritionFacts)
    (scraped_at : option Z) (scrape_duration : Z) (scrape_status : string)
    (error_message : option string) : M L t :=
  (id <- uuid4 (uuid_supply w) ;;
   scraped_at <- match scraped_at with
                 | Some i => ret i
                 | None => now (clock w)
                 end ;;
   ret {| id := id; url := url; product_name := product_name;
          brand := brand; description := description; price := price;
          ingredients := ingredients; allergens := allergens;
          nutrition_facts := nutrition_facts; scraped_at := scraped_at;
          scrape_duration := scrape_duration;
          scrape_status := scrape_status;
          error_message := error_message;
          scraper_version := "1.0.0" |})%py.

(** [product.product_name = name] *)
Definition set_product_name (p : t) (name : string) : t :=
  {| id := id p; url := url p; product_name := name;
     brand := brand p; description := description p; price := price p;
     ingredients := ingredients p; allergens := allergens p;
     nutrition_facts := nutrition_facts p; scraped_at := scraped_at p;
     scrape_duration := scrape_duration p;
     scrape_status := scrape_status p;
     error_message := error_message p;
     scraper_version := scraper_version p |}.

(** A document of the [products] collection: for each key, [None] when
    the document lacks it, and otherwise a value of the declared type of
    the field. *)
Record Document : Type := {
  doc_id : option string;
  doc_url : option string;
  doc_product_name : option string;
  doc_brand : option (option string);
  doc_description : option (option string);
  doc_price : option (option PyFloat);
  doc_ingredients : option (list string);
  doc_allergens : option (option (list string));
  doc_nutrition_facts : option (option NutritionFacts);
  doc_scraped_at : option Z;
  doc_scrape_duration : option Z;
  doc_scrape_status : option string;
  doc_error_message : option (option string);
  doc_scraper_version : option string;
}.

(** [to_dict()]: every key is present. *)
Definition to_dict (self : t) : Document :=
  {| doc_id := Some (id self);
     doc_url := Some (url self);
     doc_product_name := Some (product_name self);
     doc_brand := Some (brand self);
     doc_description := Some (description self);
     doc_price := Some (price self);
     doc_ingredients := Some (ingredients self);
     doc_allergens := Some (allergens self);
     doc_nutrition_facts := Some (nutrition_facts self);
     doc_scraped_at := Some (scraped_at self);
     doc_scrape_duration := Some (scrape_duration self);
     doc_scrape_status := Some (scrape_status self);
     doc_error_message := Some (error_message self);
     doc_scraper_version := Some (scraper_version self) |}.

(** [data.get(key)]: [None] for a missing key. *)
Definition get {A} (field : option (option A)) : option A :=
  match field with
  | Some value => value
  | None => None
  end.

(** [from_dict(data)].  The defaults handed to [data.get] are arguments,
    evaluated before the lookup: an identifier is drawn and the clock is
    read whether or not the keys are present.  Every field is then passed
    to the constructor, so no [default_factory] runs. *)
Definition from_dict {L} (w : World) (data : Document) : M L t :=
  (fresh <- uuid4 (uuid_supply w) ;;
   utcnow <- now (clock w) ;;
   ret {| id := default fresh (doc_id data);
          url := default EmptyString (doc_url data);
          product_name := default EmptyString (doc_product_name data);
          brand := get (doc_brand data);
          description := get (doc_description data);
          price := get (doc_price data);
          ingredients := default [] (doc_ingredients data);
          allergens := get (doc_allergens data);
          nutrition_facts := get (doc_nutrition_facts data);
          scraped_at := default utcnow (doc_scraped_at data);
          scrape_duration := default 0 (doc_scrape_duration data);
          scrape_status := default "pending" (doc_scrape_status data);
          error_message := get (doc_error_message data);
          scraper_version := default "1.0.0" (doc_scraper_version data) |})%py.

(** [is_valid()] *)
Definition is_valid (self : t) : bool :=
  Py.truthy (product_name self)
  && Py.truthy (url self)
  && match ingredients self with [] => false | _ => true end
  && existsb (String.eqb (scrape_status self)) ["pending"; "success"; "failed"].

End ProductData.

Module ScrapeJob.

Record t : Type := {
  job_id : string;
  url : string;
  status : string;
  created_at : Z;
  started_at : option Z;
  completed_at : option Z;
  result_product_id : option string;
  error_message : option string;
  retry_count : Z;
  max_retries : Z;
  options : list (string * string);
}.

(** [ScrapeJob(job_id=..., url=..., status='pending', created_at=...,
    max_retries=3)] as [scrape_product] builds it; the other fields take
    their defaults. *)
Definition pending (job_id url : string) (created_at : Z) : t :=
  {| job_id := job_id; url := url; status := "pending";
     created_at := created_at; started_at := None; completed_at := None;
     result_product_id := None; error_message := None;
     retry_count := 0; max_retries := 3; options := [] |}.

(** The three methods; [utcnow] is the reading of [datetime.utcnow()]
    each of them takes. *)
Definition mark_processing (self : t) (utcnow : Z) : t :=
  {| job_id := job_id self; url := url self;
     status := "processing";
     created_at := created_at self;
     started_at := Some utcnow;
     completed_at := completed_at self;
     result_product_id := result_product_id self;
     error_message := error_message self;
     retry_count := retry_count self; max_retries := max_retries self;
     options := options self |}.

Definition mark_completed (self : t) (product_id : string) (utcnow : Z) : t :=
  {| job_id := job_id self; url := url self;
     status := "completed";
     created_at := created_at self;
     started_at := started_at self;
     completed_at := Some utcnow;
     result_product_id := Some product_id;
     error_message := error_message self;
     retry_count := retry_count self; max_retries := max_retries self;
     options := options self |}.

Definition mark_failed (self : t) (error : string) (utcnow : Z) : t :=
  {| job_id := job_id self; url := url self;
     status := "failed";
     created_at := created_at self;
     started_at := started_at self;
     completed_at := Some utcnow;
     result_product_id := result_product_id self;
     error_message := Some error;
     retry_count := retry_count self + 1; max_retries := max_retries self;
     options := options self |}.

End ScrapeJob.

(** ** The product-page extractor ([app/scrapers/traderjoes.py]) *)

(** The double-quote character, for selectors that quote a value. *)
Definition dq : string := String (ascii_of_nat 34) EmptyString.

(** [tag[attr op "value"]] *)
Definition attr_selector (tag attr op value : string) : string :=
  tag +:+ "[" +:+ attr +:+ op +:+ dq +:+ value +:+ dq +:+ "]".

(** What the rendering capability answers to [setup_page]: a page handle
    is observed while the browser is open and again, by the error handler,
    after the [async with] block closed it. *)
Record PageHandle : Type := {
  while_open : Page;
  once_closed : Page;
}.

Record Session : Type := {
  launch : outcome unit;
  new_page : outcome PageHandle;
  set_viewport_size : outcome unit;
  set_extra_http_headers : outcome unit;
  set_default_timeout : outcome unit;
  goto : string -> outcome unit;
  close : outcome unit;
}.

Module TraderJoesScraper.
Section Scraper.

(** [_extract_nutrition] is taken as given: like its siblings it ends in
    [except Exception: return None], so it always returns. *)
Variable _extract_nutrition :
  forall L : Type, Page -> M L (option NutritionFacts).

Variable w : World.
Variable browser : Session.

Definition can_handle (url : string) : bool :=
  Py.contains "traderjoes.com" (Py.lower url)
  && Py.contains "/products/" (Py.lower url).

Definition name_selectors : list string :=
  [ attr_selector "h1" "data-testid" "=" "product-name";
    "h1.ProductDetails__title";
    "h1.ProductDetails__name";
    attr_selector "h1" "class" "*=" "ProductDetails";
    attr_selector "h1" "class" "*=" "product-name";
    attr_selector "h1" "class" "*=" "product-title";
    attr_selector "h1" "itemprop" "=" "name";
    "h1" ].

(** [text and text.strip() and text.strip() != 'Oops!'] *)
Definition usable_name (text : option string) : bool :=
  match text with
  | Some t => Py.truthy t && Py.truthy (Py.strip t)
              && negb (String.eqb (Py.strip t) "Oops!")
  | None => false
  end.

(** The [for selector in selectors] loop of [_extract_product_name];
    [None] when the loop ends without a [return]. *)
Fixpoint name_from_selectors {L} (page : Page) (selectors : list string)
  : M L (option string) :=
  match selectors with
  | [] => ret None
  | selector :: rest =>
      (element <- query_selector page selector ;;
       match element with
       | Some el =>
           text <- text_content el ;;
           if usable_name text
           then ret (Some (Py.strip (default EmptyString text)))
           else name_from_selectors page rest
       | None => name_from_selectors page rest
       end)%py
  end.

(** The last resort of [_extract_product_name]: the page title. *)
Definition name_from_title (title : string) : option string :=
  if Py.truthy title && Py.contains "Trader Joe's" title then
    let name := Py.strip (Py.replace "Trader Joe's" EmptyString
                            (Py.first_field (Ascii.eqb "|") title)) in
    if Py.truthy name && negb (String.eqb name "Oops!")
    then Some name else None
  else None.

Definition _extract_product_name {L} (page : Page) : M L string :=
  try_except
    (found <- name_from_selectors page name_selectors ;;
     match found with
     | Some name => ret name
     | None =>
         t <- title page ;;
         match name_from_title t with
         | Some name => ret name
         | None => ret "Unknown Product"
         end
     end)%py
    (fun _ => ret "Unknown Product").

Definition description_selectors : list string :=
  [ attr_selector "div" "data-testid" "=" "product-description";
    "div.ProductDetails__description";
    attr_selector "div" "class" "*=" "ProductDetails__description";
    attr_selector "div" "class" "*=" "product-description";
    attr_selector "div" "itemprop" "=" "description";
    "div.ProductDetails__content";
    attr_selector "div" "class" "*=" "ProductDetails__content" ].

Fixpoint description_from_selectors {L} (page : Page)
    (selectors : list string) : M L (option string) :=
  match selectors with
  | [] => ret None
  | selector :: rest =>
      (element <- query_selector page selector ;;
       match element with
       | Some el =>
           text <- text_content el ;;
           match text with
           | Some t =>
               if Py.truthy t && Py.truthy (Py.strip t)
               then ret (Some (Py.strip t))
               else description_from_selectors page rest
           | None => description_from_selectors page rest
           end
       | None => description_from_selectors page rest
       end)%py
  end.

Definition _extract_description {L} (page : Page) : M L (option string) :=
  try_except (description_from_selectors page description_selectors)
             (fun _ => ret None).

Definition price_selectors : list string :=
  [ attr_selector "span" "data-testid" "=" "product-price";
    "span.product-price";
    attr_selector "span" "itemprop" "=" "price" ].

Fixpoint take_digits (s : string) : string * string :=
  match s with
  | String c r =>
      if Py.is_digit c
      then let '(d, rest) := take_digits r in (String c d, rest)
      else (EmptyString, s)
  | EmptyString => (EmptyString, EmptyString)
  end.

(** Group 1 of the search for an optional dollar sign followed by the
    group: digits, an optional point, optional digits.  The leftmost
    match puts the group at the first digit of [text]; every quantifier
    is greedy and nothing after the group can make it give back. *)
Fixpoint search_price (text : string) : option string :=
  match text with
  | EmptyString => None
  | String c r =>
      if Py.is_digit c then
        let '(whole, rest) := take_digits text in
        match rest with
        | String "." rest' => Some (whole +:+ "." +:+ fst (take_digits rest'))
        | _ => Some whole
        end
      else search_price r
  end.

Fixpoint price_from_selectors {L} (page : Page) (selectors : list string)
  : M L (option PyFloat) :=
  match selectors with
  | [] => ret None
  | selector :: rest =>
      (element <- query_selector page selector ;;
       match element with
       | Some el =>
           text <- text_content el ;;
           match text with
           | Some t =>
               if Py.truthy t then
                 match search_price t with
                 | Some lit => ret (Some {| literal := lit |})
                 | None => price_from_selectors page rest
                 end
               else price_from_selectors page rest
           | None => price_from_selectors page rest
           end
       | None => price_from_selectors page rest
       end)%py
  end.

Definition _extract_price {L} (page : Page) : M L (option PyFloat) :=
  try_except (price_from_selectors page price_selectors)
             (fun _ => ret None).

Definition ingredients_selectors : list string :=
  [ attr_selector "div" "class" "*=" "IngredientsSummary";
    attr_selector "div" "class" "*=" "ingredients-summary";
    attr_selector "div" "class" "*=" "ingredients";
    attr_selector "div" "data-testid" "=" "ingredients";
    attr_selector "div" "itemprop" "=" "ingredients";
    "div:has-text(" +:+ dq +:+ "Ingredients" +:+ dq +:+ " i)" ].

Fixpoint ingredients_from_selectors {L} (page : Page)
    (selectors : list string) : M L (list string) :=
  match selectors with
  | [] => ret []
  | selector :: rest =>
      (element <- query_selector page selector ;;
       match element with
       | Some el =>
           text <- text_content el ;;
           match text with
           | Some t =>
               if Py.truthy t then
                 let t := Py.strip (Py.replace "Ingredients:" EmptyString t) in
                 match BaseScraper.parse_ingredients (Some t) with
                 | [] => ingredients_from_selectors page rest
                 | ingredients => ret ingredients
                 end
               else ingredients_from_selectors page rest
           | None => ingredients_from_selectors page rest
           end
       | None => ingredients_from_selectors page rest
       end)%py
  end.

Definition _extract_ingredients {L} (page : Page) : M L (list string) :=
  try_except (ingredients_from_selectors page ingredients_selectors)
             (fun _ => ret []).

Definition allergens_selectors : list string :=
  [ "ul.IngredientsSummary_ingredientsSummary__allergensList__1ROpD li";
    attr_selector "ul" "class" "*="
      "IngredientsSummary_ingredientsSummary__allergensList" +:+ " li";
    attr_selector "ul" "class" "*=" "allergensList" +:+ " li";
    "div.IngredientsSummary_ingredientsSummary__1WMGh ul li";
    attr_selector "div" "class" "*="
      "IngredientsSummary_ingredientsSummary" +:+ " ul li";
    attr_selector "div" "class" "*=" "ingredients-summary" +:+ " ul li";
    attr_selector "div" "class" "*=" "allergens";
    attr_selector "div" "data-testid" "=" "allergens";
    attr_selector "div" "class" "*=" "allergen-information";
    "div:has-text(" +:+ dq +:+ "allergen" +:+ dq +:+ " i)";
    "div:has-text(" +:+ dq +:+ "contains" +:+ dq +:+ " i)" ].

(** The inner loop over one element's text, split at [[,;]]. *)
Definition allergens_of_text (allergens : list string) (text : string)
  : list string :=
  let text := Py.strip (Py.replace "Contains" EmptyString
                          (Py.replace "CONTAINS" EmptyString text)) in
  fold_left
    (fun allergens allergen =>
       let allergen := Py.strip allergen in
       if Py.truthy allergen then allergens ++ [allergen] else allergens)
    (Py.split_on BaseScraper.is_separator text) allergens.

Fixpoint allergens_of_elements {L} (elements : list ElementHandle)
    (allergens : list string) : M L (list string) :=
  match elements with
  | [] => ret allergens
  | element :: rest =>
      (text <- text_content element ;;
       match text with
       | Some t =>
           if Py.truthy t
           then allergens_of_elements rest (allergens_of_text allergens t)
           else allergens_of_elements rest allergens
       | None => allergens_of_elements rest allergens
       end)%py
  end.

Fixpoint allergens_from_selectors {L} (page : Page)
    (selectors : list string) : M L (option (list string)) :=
  match selectors with
  | [] => ret None
  | selector :: rest =>
      (elements <- query_selector_all page selector ;;
       match elements with
       | [] => allergens_from_selectors page rest
       | _ =>
           allergens <- allergens_of_elements elements [] ;;
           match allergens with
           | [] => allergens_from_selectors page rest
           | _ => ret (Some allergens)
           end
       end)%py
  end.

Definition _extract_allergens {L} (page : Page)
  : M L (option (list string)) :=
  try_except (allergens_from_selectors page allergens_selectors)
             (fun _ => ret None).

(** [BaseScraper.setup_page], inherited. *)
Definition setup_page {L} : M L PageHandle :=
  (page <- call EvNewPage (new_page browser) ;;
   call EvSetViewport (set_viewport_size browser) ;;;
   call EvSetHeaders (set_extra_http_headers browser) ;;;
   call EvSetTimeout (set_default_timeout browser) ;;;
   ret page)%py.

(** [BaseScraper.wait_for_content], inherited. *)
Definition wait_for_content {L} (page : Page) : M L bool :=
  try_except
    (wait_for_load_state page "networkidle" ;;;
     wait_for_selector page "body" ;;;
     ret true)%py
    (fun _ => ret false).

(** [BaseScraper.handle_errors], inherited; [self._extract_product_name]
    is the override above.  The handler runs once the browser was closed,
    so [page] is the handle as it answers then. *)
Definition handle_errors {L} (page : Page) (error : PyException)
  : M L ProductData.t :=
  (product <- ProductData.init w (page_url page) EmptyString None None None
                [] None None None 0 "failed" (Some (exc_str error)) ;;
   try_except
     (name <- _extract_product_name page ;;
      ret (ProductData.set_product_name product name))
     (fun _ => ret product))%py.

(** [scrape(url)], in three parts: the statements of the [async with]
    block after [page] is assigned, the body of the [try], and the
    [except] handler.  The frame holds the local variable [page], which
    the handler tests. *)
Definition scrape_page (url : string) (start_time : Z) (page : Page)
  : M (option PageHandle) ProductData.t :=
  (goto_ (goto browser) url ;;;
   wait_for_load_state page "domcontentloaded" ;;;
   wait_for_load_state page "networkidle" ;;;
   try_except (wait_for_selector page "h1") (fun _ => ret tt) ;;;
   loaded <- wait_for_content page ;;
   if negb loaded
   then raise {| exc_str := "Failed to load page content" |}
   else
     product_name <- _extract_product_name page ;;
     description <- _extract_description page ;;
     price <- _extract_price page ;;
     ingredients <- _extract_ingredients page ;;
     allergens <- _extract_allergens page ;;
     nutrition_facts <- _extract_nutrition _ page ;;
     scraped_at <- now (clock w) ;;
     finished <- now (clock w) ;;
     ProductData.init w url product_name (Some "Trader Joe's")
       description price ingredients allergens nutrition_facts
       (Some scraped_at) (finished - start_time) "success" None)%py.

Definition scrape_body (url : string) (start_time : Z)
  : M (option PageHandle) ProductData.t :=
  (call EvLaunch (launch browser) ;;;
   leaving
     (page <- setup_page ;;
      set_vars (Some page) ;;;
      scrape_page url start_time (while_open page))
     (call EvClose (close browser)))%py.

Definition scrape_handler (url : string) (start_time : Z) (e : PyException)
  : M (option PageHandle) ProductData.t :=
  (page <- get_vars ;;
   match page with
   | Some page => handle_errors (once_closed page) e
   | None =>
       (* the page was not created: a basic error product *)
       finished <- now (clock w) ;;
       ProductData.init w url EmptyString None None None [] None None
         None (finished - start_time) "failed" (Some (exc_str e))
   end)%py.

Definition scrape (url : string) : M (option PageHandle) ProductData.t :=
  (start_time <- now (clock w) ;;
   set_vars None ;;;
   try_except (scrape_body url start_time) (scrape_handler url start_time))%py.

End Scraper.

(** [float(s)]: the number read from [s]; [None] stands for
    [ValueError]. *)
Definition float_of (s : string) : option PyFloat :=
  if Py.is_float_literal s then Some {| literal := Py.strip_float s |}
  else None.

(** [nutrition[key] = value]: a key already present keeps its place. *)
Fixpoint dict_set (nutrition : NutritionFacts) (key : string)
    (value : NutritionValue) : NutritionFacts :=
  match nutrition with
  | [] => [(key, value)]
  | (k, v) :: rest =>
      if String.eqb k key then (k, value) :: rest
      else (k, v) :: dict_set rest key value
  end.

(** Digits, then optionally a point and digits: the pattern of a decimal
    number, matched at the start of [s]; the match and the rest of [s]. *)
Definition decimal (s : string) : option (string * string) :=
  let '(whole, rest) := take_digits s in
  if Py.truthy whole then
    match rest with
    | String "." rest' =>
        let '(fraction, rest'') := take_digits rest' in
        if Py.truthy fraction then Some (whole +:+ "." +:+ fraction, rest'')
        else Some (whole, rest)
    | _ => Some (whole, rest)
    end
  else None.

(** What follows the label in a pattern of [parse_nutrition], after
    optional whitespace: the rest of the line; digits; a decimal number
    followed by optional whitespace and [g]; digits followed by optional
    whitespace and [mg]. *)
Inductive Shape : Type := RestOfLine | Count | Grams | Milligrams.

(** Group 1 of a pattern of the given shape, matched on the text [r] that
    follows the label. *)
Definition match_shape (shape : Shape) (r : string) : option string :=
  let r := Py.lstrip r in
  match shape with
  | RestOfLine =>
      Some (fst (Py.span (fun c => negb (Ascii.eqb c (ascii_of_nat 10))) r))
  | Count =>
      let '(digits, _) := take_digits r in
      if Py.truthy digits then Some digits else None
  | Grams =>
      match decimal r with
      | Some (group, rest) =>
          match Py.drop_prefix_ci "g" (Py.lstrip rest) with
          | Some _ => Some group
          | None => None
          end
      | None => None
      end
  | Milligrams =>
      let '(digits, rest) := take_digits r in
      if Py.truthy digits then
        match Py.drop_prefix_ci "mg" (Py.lstrip rest) with
        | Some _ => Some digits
        | None => None
        end
      else None
  end.

(** The [patterns] of [parse_nutrition], in the order of the [dict]: the
    key, the literal the pattern starts with, and what follows it. *)
Definition nutrition_patterns : list (string * (string * Shape)) :=
  [ ("serving_size", ("serving size:", RestOfLine));
    ("servings_per_container", ("servings per container:", Count));
    ("calories", ("calories:", Count));
    ("total_fat", ("total fat:", Grams));
    ("saturated_fat", ("saturated fat:", Grams));
    ("trans_fat", ("trans fat:", Grams));
    ("cholesterol", ("cholesterol:", Milligrams));
    ("sodium", ("sodium:", Milligrams));
    ("total_carbohydrates", ("total carbohydrates:", Grams));
    ("dietary_fiber", ("dietary fiber:", Grams));
    ("sugars", ("sugars:", Grams));
    ("protein", ("protein:", Grams)) ].

(** [re.search(pattern, text, re.IGNORECASE)] for one pattern: group 1 of
    the leftmost match. *)
Definition search_pattern (label : string) (shape : Shape) (text : string)
  : option string :=
  Py.search
    (fun s =>
       match Py.drop_prefix_ci label s with
       | Some r => match_shape shape r
       | None => None
       end)
    text.

(** The body of the loop of [parse_nutrition]. *)
Definition parse_nutrition_step (text : string) (nutrition : NutritionFacts)
    (pattern : string * (string * Shape)) : NutritionFacts :=
  let '(key, (label, shape)) := pattern in
  match search_pattern label shape text with
  | Some group =>
      match float_of group with
      | Some value => dict_set nutrition key (NumberValue value)
      | None => dict_set nutrition key (TextValue group)   (* [ValueError] *)
      end
  | None => nutrition
  end.

(** [BaseScraper.parse_nutrition], inherited. *)
Definition parse_nutrition (text : option string) : option NutritionFacts :=
  match text with
  | None => None
  | Some t =>
      if Py.truthy t then
        match fold_left (parse_nutrition_step t) nutrition_patterns [] with
        | [] => None
        | nutrition => Some nutrition
        end
      else None
  end.

Definition nutrition_selectors : list string :=
  [ attr_selector "div" "data-testid" "=" "nutrition-facts";
    "div.ProductDetails__nutrition";
    attr_selector "div" "class" "*=" "ProductDetails__nutrition";
    attr_selector "div" "class" "*=" "nutrition-facts";
    attr_selector "div" "itemprop" "=" "nutrition";
    "div.ProductDetails__content:has-text(" +:+ dq +:+ "Nutrition Facts"
      +:+ dq +:+ ")";
    attr_selector "div" "class" "*=" "ProductDetails__content"
      +:+ ":has-text(" +:+ dq +:+ "Nutrition Facts" +:+ dq +:+ ")";
    "table.NutritionFacts";
    attr_selector "table" "class" "*=" "NutritionFacts" ].

(** How the value cell of a table row is read: kept as the text it is;
    the first run of digits; the first decimal number. *)
Inductive Cell : Type := AsText | AsInteger | AsDecimal.

(** The chain of [if]/[elif] over the label of a row, in its order: the
    text looked for in the label, the key it sets, and how the value is
    read. *)
Definition table_labels : list (string * (string * Cell)) :=
  [ ("serving size", ("serving_size", AsText));
    ("servings per container", ("servings_per_container", AsText));
    ("calories", ("calories", AsInteger));
    ("total fat", ("total_fat", AsDecimal));
    ("saturated fat", ("saturated_fat", AsDecimal));
    ("trans fat", ("trans_fat", AsDecimal));
    ("cholesterol", ("cholesterol", AsInteger));
    ("sodium", ("sodium", AsInteger));
    ("total carbohydrate", ("total_carbohydrates", AsDecimal));
    ("dietary fiber", ("dietary_fiber", AsDecimal));
    ("sugars", ("sugars", AsDecimal));
    ("protein", ("protein", AsDecimal)) ].

(** The first branch of the chain whose text occurs in [label]. *)
Fixpoint table_branch (label : string)
    (branches : list (string * (string * Cell))) : option (string * Cell) :=
  match branches with
  | [] => None
  | (needle, branch) :: rest =>
      if Py.contains needle label then Some branch
      else table_branch label rest
  end.

(** The search for a run of digits, and for a decimal number, in the value
    of a row: the text of the leftmost match. *)
Definition search_digits (value : string) : option string :=
  Py.search
    (fun s => let '(digits, _) := take_digits s in
              if Py.truthy digits then Some digits else None)
    value.

Definition search_decimal (value : string) : option string :=
  Py.search (fun s => option_map fst (decimal s)) value.

(** [nutrition[key] = float(found.group())] under a bare [except: pass]:
    nothing is set when the search found nothing or the conversion
    fails. *)
Definition set_number (nutrition : NutritionFacts) (key : string)
    (found : option string) : NutritionFacts :=
  match found with
  | Some group =>
      match float_of group with
      | Some value => dict_set nutrition key (NumberValue value)
      | None => nutrition
      end
  | None => nutrition
  end.

(** One row of the table, from the texts of its first two cells. *)
Definition table_row (nutrition : NutritionFacts) (label value : string)
  : NutritionFacts :=
  let label := Py.lower (Py.strip label) in
  let value := Py.strip value in
  match table_branch label table_labels with
  | Some (key, AsText) => dict_set nutrition key (TextValue value)
  | Some (key, AsInteger) => set_number nutrition key (search_digits value)
  | Some (key, AsDecimal) => set_number nutrition key (search_decimal value)
  | None => nutrition
  end.

Section Nutrition.

(** [element.query_selector_all(selector)]: what the document holds below
    an element. *)
Variable element_query_selector_all :
  ElementHandle -> string -> outcome (list ElementHandle).

Definition query_selector_all_in {L} (element : ElementHandle)
    (selector : string) : M L (list ElementHandle) :=
  call (EvQuerySelectorAll selector) (element_query_selector_all element selector).

(** The [for row in rows] loop. *)
Fixpoint table_rows {L} (rows : list ElementHandle)
    (nutrition : NutritionFacts) : M L NutritionFacts :=
  match rows with
  | [] => ret nutrition
  | row :: rest =>
      (cells <- query_selector_all_in row "td, th" ;;
       match cells with
       | cell0 :: cell1 :: _ =>
           label <- text_content cell0 ;;
           value <- text_content cell1 ;;
           match label, value with
           | Some label, Some value =>
               table_rows rest (table_row nutrition label value)
           | _, _ =>
               (* [None.strip]: an [AttributeError] *)
               raise {| exc_str :=
                 "'NoneType' object has no attribute 'strip'" |}
           end
       | _ => table_rows rest nutrition
       end)%py
  end.

(** The inner [try] of [_extract_nutrition]: the table below [element];
    [None] when the block ends without a [return]. *)
Definition nutrition_from_table {L} (element : ElementHandle)
  : M L (option NutritionFacts) :=
  try_except
    (rows <- query_selector_all_in element "tr" ;;
     match rows with
     | [] => ret None
     | _ =>
         nutrition <- table_rows rows [] ;;
         match nutrition with
         | [] => ret None
         | _ => ret (Some nutrition)
         end
     end)%py
    (fun _ => ret None).

(** The [for selector in selectors] loop. *)
Fixpoint nutrition_from_selectors {L} (page : Page) (selectors : list string)
  : M L (option NutritionFacts) :=
  match selectors with
  | [] => ret None
  | selector :: rest =>
      (element <- query_selector page selector ;;
       match element with
       | Some el =>
           text <- text_content el ;;
           match text with
           | Some t =>
               if Py.truthy t then
                 match parse_nutrition (Some t) with
                 | Some (entry :: entries) => ret (Some (entry :: entries))
                 | _ =>
                     found <- nutrition_from_table el ;;
                     match found with
                     | Some nutrition => ret (Some nutrition)
                     | None => nutrition_from_selectors page rest
                     end
                 end
               else nutrition_from_selectors page rest
           | None => nutrition_from_selectors page rest
           end
       | None => nutrition_from_selectors page rest
       end)%py
  end.

Definition _extract_nutrition (L : Type) (page : Page)
  : M L (option NutritionFacts) :=
  try_except (nutrition_from_selectors page nutrition_selectors)
             (fun _ => ret None).

End Nutrition.

End TraderJoesScraper.

(** ** The pagination crawler ([app/scrapers/product_url_scraper.py]) *)

(** What the rendering capability answers during one crawl.  Navigations
    are told apart by the value of [current_page] at which they are made. *)
Record Listing : Type := {
  listing_launch : outcome unit;
  listing_new_page : outcome unit;
  listing_set_viewport_size : outcome unit;
  listing_set_extra_http_headers : outcome unit;
  listing_set_default_timeout : outcome unit;
  listing_goto : Z -> string -> outcome unit;
  listing_page : Z -> string -> Page;   (* the page once that navigation is done *)
  listing_close : outcome unit;
}.

Module ProductUrlScraper.
Section Crawler.

Variable max_pages : option Z.   (* [None] is the default of [__init__] *)
Variable site : Listing.

Definition setup_page {L} : M L unit :=
  (call EvNewPage (listing_new_page site) ;;;
   call EvSetViewport (listing_set_viewport_size site) ;;;
   call EvSetHeaders (listing_set_extra_http_headers site) ;;;
   call EvSetTimeout (listing_set_default_timeout site))%py.

Definition product_list_selector : string :=
  attr_selector "ul" "class" "*=" "ProductList_productList__list".

Definition product_link_selector : string :=
  product_list_selector +:+ " "
  +:+ attr_selector "a" "class" "*=" "ProductCard_card__title".

(** The [for link in product_links] loop. *)
Fixpoint urls_of_links {L} (product_links : list ElementHandle)
    (urls : list string) : M L (list string) :=
  match product_links with
  | [] => ret urls
  | link :: rest =>
      (href <- get_attribute link "href" ;;
       text <- text_content link ;;
       match href with
       | Some h =>
           if Py.truthy h
           then urls_of_links rest (urls ++ ["https://www.traderjoes.com" +:+ h])
           else urls_of_links rest urls
       | None => urls_of_links rest urls
       end)%py
  end.

Definition _extract_product_urls {L} (page : Page) : M L (list string) :=
  try_except
    (wait_for_selector page product_list_selector ;;;
     product_links <- query_selector_all page product_link_selector ;;
     urls_of_links product_links [])%py
    (fun _ => ret []).

Definition pagination_selector : string :=
  attr_selector "div" "class" "*=" "Pagination_pagination__".

Definition next_button_selector : string :=
  attr_selector "button" "class" "*=" "Pagination_pagination__arrow__"
  +:+ ":not([disabled])".

Definition pagination_item_selector : string :=
  attr_selector "li" "class" "*=" "PaginationItem_paginationItem__".

(** The loop that looks for the item whose [aria-current] is [page]. *)
Fixpoint find_current_page {L} (pagination_items : list ElementHandle)
  : M L (option ElementHandle) :=
  match pagination_items with
  | [] => ret None
  | item :: rest =>
      (current <- get_attribute item "aria-current" ;;
       match current with
       | Some a => if String.eqb a "page" then ret (Some item)
                   else find_current_page rest
       | None => find_current_page rest
       end)%py
  end.

(** [current_page_text.replace('page', '').strip()] *)
Definition clean_page_number (current_page_text : string) : string :=
  Py.strip (Py.replace "page" EmptyString current_page_text).

(** The f-string that builds the next URL. *)
Definition next_url (current_url : string) (next_page_num : Z) : string :=
  let base_url := Py.first_field (Ascii.eqb "?") current_url in
  base_url +:+ "?filters=%7B%22page%22%3A"
  +:+ Py.str_of_int next_page_num +:+ "%7D".

Definition _get_next_page_url {L} (page : Page) : M L (option string) :=
  try_except
    (wait_for_selector page pagination_selector ;;;
     next_button <- query_selector page next_button_selector ;;
     match next_button with
     | Some _ =>
         pagination_items <- query_selector_all page pagination_item_selector ;;
         current_page <- find_current_page pagination_items ;;
         match current_page with
         | Some item =>
             current_page_text <- text_content item ;;
             match current_page_text with
             | Some t =>
                 match Py.int (clean_page_number t) with
                 | Some n => ret (Some (next_url (page_url page) (n + 1)))
                 | None => ret None          (* [except ValueError] *)
                 end
             | None =>
                 (* [None.replace]: an [AttributeError] *)
                 raise {| exc_str :=
                   "'NoneType' object has no attribute 'replace'" |}
             end
         | None => ret None
         end
     | None => ret None
     end)%py
    (fun _ => ret None).

(** [self.max_pages and current_page > self.max_pages]: [None] and [0]
    are falsy. *)
Definition cap_reached (current_page : Z) : bool :=
  match max_pages with
  | Some cap => negb (cap =? 0) && (cap <? current_page)
  | None => false
  end.

(** Truthiness of [current_url]: neither [None] nor the empty text. *)
Definition url_truthy (current_url : option string) : bool :=
  match current_url with
  | Some u => Py.truthy u
  | None => false
  end.

(** The [while current_url] loop; the frame holds [product_urls].  Each
    iteration takes one unit of [fuel]. *)
Fixpoint crawl_loop (fuel : nat) (current_url : option string)
    (current_page : Z) : M (list string) unit :=
  if negb (url_truthy current_url) then ret tt
  else
    match fuel with
    | O => diverge
    | S fuel' =>
        if cap_reached current_page then ret tt
        else
          let url := default EmptyString current_url in
          (call (EvGoto url) (listing_goto site current_page url) ;;;
           let page := listing_page site current_page url in
           wait_for_load_state page "domcontentloaded" ;;;
           page_urls <- _extract_product_urls page ;;
           product_urls <- get_vars ;;
           set_vars (product_urls ++ page_urls) ;;;
           next <- _get_next_page_url page ;;
           crawl_loop fuel' next (current_page + 1))%py
    end.

Definition scrape_category (fuel : nat) (category_url : string)
  : M (list string) (list string) :=
  (set_vars [] ;;;
   try_except
     (call EvLaunch (listing_launch site) ;;;
      leaving
        (setup_page ;;;
         crawl_loop fuel (Some category_url) 1 ;;;
         get_vars)
        (call EvClose (listing_close site)))
     (fun _ => get_vars))%py.

End Crawler.
End ProductUrlScraper.

(** ** SHA-256 and the index key ([hashlib.sha256(url.encode()).hexdigest()]) *)

Module SHA256.

Definition mask32 : Z := 0xFFFFFFFF.

Definition w32 (x : Z) : Z := Z.land x mask32.

Definition add32 (x y : Z) : Z := w32 (x + y).

Definition rotr (n x : Z) : Z :=
  Z.lor (Z.shiftr x n) (w32 (Z.shiftl x (32 - n))).

Definition not32 (x : Z) : Z := Z.lxor x mask32.

Definition Ch (x y z : Z) : Z := Z.lxor (Z.land x y) (Z.land (not32 x) z).

Definition Maj (x y z : Z) : Z :=
  Z.lxor (Z.lxor (Z.land x y) (Z.land x z)) (Z.land y z).

Definition Sigma0 (x : Z) : Z :=
  Z.lxor (Z.lxor (rotr 2 x) (rotr 13 x)) (rotr 22 x).

Definition Sigma1 (x : Z) : Z :=
  Z.lxor (Z.lxor (rotr 6 x) (rotr 11 x)) (rotr 25 x).

Definition sigma0 (x : Z) : Z :=
  Z.lxor (Z.lxor (rotr 7 x) (rotr 18 x)) (Z.shiftr x 3).

Definition sigma1 (x : Z) : Z :=
  Z.lxor (Z.lxor (rotr 17 x) (rotr 19 x)) (Z.shiftr x 10).

(** The constants are defined as FIPS 180-4 derives them, from the
    fractional parts of roots of the first primes. *)
Definition is_prime (n : Z) : bool :=
  (1 <? n)
  && forallb (fun d => negb (n mod d =? 0))
             (map Z.of_nat (seq 2 (Z.to_nat n - 2))).

Definition primes (count : nat) : list Z :=
  firstn count (List.filter is_prime (map Z.of_nat (seq 2 310))).

(** The largest [r] below [2 ^ bit] with [r ^ degree <= n], found bit by
    bit from the top. *)
Fixpoint root_search (degree : Z) (bit : nat) (n r : Z) : Z :=
  match bit with
  | O => r
  | S b =>
      let c := r + 2 ^ Z.of_nat b in
      root_search degree b n (if c ^ degree <=? n then c else r)
  end.

(** The first 32 bits of the fractional part of the [degree]-th root of
    [p]. *)
Definition root_fraction (degree p : Z) : Z :=
  w32 (root_search degree 40 (p * 2 ^ (32 * degree)) 0).

(** Cube roots of the first 64 primes. *)
Definition K : list Z :=
  Eval vm_compute in map (root_fraction 3) (primes 64).

(** Square roots of the first 8 primes. *)
Definition H0 : list Z :=
  Eval vm_compute in map (root_fraction 2) (primes 8).

(** Big-endian bytes of [x], [n] of them. *)
Fixpoint be_bytes (n : nat) (x : Z) : list Z :=
  match n with
  | O => []
  | S n' => Z.land (Z.shiftr x (8 * Z.of_nat n')) 255 :: be_bytes n' x
  end.

(** The message followed by the bit 1, zeros up to 56 modulo 64 bytes,
    and the bit length on eight bytes. *)
Definition pad (msg : list Z) : list Z :=
  let len := Z.of_nat (length msg) in
  let zeros := Z.to_nat ((55 - len) mod 64) in
  msg ++ [128] ++ repeat 0 zeros ++ be_bytes 8 (8 * len).

(** Big-endian 32-bit words of a byte sequence. *)
Fixpoint words (bytes : list Z) (n : nat) : list Z :=
  match n with
  | O => []
  | S n' =>
      match bytes with
      | a :: b :: c :: d :: rest =>
          (Z.shiftl a 24 + Z.shiftl b 16 + Z.shiftl c 8 + d) :: words rest n'
      | _ => []
      end
  end.

Definition word_at (W : list Z) (i : nat) : Z := nth i W 0.

(** The message schedule, extended from 16 words by [n] more. *)
Fixpoint schedule (n : nat) (W : list Z) : list Z :=
  match n with
  | O => W
  | S n' =>
      let t := length W in
      let x := add32 (add32 (sigma1 (word_at W (t - 2))) (word_at W (t - 7)))
                     (add32 (sigma0 (word_at W (t - 15))) (word_at W (t - 16))) in
      schedule n' (W ++ [x])
  end.

Record regs : Type := {
  ra : Z; rb : Z; rc : Z; rd : Z; re : Z; rf : Z; rg : Z; rh : Z
}.

Definition round (r : regs) (kw : Z * Z) : regs :=
  let '(k, w) := kw in
  let t1 := add32 (add32 (add32 (rh r) (Sigma1 (re r)))
                         (add32 (Ch (re r) (rf r) (rg r)) k)) w in
  let t2 := add32 (Sigma0 (ra r)) (Maj (ra r) (rb r) (rc r)) in
  {| ra := add32 t1 t2; rb := ra r; rc := rb r; rd := rc r;
     re := add32 (rd r) t1; rf := re r; rg := rf r; rh := rg r |}.

Definition regs_of (h : list Z) : regs :=
  {| ra := word_at h 0; rb := word_at h 1; rc := word_at h 2;
     rd := word_at h 3; re := word_at h 4; rf := word_at h 5;
     rg := word_at h 6; rh := word_at h 7 |}.

Definition compress (h : list Z) (block : list Z) : list Z :=
  let W := schedule 48 (words block 16) in
  let r := fold_left round (combine K W) (regs_of h) in
  [ add32 (word_at h 0) (ra r); add32 (word_at h 1) (rb r);
    add32 (word_at h 2) (rc r); add32 (word_at h 3) (rd r);
    add32 (word_at h 4) (re r); add32 (word_at h 5) (rf r);
    add32 (word_at h 6) (rg r); add32 (word_at h 7) (rh r) ].

Fixpoint blocks (n : nat) (h : list Z) (bytes : list Z) : list Z :=
  match n with
  | O => h
  | S n' => blocks n' (compress h (firstn 64 bytes)) (skipn 64 bytes)
  end.

(** The digest, as 32 bytes. *)
Definition digest (msg : list Z) : list Z :=
  let padded := pad msg in
  flat_map (be_bytes 4) (blocks (length padded / 64)%nat H0 padded).

Definition hex_digit (n : Z) : ascii :=
  if n <? 10 then ascii_of_N (Z.to_N (48 + n))
  else ascii_of_N (Z.to_N (87 + n)).

Fixpoint hex (bytes : list Z) : string :=
  match bytes with
  | [] => EmptyString
  | b :: rest =>
      String (hex_digit (Z.shiftr b 4))
        (String (hex_digit (Z.land b 15)) (hex rest))
  end.

Definition hexdigest (msg : list Z) : string := hex (digest msg).

End SHA256.

Module Utf8.

(** [str.encode()] (UTF-8) for code points below 256: one byte below
    128, two bytes from there on. *)
Fixpoint encode (s : string) : list Z :=
  match s with
  | EmptyString => []
  | String c r =>
      let n := Z.of_N (Py.code c) in
      if n <? 128 then n :: encode r
      else (192 + Z.shiftr n 6) :: (128 + Z.land n 63) :: encode r
  end.

End Utf8.

(** ** The store adapter ([app/services/firebase.py])

    The document store is modelled while it is reachable: every Firestore
    call succeeds, so no method takes its [except] branch.  A collection is
    a finite map from document ids to documents; [to_dict]/[from_dict] and
    the field lists of [store_job]/[get_job] copy the fields one to one, so
    a document is kept as the record it was written from. *)

Module FirebaseService.

Record UrlLookup : Type := {
  product_id : string;
  url : string;
  updated_at : Z;
}.

Record t : Type := {
  products : gmap string ProductData.t;
  url_lookup : gmap string UrlLookup;
  jobs : gmap string ScrapeJob.t;
}.

Definition empty : t :=
  {| products := ∅; url_lookup := ∅; jobs := ∅ |}.

Definition _generate_url_hash (url : string) : string :=
  SHA256.hexdigest (Utf8.encode url).

(** [store_product(product)]; [utcnow] is the clock reading it takes. *)
Definition store_product (product : ProductData.t) (utcnow : Z) (db : t)
  : bool * t :=
  let products' := <[ProductData.id product := product]> (products db) in
  let url_hash := _generate_url_hash (ProductData.url product) in
  let entry := {| product_id := ProductData.id product;
                  url := ProductData.url product;
                  updated_at := utcnow |} in
  (true, {| products := products';
            url_lookup := <[url_hash := entry]> (url_lookup db);
            jobs := jobs db |}).

Definition get_product_by_id (product_id : string) (db : t)
  : option ProductData.t :=
  products db !! product_id.

Definition get_product_by_url (url : string) (db : t)
  : option ProductData.t :=
  let url_hash := _generate_url_hash url in
  match url_lookup db !! url_hash with
  | Some doc => get_product_by_id (product_id doc) db
  | None => None
  end.

Definition store_job (job : ScrapeJob.t) (db : t) : bool * t :=
  (true, {| products := products db; url_lookup := url_lookup db;
            jobs := <[ScrapeJob.job_id job := job]> (jobs db) |}).

Definition get_job (job_id : string) (db : t) : option ScrapeJob.t :=
  jobs db !! job_id.

(** The instants a [datetime] can hold, in microseconds since 1970:
    from the year 1 to the end of the year 9999; and the days a
    [timedelta] can hold. *)
Definition datetime_min : Z := -62135596800000000.
Definition datetime_max : Z := 253402300799999999.
Definition timedelta_max_days : Z := 999999999.

Definition microseconds_per_day : Z := 86400 * 1000000.

(** The query of [cleanup_old_jobs]: the status is [completed] or
    [failed], and [completed_at] is set and earlier than the cutoff.  The
    instants are kept in ISO format with four-digit years, whose order as
    texts is their order in time. *)
Definition old_job (cutoff : Z) (job : ScrapeJob.t) : bool :=
  (String.eqb (ScrapeJob.status job) "completed"
   || String.eqb (ScrapeJob.status job) "failed")
  && match ScrapeJob.completed_at job with
     | Some completed_at => completed_at <? cutoff
     | None => false
     end.

(** [cleanup_old_jobs(days_old)]; [utcnow] is the clock reading it takes.
    A [timedelta] or a cutoff out of range raises [OverflowError], which
    the handler turns into the result [0]. *)
Definition cleanup_old_jobs (days_old : Z) (utcnow : Z) (db : t) : Z * t :=
  if Z.abs days_old <=? timedelta_max_days then
    let cutoff := utcnow - days_old * microseconds_per_day in
    if (datetime_min <=? cutoff) && (cutoff <=? datetime_max) then
      let deleted :=
        filter (fun entry => old_job cutoff entry.2 = true) (jobs db) in
      (Z.of_nat (size deleted),
       {| products := products db; url_lookup := url_lookup db;
          jobs := filter (fun entry => old_job cutoff entry.2 = false)
                         (jobs db) |})
    else (0, db)
  else (0, db).

End FirebaseService.

(** ** The submit-scrape endpoint ([app/models/api.py], [app/main.py]) *)

(** The Python values handed to a response model. *)
Inductive PyObj : Type :=
| PyNone
| PyStr (s : string)
| PyDatetime (instant : Z).

Module ScrapeRequest.
Record t : Type := {
  url : string;
  store_in_firebase : bool;
  include_nutrition : bool;
  force_refresh : bool;
  webhook_url : option string;
}.
End ScrapeRequest.

Module ScrapeResponse.

Record t : Type := {
  job_id : string;                        (* [str], required *)
  status : string;                        (* [str], required *)
  message : string;                       (* [str], required *)
  product_id : option string;             (* [Optional[str]] *)
  estimated_completion : option string;   (* [Optional[str]] *)
}.

(** A field declared [str]: only a text passes. *)
Definition as_str (v : PyObj) : option string :=
  match v with PyStr s => Some s | _ => None end.

(** A field declared [Optional[str]]: [None] or a text. *)
Definition as_optional_str (v : PyObj) : option (option string) :=
  match v with
  | PyNone => Some None
  | PyStr s => Some (Some s)
  | PyDatetime _ => None
  end.

(** [field] when its argument did not pass. *)
Definition at_fault {A} (validated : option A) (field : string)
  : list string :=
  match validated with Some _ => [] | None => [field] end.

(** The names of the fields whose argument does not fit the declared
    type, in declaration order. *)
Definition invalid_fields
    (job_id status message product_id estimated_completion : PyObj)
  : list string :=
  at_fault (as_str job_id) "job_id"
  ++ at_fault (as_str status) "status"
  ++ at_fault (as_str message) "message"
  ++ at_fault (as_optional_str product_id) "product_id"
  ++ at_fault (as_optional_str estimated_completion) "estimated_completion".

(** The constructor of the model: it validates its keyword arguments
    against the declared field types and raises a [ValidationError],
    whose text is [validation_error fields], when one does not fit. *)
Definition init {L} (validation_error : list string -> string)
    (job_id status message product_id estimated_completion : PyObj)
  : M L t :=
  match as_str job_id, as_str status, as_str message,
        as_optional_str product_id,
        as_optional_str estimated_completion with
  | Some j, Some s, Some m, Some p, Some e =>
      ret {| job_id := j; status := s; message := m;
             product_id := p; estimated_completion := e |}
  | _, _, _, _, _ =>
      raise {| exc_str :=
                 validation_error
                   (invalid_fields job_id status message product_id
                      estimated_completion) |}
  end.

End ScrapeResponse.

(** What the endpoint gives back to the routing layer: a response, or an
    [HTTPException] with its status code and detail. *)
Inductive HttpResult (A : Type) : Type :=
| Respond (a : A)
| HTTPException (status_code : Z) (detail : string).
Arguments Respond {A} a.
Arguments HTTPException {A} status_code detail.

Module Main.

(** One call of [background_tasks.add_task(process_scrape_job, ...)]. *)
Record Task : Type := {
  task_job_id : string;
  task_url : string;
  task_store_in_firebase : bool;
  task_include_nutrition : bool;
  task_webhook_url : option string;
}.

(** The objects the endpoint works on: the service and the task queue of
    the request. *)
Record App : Type := {
  firebase_service : FirebaseService.t;
  background_tasks : list Task;
}.

Section Endpoint.

(** The text pydantic gives a [ValidationError] for the fields at fault. *)
Variable validation_error : list string -> string.
Variable w : World.

Definition five_minutes : Z := 5 * 60 * 1000000.

(** A method of [firebase_service], run on the service of the frame. *)
Definition on_service {A}
    (method : FirebaseService.t -> A * FirebaseService.t) : M App A :=
  (app <- get_vars ;;
   let '(a, db) := method (firebase_service app) in
   set_vars {| firebase_service := db;
               background_tasks := background_tasks app |} ;;;
   ret a)%py.

Definition add_task (task : Task) : M App unit :=
  (app <- get_vars ;;
   set_vars {| firebase_service := firebase_service app;
               background_tasks := background_tasks app ++ [task] |})%py.

(** [str(e)] of an [HTTPException] raised inside the [try]: the status
    code, a colon and the detail. *)
Definition http_exception (status_code : Z) (detail : string) : PyException :=
  {| exc_str := Py.str_of_int status_code +:+ ": " +:+ detail |}.

(** [scrape_product(request, background_tasks)] *)
Definition scrape_product (request : ScrapeRequest.t)
  : M App (HttpResult ScrapeResponse.t) :=
  let url := ScrapeRequest.url request in
  try_except
    ((if negb (TraderJoesScraper.can_handle url)
      then raise (http_exception 400
                    "URL not supported by any available scraper")
      else ret tt) ;;;
     (* [Some r]: the early [return r]; [None]: execution goes on *)
     early <-
       (if negb (ScrapeRequest.force_refresh request) then
          existing_product <-
            on_service (fun db =>
              (FirebaseService.get_product_by_url url db, db)) ;;
          match existing_product with
          | Some product =>
              instant <- now (clock w) ;;
              r <- ScrapeResponse.init validation_error
                     PyNone (PyStr "completed")
                     (PyStr "Product already exists")
                     (PyStr (ProductData.id product))
                     (PyDatetime instant) ;;
              ret (Some r)
          | None => ret None
          end
        else ret None) ;;
     match early with
     | Some r => ret (Respond r)
     | None =>
         job_id <- uuid4 (uuid_supply w) ;;
         created_at <- now (clock w) ;;
         let job := ScrapeJob.pending job_id url created_at in
         on_service (FirebaseService.store_job job) ;;;
         add_task {| task_job_id := ScrapeJob.job_id job;
                     task_url := url;
                     task_store_in_firebase :=
                       ScrapeRequest.store_in_firebase request;
                     task_include_nutrition :=
                       ScrapeRequest.include_nutrition request;
                     task_webhook_url :=
                       ScrapeRequest.webhook_url request |} ;;;
         instant <- now (clock w) ;;
         r <- ScrapeResponse.init validation_error
                (PyStr (ScrapeJob.job_id job)) (PyStr "pending")
                (PyStr "Scraping job started") PyNone
                (PyDatetime (instant + five_minutes)) ;;
         ret (Respond r)
     end)%py
    (fun e =>
       ret (HTTPException 500 ("Error starting scrape job: " +:+ exc_str e))).

End Endpoint.

(** A call of a coroutine that has local variables of its own, of type
    [L']: it starts with the locals [locals], and shares the clock, the
    identifiers and the trace with its caller, whose variables it leaves
    as they are. *)
Definition in_frame {L L' A} (locals : L') (m : M L' A) : M L A :=
  fun s =>
    let '(r, s') := m {| vars := locals; ticks := ticks s; ids := ids s;
                         trace := trace s |} in
    (r, {| vars := vars s; ticks := ticks s'; ids := ids s';
           trace := trace s' |}).

Section Worker.

Variable w : World.
Variable browser : Session.
Variable element_query_selector_all :
  ElementHandle -> string -> outcome (list ElementHandle).

(** [await firebase_service.update_job_status(job)].  The method is
    declared with the parameters [job_id] and [status]; called with the
    job as its only argument, the call raises [TypeError] while its
    arguments are bound, before the body of the method runs. *)
Definition update_job_status_with_job (job : ScrapeJob.t) : M App bool :=
  raise {| exc_str :=
    "FirebaseService.update_job_status() missing 1 required positional argument: 'status'" |}.

(** [scraper.scrape(url)], with the extractor of nutrition facts of the
    scraper. *)
Definition scraper_scrape (url : string) : M App ProductData.t :=
  in_frame None
    (TraderJoesScraper.scrape
       (TraderJoesScraper._extract_nutrition element_query_selector_all)
       w browser url).

(** [process_scrape_job(job_id, url, store_in_firebase,
    include_nutrition, webhook_url)]; a [job] read from the store is a
    local object, and the methods of [ScrapeJob] change that object
    only. *)
Definition process_scrape_job (job_id url : string)
    (store_in_firebase include_nutrition : bool)
    (webhook_url : option string) : M App unit :=
  try_except
    (job <- on_service (fun db => (FirebaseService.get_job job_id db, db)) ;;
     match job with
     | None => ret tt
     | Some job =>
         utcnow <- now (clock w) ;;
         let job := ScrapeJob.mark_processing job utcnow in
         update_job_status_with_job job ;;;
         product <- scraper_scrape url ;;
         (if store_in_firebase then
            utcnow <- now (clock w) ;;
            on_service (FirebaseService.store_product product utcnow) ;;;
            ret tt
          else ret tt) ;;;
         utcnow <- now (clock w) ;;
         let job := ScrapeJob.mark_completed job (ProductData.id product)
                      utcnow in
         update_job_status_with_job job ;;;
         ret tt
     end)%py
    (fun e =>
       (job <- on_service (fun db => (FirebaseService.get_job job_id db, db)) ;;
        match job with
        | Some job =>
            utcnow <- now (clock w) ;;
            let job := ScrapeJob.mark_failed job (exc_str e) utcnow in
            update_job_status_with_job job ;;;
            ret tt
        | None => ret tt
        end)%py).

End Worker.
End Main.

(** ** Vocabulary of the properties *)

(** Every character of [s] satisfies [p]. *)
Fixpoint all_chars (p : ascii -> bool) (s : string) : bool :=
  match s with
  | EmptyString => true
  | String c r => p c && all_chars p r
  end.

(** A text made of commas and semicolons only; the empty text is one. *)
Definition only_separators (s : string) : bool :=
  all_chars BaseScraper.is_separator s.

(** A text made of commas, semicolons and whitespace only. *)
Definition only_separators_and_spaces (s : string) : bool :=
  all_chars (fun c => BaseScraper.is_separator c || Py.is_space c) s.

(** The value a computation ends with, started in state [s]. *)
Definition result_of {L A} (m : M L A) (s : Runtime L) : res A := fst (m s).

(** A fresh state: no clock reading, identifier or call yet. *)
Definition start {L} (v : L) : Runtime L :=
  {| vars := v; ticks := 0; ids := 0; trace := [] |}.

(** [selector] finds nothing on [page] that [_extract_product_name] would
    accept: no element, or an element without text, or with a text that is
    blank or the sentinel once stripped. *)
Definition no_usable_name (page : Page) (selector : string) : Prop :=
  page_query_selector page selector = Ok None
  \/ exists el text,
       page_query_selector page selector = Ok (Some el)
       /\ el_text_content el = Ok text
       /\ TraderJoesScraper.usable_name text = false.

(** [selector] finds no element on [page], or one that reads [Oops!]. *)
Definition absent_or_oops (page : Page) (selector : string) : Prop :=
  page_query_selector page selector = Ok None
  \/ exists el text,
       page_query_selector page selector = Ok (Some el)
       /\ el_text_content el = Ok (Some text)
       /\ Py.strip text = "Oops!".

(** The title of [page] gives no name: reading it faults, or the title
    lacks the brand, or what is left of it is blank or the sentinel. *)
Definition title_gives_no_name (page : Page) : Prop :=
  match page_title page with
  | Ok t => TraderJoesScraper.name_from_title t = None
  | Fault _ => True
  end.

(** An element with the given text and no attributes. *)
Definition text_element (text : string) : ElementHandle :=
  {| el_text_content := Ok (Some text);
     el_get_attribute := fun _ => Ok None |}.

(** A page with one [h1] element, matched by the bare [h1] selector only,
    and the given title. *)
Definition page_with_h1 (h1 : option string) (title : string) : Page :=
  {| page_url := "https://www.traderjoes.com/home/products/pdp/x-081523";
     page_wait_for_load_state := fun _ => Ok tt;
     page_wait_for_selector := fun _ => Ok tt;
     page_query_selector := fun selector =>
       if String.eqb selector "h1" then Ok (option_map text_element h1)
       else Ok None;
     page_query_selector_all := fun _ => Ok [];
     page_title := Ok title |}.

(** [m] always ends, by a value or by a fault. *)
Definition terminates {L A} (m : M L A) : Prop :=
  forall s, result_of m s <> Diverged.

(** [m] always ends by a value: no fault leaves it. *)
Definition returns {L A} (m : M L A) : Prop :=
  forall s, exists a s', m s = (Val a, s').

(** Whenever [m] ends by a value, the value satisfies [Q]. *)
Definition ensures {L A} (m : M L A) (Q : A -> Prop) : Prop :=
  forall s a s', m s = (Val a, s') -> Q a.

(** The value or fault [m] ends with does not depend on the state it is
    started in. *)
Definition state_blind {L A} (m : M L A) : Prop :=
  forall s s', result_of m s = result_of m s'.

(** The calls [_extract_product_name] starts with: a trace that holds none
    of them is the trace of a run that did not attempt the extraction. *)
Definition attempts_name_extraction (tr : list Event) : Prop :=
  exists selector,
    In selector TraderJoesScraper.name_selectors
    /\ In (EvQuerySelector selector) tr.

(** [m] only adds calls at the end of the trace. *)
Definition grows {L A} (m : M L A) : Prop :=
  forall s, exists l, trace (snd (m s)) = trace s ++ l.

(** [m] starts with the call [ev]. *)
Definition starts_with {L A} (ev : Event) (m : M L A) : Prop :=
  forall s, exists l, trace (snd (m s)) = trace s ++ ev :: l.

(** ** Sample worlds, pages and sessions *)

(** A clock that advances by a second and a half between two readings,
    and identifiers numbered in the order they are drawn. *)
Definition ticking : World :=
  {| clock := fun n => 1700000000000000 + 1500000 * Z.of_nat n;
     uuid_supply := fun n => "id-" +:+ Py.str_of_int (Z.of_nat n) |}.

(** An [_extract_nutrition] that finds nothing. *)
Definition no_nutrition (L : Type) (page : Page) : M L (option NutritionFacts) :=
  ret None.

Definition sample_url : string :=
  "https://www.traderjoes.com/home/products/pdp/strawberry-doodle-cookies-081523".

(** A URL with a character out of ASCII, U+00E9: UTF-8 gives it two
    bytes. *)
Definition accented_url : string :=
  "https://www.traderjoes.com/home/products/pdp/caf"
  +:+ String (ascii_of_nat 233) "-081523".

(** A handle whose every method faults, as after the browser was closed. *)
Definition closed_page : Page :=
  let gone := {| exc_str := "Target page, context or browser has been closed" |} in
  {| page_url := sample_url;
     page_wait_for_load_state := fun _ => Fault gone;
     page_wait_for_selector := fun _ => Fault gone;
     page_query_selector := fun _ => Fault gone;
     page_query_selector_all := fun _ => Fault gone;
     page_title := Fault gone |}.

(** A product page: an [h1] with the product name, nothing else found. *)
Definition sample_handle : PageHandle :=
  {| while_open :=
       page_with_h1 (Some "Strawberry Doodle Cookies")
                    "Strawberry Doodle Cookies | Trader Joe's";
     once_closed := closed_page |}.

(** A session in which every call succeeds. *)
Definition session_ok : Session :=
  {| launch := Ok tt;
     new_page := Ok sample_handle;
     set_viewport_size := Ok tt;
     set_extra_http_headers := Ok tt;
     set_default_timeout := Ok tt;
     goto := fun _ => Ok tt;
     close := Ok tt |}.

(** A session in which the browser cannot be launched. *)
Definition session_launch_fault : Session :=
  {| launch := Fault {| exc_str := "BrowserType.launch: executable not found" |};
     new_page := Ok sample_handle;
     set_viewport_size := Ok tt;
     set_extra_http_headers := Ok tt;
     set_default_timeout := Ok tt;
     goto := fun _ => Ok tt;
     close := Ok tt |}.

(** A session in which the page is created and the navigation times out. *)
Definition session_goto_timeout : Session :=
  {| launch := Ok tt;
     new_page := Ok sample_handle;
     set_viewport_size := Ok tt;
     set_extra_http_headers := Ok tt;
     set_default_timeout := Ok tt;
     goto := fun _ => Fault {| exc_str := "Timeout 30000ms exceeded." |};
     close := Ok tt |}.

(** ** Vocabulary of the crawl *)

(** The state [s] after the calls [l]. *)
Definition after_calls {L} (s : Runtime L) (l : list Event) : Runtime L :=
  {| vars := vars s; ticks := ticks s; ids := ids s; trace := trace s ++ l |}.

(** [m] only questions the outside: it ends the same way and makes the
    same calls from every state, and changes nothing else. *)
Definition query_only {L A} (m : M L A) : Prop :=
  exists (r : res A) (l : list Event), forall s, m s = (r, after_calls s l).

(** The product URLs [_extract_product_urls] finds on a page. *)
Definition page_product_urls (page : Page) : list string :=
  match result_of (ProductUrlScraper._extract_product_urls page)
                  (start ([] : list string)) with
  | Val urls => urls
  | _ => []
  end.

(** The URL [_get_next_page_url] gives for a page, if any. *)
Definition page_next_url (page : Page) : option string :=
  match result_of (ProductUrlScraper._get_next_page_url page)
                  (start ([] : list string)) with
  | Val next => next
  | _ => None
  end.

(** The navigation made at [current_page = k] to [url] succeeds. *)
Definition page_loads (site : Listing) (k : Z) (url : string) : Prop :=
  listing_goto site k url = Ok tt
  /\ page_wait_for_load_state (listing_page site k url) "domcontentloaded"
     = Ok tt.

(** The page shows a next button and marks a current item, and the text of
    that item, cleaned, is not an integer literal (or the item has no
    text). *)
Definition indicator_unparsable (page : Page) : Prop :=
  exists button items item text,
    page_wait_for_selector page ProductUrlScraper.pagination_selector = Ok tt
    /\ page_query_selector page ProductUrlScraper.next_button_selector
       = Ok (Some button)
    /\ page_query_selector_all page ProductUrlScraper.pagination_item_selector
       = Ok items
    /\ result_of (ProductUrlScraper.find_current_page items)
                 (start ([] : list string)) = Val (Some item)
    /\ el_text_content item = Ok text
    /\ match text with
       | Some t => Py.int (ProductUrlScraper.clean_page_number t) = None
       | None => True
       end.

(** [walk max_pages site k url pages k' url']: starting at page number [k]
    and [url], the crawl loads the pages [pages] one after the other, each
    under the cap and each giving the URL of the next, and arrives at page
    number [k'] with [url']. *)
Inductive walk (max_pages : option Z) (site : Listing)
  : Z -> string -> list Page -> Z -> string -> Prop :=
| walk_done k url : walk max_pages site k url [] k url
| walk_next k url next pages k' url' :
    ProductUrlScraper.cap_reached max_pages k = false ->
    page_loads site k url ->
    page_next_url (listing_page site k url) = Some next ->
    walk max_pages site (k + 1) next pages k' url' ->
    walk max_pages site k url (listing_page site k url :: pages) k' url'.

(** The browser starts and the page is set up. *)
Definition crawl_starts (site : Listing) : Prop :=
  listing_launch site = Ok tt
  /\ listing_new_page site = Ok tt
  /\ listing_set_viewport_size site = Ok tt
  /\ listing_set_extra_http_headers site = Ok tt
  /\ listing_set_default_timeout site = Ok tt.

(** A product link of a listing. *)
Definition link_element (href : string) : ElementHandle :=
  {| el_text_content := Ok (Some "Product");
     el_get_attribute := fun name =>
       if String.eqb name "href" then Ok (Some href) else Ok None |}.

(** The pagination item marked as current, showing [text]. *)
Definition current_item (text : string) : ElementHandle :=
  {| el_text_content := Ok (Some text);
     el_get_attribute := fun name =>
       if String.eqb name "aria-current" then Ok (Some "page") else Ok None |}.

(** A listing page at [url] with the given product links, an enabled next
    button, and a current-page item showing [indicator]. *)
Definition listing_page_of (url : string) (hrefs : list string)
    (indicator : string) : Page :=
  {| page_url := url;
     page_wait_for_load_state := fun _ => Ok tt;
     page_wait_for_selector := fun _ => Ok tt;
     page_query_selector := fun selector =>
       if String.eqb selector ProductUrlScraper.next_button_selector
       then Ok (Some (text_element EmptyString))
       else Ok None;
     page_query_selector_all := fun selector =>
       if String.eqb selector ProductUrlScraper.product_link_selector
       then Ok (map link_element hrefs)
       else if String.eqb selector ProductUrlScraper.pagination_item_selector
            then Ok [text_element "1"; current_item indicator]
            else Ok [];
     page_title := Ok "Products | Trader Joe's" |}.

Definition category_url : string :=
  "https://www.traderjoes.com/home/products/category/products-2".

(** A category of two pages: the first shows the page number 1, the second
    shows a text that is not a number. *)
Definition two_page_site : Listing :=
  {| listing_launch := Ok tt;
     listing_new_page := Ok tt;
     listing_set_viewport_size := Ok tt;
     listing_set_extra_http_headers := Ok tt;
     listing_set_default_timeout := Ok tt;
     listing_goto := fun _ _ => Ok tt;
     listing_page := fun k url =>
       if k =? 1
       then listing_page_of url ["/home/products/pdp/a-1"] "page 1"
       else listing_page_of url ["/home/products/pdp/b-2"] "page two";
     listing_close := Ok tt |}.

(** A category every page of which shows the page number 1 and an enabled
    next button. *)
Definition endless_site : Listing :=
  {| listing_launch := Ok tt;
     listing_new_page := Ok tt;
     listing_set_viewport_size := Ok tt;
     listing_set_extra_http_headers := Ok tt;
     listing_set_default_timeout := Ok tt;
     listing_goto := fun _ _ => Ok tt;
     listing_page := fun _ url =>
       listing_page_of url ["/home/products/pdp/a-1"] "page 1";
     listing_close := Ok tt |}.

(** The number of navigations in a trace. *)
Definition navigations (tr : list Event) : nat :=
  length (List.filter
            (fun ev => match ev with EvGoto _ => true | _ => false end) tr).

(** The two pages of [two_page_site] as the crawl meets them. *)
Definition first_page : Page := listing_page two_page_site 1 category_url.

Definition second_url : string := ProductUrlScraper.next_url category_url 2.

Definition second_page : Page := listing_page two_page_site 2 second_url.

(** ** Vocabulary of the job lifecycle *)

(** A call of one of the three methods of [ScrapeJob], with the clock
    reading it takes. *)
Inductive Transition : Type :=
| Begin (utcnow : Z)
| Succeed (product_id : string) (utcnow : Z)
| Fail (error : string) (utcnow : Z).

Definition apply_transition (job : ScrapeJob.t) (t : Transition) : ScrapeJob.t :=
  match t with
  | Begin utcnow => ScrapeJob.mark_processing job utcnow
  | Succeed product_id utcnow => ScrapeJob.mark_completed job product_id utcnow
  | Fail error utcnow => ScrapeJob.mark_failed job error utcnow
  end.

Definition run_transitions (job : ScrapeJob.t) (ts : list Transition)
  : ScrapeJob.t :=
  fold_left apply_transition ts job.

Definition at_most_one_set (job : ScrapeJob.t) : Prop :=
  ScrapeJob.result_product_id job = None \/ ScrapeJob.error_message job = None.

Definition is_succeed (t : Transition) : bool :=
  match t with Succeed _ _ => true | _ => false end.

Definition is_fail (t : Transition) : bool :=
  match t with Fail _ _ => true | _ => false end.

(** The sequence holds both a [Succeed] and a [Fail]. *)
Definition succeeds_and_fails (ts : list Transition) : bool :=
  existsb is_succeed ts && existsb is_fail ts.

(** The sequence follows the state machine from [status]:
    [pending -> processing -> completed | failed]. *)
Fixpoint follows_lifecycle (status : string) (ts : list Transition) : bool :=
  match ts with
  | [] => true
  | Begin _ :: rest =>
      String.eqb status "pending" && follows_lifecycle "processing" rest
  | Succeed _ _ :: rest =>
      String.eqb status "processing" && follows_lifecycle "completed" rest
  | Fail _ _ :: rest =>
      String.eqb status "processing" && follows_lifecycle "failed" rest
  end.

(** ** Sample store and request *)

Definition sample_product : ProductData.t :=
  {| ProductData.id := "3f2c9a1e-product";
     ProductData.url := sample_url;
     ProductData.product_name := "Strawberry Doodle Cookies";
     ProductData.brand := Some "Trader Joe's";
     ProductData.description := None;
     ProductData.price := None;
     ProductData.ingredients := ["flour"; "sugar"];
     ProductData.allergens := None;
     ProductData.nutrition_facts := None;
     ProductData.scraped_at := 1700000000000000;
     ProductData.scrape_duration := 3000000;
     ProductData.scrape_status := "success";
     ProductData.error_message := None;
     ProductData.scraper_version := "1.0.0" |}.

(** The store after [sample_product] was stored in an empty one. *)
Definition sample_store : FirebaseService.t :=
  snd (FirebaseService.store_product sample_product 1700000000000000
         FirebaseService.empty).

Definition sample_app : Main.App :=
  {| Main.firebase_service := sample_store; Main.background_tasks := [] |}.

Definition sample_request (force_refresh : bool) : ScrapeRequest.t :=
  {| ScrapeRequest.url := sample_url;
     ScrapeRequest.store_in_firebase := true;
     ScrapeRequest.include_nutrition := false;
     ScrapeRequest.force_refresh := force_refresh;
     ScrapeRequest.webhook_url := None |}.

(** The index entry [store_product] writes for a product. *)
Definition index_entry (product : ProductData.t) (utcnow : Z)
  : FirebaseService.UrlLookup :=
  {| FirebaseService.product_id := ProductData.id product;
     FirebaseService.url := ProductData.url product;
     FirebaseService.updated_at := utcnow |}.

(** ** Vocabulary of the further properties *)

(** A token as the allergen parsers yield them: not empty, without
    whitespace at its ends, and free of commas and semicolons. *)
Definition clean_token (x : string) : Prop :=
  Py.truthy x = true
  /\ Py.strip x = x
  /\ all_chars (fun c => negb (BaseScraper.is_separator c)) x = true.

(** The text holds no full stop. *)
Definition no_full_stop (x : string) : Prop :=
  all_chars (fun c => negb (Ascii.eqb c ".")) x = true.
(** The keys [parse_nutrition] can set, in the order it sets them. *)
Definition nutrition_keys : list string :=
  map fst TraderJoesScraper.nutrition_patterns.

(** An entry of the nutrition facts whose value is a number, or whose key
    is [serving_size]. *)
Definition number_or_serving_size (entry : string * NutritionValue) : Prop :=
  fst entry = "serving_size" \/ exists x, snd entry = NumberValue x.
(** Nutrition facts as the extractor builds them: no key twice, and every
    key one of the twelve. *)
Definition well_keyed (nutrition : NutritionFacts) : Prop :=
  NoDup (map fst nutrition)
  /\ Forall (fun key => In key nutrition_keys) (map fst nutrition).

(** The facts found: none, or some that are not empty and well keyed. *)
Definition found_facts (facts : option NutritionFacts) : Prop :=
  match facts with
  | None => True
  | Some nutrition => nutrition <> [] /\ well_keyed nutrition
  end.

(** A product name as [_extract_product_name] gives them: not empty,
    without whitespace at its ends, and not the sentinel [Oops!]. *)
Definition proper_name (name : string) : Prop :=
  Py.truthy name = true /\ Py.strip name = name /\ name <> "Oops!".

(** A text that is not empty and has no whitespace at its ends. *)
Definition trimmed_text (x : string) : Prop :=
  Py.truthy x = true /\ Py.strip x = x.

(** A text of digits and points. *)
Definition numeral_chars (s : string) : bool :=
  all_chars (fun c => Py.is_digit c || Ascii.eqb c ".") s.

(** An ingredient as [parse_ingredients] leaves it: in lower case, without
    whitespace at its ends and free of commas and semicolons.  It may be
    empty. *)
Definition normalised_ingredient (x : string) : Prop :=
  Py.strip x = x
  /\ Py.lower x = x
  /\ all_chars (fun c => negb (BaseScraper.is_separator c)) x = true.

(** What [scrape] returns for [url]: a success record for that URL with a
    proper name, or a failed record without ingredients. *)
Definition scrape_outcome (url : string) (product : ProductData.t) : Prop :=
  (ProductData.scrape_status product = "success"
   /\ ProductData.error_message product = None
   /\ ProductData.url product = url
   /\ proper_name (ProductData.product_name product))
  \/ (ProductData.scrape_status product = "failed"
      /\ ProductData.error_message product <> None
      /\ ProductData.ingredients product = []).
(** [needle] occurs in [s]. *)
Definition occurs_in (needle s : string) : Prop :=
  exists before after, s = before +:+ needle +:+ after.

(** The document without any key. *)
Definition empty_document : ProductData.Document :=
  {| ProductData.doc_id := None;
     ProductData.doc_url := None;
     ProductData.doc_product_name := None;
     ProductData.doc_brand := None;
     ProductData.doc_description := None;
     ProductData.doc_price := None;
     ProductData.doc_ingredients := None;
     ProductData.doc_allergens := None;
     ProductData.doc_nutrition_facts := None;
     ProductData.doc_scraped_at := None;
     ProductData.doc_scrape_duration := None;
     ProductData.doc_scrape_status := None;
     ProductData.doc_error_message := None;
     ProductData.doc_scraper_version := None |}.

(** The state [s] after one identifier was drawn and the clock read
    once. *)
Definition after_id_and_reading {L} (s : Runtime L) : Runtime L :=
  {| vars := vars s; ticks := S (ticks s); ids := S (ids s);
     trace := trace s |}.

(** The number of calls of [mark_failed] in a sequence. *)
Definition failures (ts : list Transition) : Z :=
  Z.of_nat (length (List.filter is_fail ts)).

(** A digit of a digest in hexadecimal: [0] to [9], [a] to [f]. *)
Definition is_lower_hex (c : ascii) : bool :=
  let n := Py.code c in
  ((48 <=? n) && (n <=? 57) || (97 <=? n) && (n <=? 102))%N.
(** The sample product scraped a second time: the same URL, under the
    identifier drawn for the new record. *)
Definition rescraped_product : ProductData.t :=
  {| ProductData.id := "9d41b7c2-product";
     ProductData.url := sample_url;
     ProductData.product_name := "Strawberry Doodle Cookies";
     ProductData.brand := Some "Trader Joe's";
     ProductData.description := None;
     ProductData.price := None;
     ProductData.ingredients := ["flour"; "sugar"; "strawberries"];
     ProductData.allergens := None;
     ProductData.nutrition_facts := None;
     ProductData.scraped_at := 1700086400000000;
     ProductData.scrape_duration := 2500000;
     ProductData.scrape_status := "success";
     ProductData.error_message := None;
     ProductData.scraper_version := "1.0.0" |}.

(** Whether [cleanup_old_jobs] gets as far as its query: the number of
    days fits a [timedelta] and the cutoff fits a [datetime]. *)
Definition cutoff_in_range (days_old utcnow : Z) : bool :=
  (Z.abs days_old <=? FirebaseService.timedelta_max_days)
  && (FirebaseService.datetime_min
      <=? utcnow - days_old * FirebaseService.microseconds_per_day)
  && (utcnow - days_old * FirebaseService.microseconds_per_day
      <=? FirebaseService.datetime_max).
(** What the links of a page give when they are read in order: the
    [href] of every link that has one, or [None] when reading a link
    faults. *)
Fixpoint hrefs_of (links : list ElementHandle) : option (list string) :=
  match links with
  | [] => Some []
  | link :: rest =>
      match el_get_attribute link "href", el_text_content link with
      | Ok href, Ok _ =>
          match hrefs_of rest with
          | Some hrefs =>
              Some (match href with
                    | Some h => if Py.truthy h then h :: hrefs else hrefs
                    | None => hrefs
                    end)
          | None => None
          end
      | _, _ => None
      end
  end.

(** The product URLs of a page, from what the page answers: those of its
    links when the product list shows up and every link can be read,
    none otherwise. *)
Definition product_urls_of (page : Page) : list string :=
  match page_wait_for_selector page ProductUrlScraper.product_list_selector with
  | Ok _ =>
      match page_query_selector_all page
              ProductUrlScraper.product_link_selector with
      | Ok links =>
          match hrefs_of links with
          | Some hrefs =>
              map (fun href => "https://www.traderjoes.com" +:+ href) hrefs
          | None => []
          end
      | Fault _ => []
      end
  | Fault _ => []
  end.
(** [m] ends, and makes at most [n] navigations. *)
Definition within {L A} (n : nat) (m : M L A) : Prop :=
  forall s,
    result_of m s <> Diverged
    /\ (navigations (trace (snd (m s))) <= navigations (trace s) + n)%nat.

(** An event other than a navigation. *)
Definition not_goto (ev : Event) : bool :=
  match ev with EvGoto _ => false | _ => true end.

(** The crawl does not get to load the page numbered [k] at [url]: the
    cap is reached, or the navigation or the wait that follows it
    faults. *)
Definition stops_before (max_pages : option Z) (site : Listing) (k : Z)
    (url : string) : Prop :=
  ProductUrlScraper.cap_reached max_pages k = true
  \/ (exists e, listing_goto site k url = Fault e)
  \/ (exists e, page_wait_for_load_state (listing_page site k url)
                  "domcontentloaded" = Fault e).

(** A category like [endless_site] in which the third navigation times
    out. *)
Definition timeout_site : Listing :=
  {| listing_launch := Ok tt;
     listing_new_page := Ok tt;
     listing_set_viewport_size := Ok tt;
     listing_set_extra_http_headers := Ok tt;
     listing_set_default_timeout := Ok tt;
     listing_goto := fun k _ =>
       if k =? 3 then Fault {| exc_str := "Timeout 30000ms exceeded." |}
       else Ok tt;
     listing_page := fun k url =>
       listing_page_of url
         ["/home/products/pdp/item-" +:+ Py.str_of_int k] "page 1";
     listing_close := Ok tt |}.
(** The pagination item marked as current, from what the items answer
    when they are read in order: [Some None] when none is marked, [None]
    when reading an item faults before a marked one is found. *)
Fixpoint current_item_of (items : list ElementHandle)
  : option (option ElementHandle) :=
  match items with
  | [] => Some None
  | item :: rest =>
      match el_get_attribute item "aria-current" with
      | Ok (Some a) =>
          if String.eqb a "page" then Some (Some item)
          else current_item_of rest
      | Ok None => current_item_of rest
      | Fault _ => None
      end
  end.

(** The URL of the next page, from what the page answers: the pagination
    shows up, there is a next button that is not disabled, an item is
    marked as current, and its text, cleaned, reads as an integer. *)
Definition next_url_of (page : Page) : option string :=
  match page_wait_for_selector page ProductUrlScraper.pagination_selector with
  | Ok _ =>
      match page_query_selector page ProductUrlScraper.next_button_selector with
      | Ok (Some _) =>
          match page_query_selector_all page
                  ProductUrlScraper.pagination_item_selector with
          | Ok items =>
              match current_item_of items with
              | Some (Some item) =>
                  match el_text_content item with
                  | Ok (Some text) =>
                      match Py.int (ProductUrlScraper.clean_page_number text) with
                      | Some n =>
                          Some (ProductUrlScraper.next_url (page_url page) (n + 1))
                      | None => None
                      end
                  | _ => None
                  end
              | _ => None
              end
          | Fault _ => None
          end
      | _ => None
      end
  | Fault _ => None
  end.

(** The events [scrape] adds to the trace when the browser starts: the
    launch, the calls made while the browser is open, the close, and the
    calls made after it. *)
Definition launched_and_closed {L} (s s' : Runtime L) : Prop :=
  exists during after,
    trace s' = trace s ++ EvLaunch :: during ++ EvClose :: after.
(** The statements of the [async with] block of [scrape]. *)
Definition while_browser_open
    (nutrition : forall L : Type, Page -> M L (option NutritionFacts))
    (w : World) (browser : Session) (url : string) (start_time : Z)
  : M (option PageHandle) ProductData.t :=
  (page <- TraderJoesScraper.setup_page browser ;;
   set_vars (Some page) ;;;
   TraderJoesScraper.scrape_page nutrition w browser url start_time
     (while_open page))%py.

(** * Properties *)

(** ** SHA-256 *)

(** The first and the last round constant, and the first word of the
    initial hash value, as FIPS 180-4 lists them. *)
Lemma sha256_constants :
  nth 0 SHA256.K 0 = 0x428a2f98
  /\ nth 63 SHA256.K 0 = 0xc67178f2
  /\ length SHA256.K = 64%nat
  /\ nth 0 SHA256.H0 0 = 0x6a09e667
  /\ nth 7 SHA256.H0 0 = 0x5be0cd19.
Proof. repeat split; vm_compute; reflexivity. Qed.

(** The digests of the empty message and of [abc], the test vectors of the
    standard. *)
Lemma sha256_test_vectors :
  SHA256.hexdigest (Utf8.encode EmptyString)
  = "e3b0c44298fc1c149afbf4c8996fb92427ae41e4649b934ca495991b7852b855"
  /\ SHA256.hexdigest (Utf8.encode "abc")
     = "ba7816bf8f01cfea414140de5dae2223b00361a396177a9cb410ff61f20015ad".
Proof. split; vm_compute; reflexivity. Qed.

(** ** Text primitives *)

Lemma lstrip_empty_iff s :
  Py.lstrip s = EmptyString <-> all_chars Py.is_space s = true.
Proof.
  induction s as [|c r IH]; simpl; [tauto|].
  destruct (Py.is_space c); simpl; [exact IH|]. split; discriminate.
Qed.

Lemma rstrip_empty_iff s :
  Py.rstrip s = EmptyString <-> all_chars Py.is_space s = true.
Proof.
  induction s as [|c r IH]; simpl; [tauto|].
  destruct (Py.rstrip r) eqn:E.
  - destruct (Py.is_space c); simpl.
    + split; [intros _; apply IH; reflexivity | reflexivity].
    + split; discriminate.
  - split; [discriminate|]. intros H. apply andb_prop in H as [_ H].
    apply IH in H. discriminate.
Qed.

Lemma lstrip_all_space s :
  all_chars Py.is_space (Py.lstrip s) = true -> all_chars Py.is_space s = true.
Proof.
  induction s as [|c r IH]; simpl; [tauto|].
  destruct (Py.is_space c) eqn:E; simpl; [exact IH|]. rewrite E. discriminate.
Qed.

Lemma strip_empty_iff s :
  Py.strip s = EmptyString <-> all_chars Py.is_space s = true.
Proof.
  unfold Py.strip. rewrite rstrip_empty_iff. split.
  - apply lstrip_all_space.
  - intros H. apply lstrip_empty_iff in H. rewrite H. reflexivity.
Qed.

Lemma lower_empty_iff s : Py.lower s = EmptyString <-> s = EmptyString.
Proof. destruct s; simpl; split; congruence. Qed.

Lemma truthy_false_iff s : Py.truthy s = false <-> s = EmptyString.
Proof. destruct s; simpl; split; congruence. Qed.

(** The fields of a split satisfy [p] throughout exactly when every
    character of the text is a separator or satisfies [p]. *)
Lemma split_on_all_chars sep p s :
  forallb (all_chars p) (Py.split_on sep s)
  = all_chars (fun c => sep c || p c) s.
Proof.
  induction s as [|c r IH]; simpl; [reflexivity|].
  destruct (sep c) eqn:E; simpl.
  - exact IH.
  - destruct (Py.split_on sep r) as [|f fs] eqn:Es; simpl in *.
    + rewrite <- IH. rewrite !andb_true_r. reflexivity.
    + rewrite <- IH. rewrite andb_assoc. reflexivity.
Qed.

(** [replace] never runs short: any fuel above the length of the text
    gives the same result. *)
Lemma drop_prefix_shorter a p s rest :
  Py.drop_prefix (String a p) s = Some rest ->
  (String.length rest < String.length s)%nat.
Proof.
  revert a s. induction p as [|b p IH]; intros a s H; simpl in H;
    destruct s as [|c s]; try discriminate;
    destruct (Ascii.eqb a c); try discriminate.
  - injection H as <-. simpl. lia.
  - apply IH in H. simpl. lia.
Qed.

Lemma replace_fuel_enough a p new s fuel fuel' :
  (String.length s < fuel)%nat -> (String.length s < fuel')%nat ->
  Py.replace_fuel fuel (String a p) new s
  = Py.replace_fuel fuel' (String a p) new s.
Proof.
  revert s fuel'. induction fuel as [|fuel IH]; intros s fuel' H H'; [lia|].
  destruct fuel' as [|fuel']; [lia|].
  cbn [Py.replace_fuel].
  destruct (Py.drop_prefix (String a p) s) as [rest|] eqn:E.
  - apply drop_prefix_shorter in E. f_equal. apply IH; lia.
  - destruct s as [|c r]; [reflexivity|]. simpl in H, H'.
    f_equal. apply IH; lia.
Qed.

(** ** [parse_ingredients] *)

Lemma parse_ingredients_step_app acc part :
  BaseScraper.parse_ingredients_step acc part
  = acc ++ BaseScraper.parse_ingredients_step [] part.
Proof.
  unfold BaseScraper.parse_ingredients_step.
  destruct (Py.truthy _); simpl; [reflexivity | rewrite app_nil_r; reflexivity].
Qed.

(** The loop appends, field by field, what each field contributes. *)
Lemma fold_parse_ingredients_step parts acc :
  fold_left BaseScraper.parse_ingredients_step parts acc
  = acc ++ flat_map (BaseScraper.parse_ingredients_step []) parts.
Proof.
  revert acc. induction parts as [|p ps IH]; intros acc; simpl.
  - rewrite app_nil_r. reflexivity.
  - rewrite IH, parse_ingredients_step_app, <- app_assoc. reflexivity.
Qed.

Lemma parse_ingredients_step_nil part :
  BaseScraper.parse_ingredients_step [] part = []
  <-> all_chars Py.is_space part = true.
Proof.
  unfold BaseScraper.parse_ingredients_step. rewrite <- strip_empty_iff.
  destruct (Py.truthy (Py.lower (Py.strip part))) eqn:E.
  - split; [discriminate|]. intros H. rewrite H in E. discriminate.
  - apply (proj1 (truthy_false_iff _)) in E.
    apply (proj1 (lower_empty_iff _)) in E. split; auto.
Qed.

Lemma flat_map_step_nil parts :
  flat_map (BaseScraper.parse_ingredients_step []) parts = []
  <-> forallb (all_chars Py.is_space) parts = true.
Proof.
  induction parts as [|p ps IH]; simpl; [tauto|].
  rewrite andb_true_iff, <- IH, <- parse_ingredients_step_nil.
  split.
  - intros H. apply app_eq_nil in H. exact H.
  - intros [-> ->]. reflexivity.
Qed.

(** C5, as the claim states it, fails: a text holding one space is neither
    empty nor made of separators only, and [parse_ingredients] returns the
    empty list for it. *)
Lemma parse_ingredients_blank_text_counterexample :
  ~ (forall text : string,
       BaseScraper.parse_ingredients (Some text) = []
       <-> only_separators text = true).
Proof.
  intros H. specialize (H " "). destruct H as [H _].
  specialize (H eq_refl). discriminate H.
Qed.

(** C5 (amended): [parse_ingredients] always returns a list, for an absent
    text too, and the list is empty if and only if the text is absent or
    every character of it is a comma, a semicolon or whitespace; the empty
    text and the texts made of separators only are among these. *)
Theorem parse_ingredients_empty_iff (text : option string) :
  BaseScraper.parse_ingredients text = []
  <-> match text with
      | None => True
      | Some t => only_separators_and_spaces t = true
      end.
Proof.
  destruct text as [t|]; simpl; [|tauto].
  destruct (Py.truthy t) eqn:E.
  - rewrite fold_parse_ingredients_step. simpl.
    rewrite flat_map_step_nil, split_on_all_chars. reflexivity.
  - apply truthy_false_iff in E. subst t. simpl. tauto.
Qed.

(** The texts of the claim are among those of the amended one. *)
Lemma only_separators_weaken (t : string) :
  only_separators t = true -> only_separators_and_spaces t = true.
Proof.
  unfold only_separators, only_separators_and_spaces.
  induction t as [|c r IH]; simpl; [reflexivity|].
  intros H. apply andb_prop in H as [Hc Hr].
  rewrite Hc, (IH Hr). reflexivity.
Qed.

(** C8: the token is tested for emptiness before its prefix is removed, so
    a token that is nothing but the prefix [ingredients:] is kept as the
    empty text. *)
Theorem parse_ingredients_keeps_empty_token :
  BaseScraper.parse_ingredients (Some "salt, Ingredients:") = ["salt"; EmptyString].
Proof. reflexivity. Qed.

(** ** What [parse_ingredients] does guarantee of its elements *)

Lemma is_space_lower_char c : Py.is_space (Py.lower_char c) = Py.is_space c.
Proof. destruct c as [[] [] [] [] [] [] [] []]; reflexivity. Qed.

Lemma lower_char_idempotent c :
  Py.lower_char (Py.lower_char c) = Py.lower_char c.
Proof. destruct c as [[] [] [] [] [] [] [] []]; reflexivity. Qed.

Lemma lower_idempotent s : Py.lower (Py.lower s) = Py.lower s.
Proof.
  induction s as [|c r IH]; simpl; [reflexivity|].
  rewrite lower_char_idempotent, IH. reflexivity.
Qed.

Lemma lower_lstrip s : Py.lower (Py.lstrip s) = Py.lstrip (Py.lower s).
Proof.
  induction s as [|c r IH]; simpl; [reflexivity|].
  rewrite is_space_lower_char. destruct (Py.is_space c); [exact IH | reflexivity].
Qed.

Lemma lower_rstrip s : Py.lower (Py.rstrip s) = Py.rstrip (Py.lower s).
Proof.
  induction s as [|c r IH]; simpl; [reflexivity|].
  rewrite <- IH, is_space_lower_char.
  destruct (Py.rstrip r); simpl; [destruct (Py.is_space c)|]; reflexivity.
Qed.

Lemma lower_strip s : Py.lower (Py.strip s) = Py.strip (Py.lower s).
Proof. unfold Py.strip. rewrite lower_rstrip, lower_lstrip. reflexivity. Qed.

Lemma lstrip_idempotent s : Py.lstrip (Py.lstrip s) = Py.lstrip s.
Proof.
  induction s as [|c r IH]; simpl; [reflexivity|].
  destruct (Py.is_space c) eqn:E; [exact IH|]. simpl. rewrite E. reflexivity.
Qed.

Lemma rstrip_idempotent s : Py.rstrip (Py.rstrip s) = Py.rstrip s.
Proof.
  induction s as [|c r IH]; simpl; [reflexivity|].
  destruct (Py.rstrip r) as [|d r'] eqn:E.
  - destruct (Py.is_space c) eqn:Ec; simpl; [reflexivity|].
    rewrite Ec. reflexivity.
  - change (Py.rstrip (String c (String d r')))
      with (match Py.rstrip (String d r') with
            | EmptyString =>
                if Py.is_space c then EmptyString else String c EmptyString
            | r0 => String c r0
            end).
    rewrite IH. reflexivity.
Qed.

(** The text has no leading whitespace. *)
Lemma lstrip_head s : Py.lstrip s = EmptyString
                      \/ exists c r, Py.lstrip s = String c r
                                     /\ Py.is_space c = false.
Proof.
  induction s as [|c r IH]; simpl; [left; reflexivity|].
  destruct (Py.is_space c) eqn:E; [exact IH|]. right. eauto.
Qed.

(** Removing trailing whitespace from a text without leading whitespace
    leaves it without leading whitespace. *)
Lemma lstrip_rstrip_lstrip s :
  Py.lstrip (Py.rstrip (Py.lstrip s)) = Py.rstrip (Py.lstrip s).
Proof.
  destruct (lstrip_head s) as [-> | (c & r & -> & Hc)]; [reflexivity|].
  simpl. destruct (Py.rstrip r); simpl; rewrite Hc; simpl; rewrite ?Hc;
    reflexivity.
Qed.

Lemma strip_idempotent s : Py.strip (Py.strip s) = Py.strip s.
Proof.
  unfold Py.strip. rewrite lstrip_rstrip_lstrip. apply rstrip_idempotent.
Qed.

(** Being free of trailing whitespace, and being in lower case, pass from
    a text to what is left of it after a prefix or leading whitespace. *)
Lemma rstrip_fixed_tail c r :
  Py.rstrip (String c r) = String c r -> Py.rstrip r = r.
Proof.
  simpl. destruct (Py.rstrip r) as [|d r'] eqn:E.
  - destruct (Py.is_space c); [discriminate|]. intros H. injection H as <-.
    reflexivity.
  - intros H. injection H as <-. reflexivity.
Qed.

Lemma lower_fixed_tail c r :
  Py.lower (String c r) = String c r -> Py.lower r = r.
Proof. simpl. intros H. injection H as _ H. exact H. Qed.

Lemma drop_prefix_keeps (P : string -> Prop) :
  (forall c r, P (String c r) -> P r) ->
  forall p s r, Py.drop_prefix p s = Some r -> P s -> P r.
Proof.
  intros Htail. induction p as [|a p IH]; intros s r H Hs; simpl in H.
  - injection H as <-. exact Hs.
  - destruct s as [|b s]; [discriminate|].
    destruct (Ascii.eqb a b); [|discriminate]. eapply IH; eauto.
Qed.

Lemma lstrip_keeps (P : string -> Prop) :
  (forall c r, P (String c r) -> P r) ->
  forall s, P s -> P (Py.lstrip s).
Proof.
  intros Htail. induction s as [|c r IH]; intros Hs; simpl; [exact Hs|].
  destruct (Py.is_space c); [eauto | exact Hs].
Qed.

Lemma sub_contains_keeps (P : string -> Prop) :
  (forall c r, P (String c r) -> P r) ->
  forall s, P s -> P (BaseScraper.sub_contains s).
Proof.
  intros Htail s Hs. unfold BaseScraper.sub_contains.
  destruct (Py.drop_prefix "contains" s) as [[|c r]|] eqn:E; try exact Hs.
  destruct (Py.is_space c); [|exact Hs].
  apply lstrip_keeps; [exact Htail|].
  apply (Htail c). eapply drop_prefix_keeps; eauto.
Qed.

Lemma sub_ingredients_keeps (P : string -> Prop) :
  (forall c r, P (String c r) -> P r) ->
  forall s, P s -> P (BaseScraper.sub_ingredients s).
Proof.
  intros Htail s Hs. unfold BaseScraper.sub_ingredients.
  destruct (Py.drop_prefix "ingredients:" s) as [r|] eqn:E; [|exact Hs].
  apply lstrip_keeps; [exact Htail|]. eapply drop_prefix_keeps; eauto.
Qed.

(** A text without trailing whitespace, cut at the front, is trimmed. *)
Lemma strip_of_cut s :
  Py.rstrip s = s -> Py.lstrip s = s -> Py.strip s = s.
Proof. intros Hr Hl. unfold Py.strip. rewrite Hl. exact Hr. Qed.

Lemma sub_contains_lstrip_fixed s :
  Py.lstrip s = s ->
  Py.lstrip (BaseScraper.sub_contains s) = BaseScraper.sub_contains s.
Proof.
  intros Hs. unfold BaseScraper.sub_contains.
  destruct (Py.drop_prefix "contains" s) as [[|c r]|]; try exact Hs.
  destruct (Py.is_space c); [apply lstrip_idempotent | exact Hs].
Qed.

Lemma sub_ingredients_lstrip_fixed s :
  Py.lstrip s = s ->
  Py.lstrip (BaseScraper.sub_ingredients s) = BaseScraper.sub_ingredients s.
Proof.
  intros Hs. unfold BaseScraper.sub_ingredients.
  destruct (Py.drop_prefix "ingredients:" s); [apply lstrip_idempotent | exact Hs].
Qed.

(** Every element of the result comes from a field of the split text that
    is not blank, is that field stripped, lower-cased and relieved once of
    each prefix, and is itself trimmed and in lower case.  It may be
    empty. *)
Lemma parse_ingredients_elements (t : string) (x : string) :
  In x (BaseScraper.parse_ingredients (Some t)) ->
  (exists part,
      In part (Py.split_on BaseScraper.is_separator t)
      /\ Py.truthy (Py.strip part) = true
      /\ x = BaseScraper.sub_ingredients
               (BaseScraper.sub_contains (Py.lower (Py.strip part))))
  /\ Py.strip x = x
  /\ Py.lower x = x.
Proof.
  unfold BaseScraper.parse_ingredients.
  destruct (Py.truthy t); [|intros []].
  rewrite fold_parse_ingredients_step. simpl app.
  rewrite in_flat_map. intros (part & Hpart & Hx).
  unfold BaseScraper.parse_ingredients_step in Hx.
  destruct (Py.truthy (Py.lower (Py.strip part))) eqn:E; [|destruct Hx].
  destruct Hx as [<- | []].
  assert (Hr : Py.rstrip (Py.lower (Py.strip part)) = Py.lower (Py.strip part)).
  { rewrite lower_strip. unfold Py.strip. apply rstrip_idempotent. }
  assert (Hl : Py.lstrip (Py.lower (Py.strip part)) = Py.lower (Py.strip part)).
  { rewrite lower_strip. unfold Py.strip. apply lstrip_rstrip_lstrip. }
  split; [|split].
  - exists part. split; [exact Hpart|]. split; [|reflexivity].
    destruct (Py.strip part); [discriminate E | reflexivity].
  - apply strip_of_cut.
    + apply (sub_ingredients_keeps (fun s => Py.rstrip s = s) rstrip_fixed_tail).
      apply (sub_contains_keeps (fun s => Py.rstrip s = s) rstrip_fixed_tail).
      exact Hr.
    + apply sub_ingredients_lstrip_fixed, sub_contains_lstrip_fixed, Hl.
  - apply (sub_ingredients_keeps (fun s => Py.lower s = s) lower_fixed_tail).
    apply (sub_contains_keeps (fun s => Py.lower s = s) lower_fixed_tail).
    apply lower_idempotent.
Qed.

(** ** The effect monad *)

Section MonadFacts.
Context {L : Type}.

Lemma bind_val {A B} (m : M L A) (k : A -> M L B) s a s' :
  m s = (Val a, s') -> bind m k s = k a s'.
Proof. unfold bind. intros ->. reflexivity. Qed.

Lemma bind_exc {A B} (m : M L A) (k : A -> M L B) s e s' :
  m s = (Exc e, s') -> bind m k s = (Exc e, s').
Proof. unfold bind. intros ->. reflexivity. Qed.

Lemma try_except_val {A} (m : M L A) h s a s' :
  m s = (Val a, s') -> try_except m h s = (Val a, s').
Proof. unfold try_except. intros ->. reflexivity. Qed.

Lemma try_except_exc {A} (m : M L A) h s e s' :
  m s = (Exc e, s') -> try_except m h s = h e s'.
Proof. unfold try_except. intros ->. reflexivity. Qed.

End MonadFacts.

(** ** [_extract_product_name] *)

(** When no selector of the list finds a usable name, the loop ends
    without a [return]. *)
Lemma name_from_selectors_none L (page : Page) selectors :
  (forall selector, In selector selectors -> no_usable_name page selector) ->
  forall s : Runtime L, exists s',
    TraderJoesScraper.name_from_selectors page selectors s = (Val None, s').
Proof.
  induction selectors as [|sel rest IH]; intros H s; simpl.
  - eexists; reflexivity.
  - assert (Hrest : forall selector,
               In selector rest -> no_usable_name page selector)
      by (intros ? ?; apply H; right; assumption).
    destruct (H sel (or_introl eq_refl)) as [Hq | (el & text & Hq & Ht & Hu)];
      unfold bind, query_selector, text_content, call; rewrite Hq; simpl.
    + apply IH, Hrest.
    + rewrite Ht; simpl. rewrite Hu. apply IH, Hrest.
Qed.

(** An element that reads [Oops!] counts as no match. *)
Lemma absent_or_oops_no_usable_name page selector :
  absent_or_oops page selector -> no_usable_name page selector.
Proof.
  intros [H | (el & text & Hq & Ht & Hs)]; [left; exact H|].
  right. exists el, (Some text). repeat split; try assumption.
  unfold TraderJoesScraper.usable_name. rewrite Hs. simpl. apply andb_false_r.
Qed.

(** X28: the strategies are tried in order: the first selector that finds
    a usable text decides the name, which is that text without the
    whitespace at its ends. *)
Lemma extract_product_name_first_usable L (page : Page) (s : Runtime L)
    before selector after el text :
  TraderJoesScraper.name_selectors = before ++ selector :: after ->
  (forall x, In x before -> no_usable_name page x) ->
  page_query_selector page selector = Ok (Some el) ->
  el_text_content el = Ok (Some text) ->
  TraderJoesScraper.usable_name (Some text) = true ->
  result_of (TraderJoesScraper._extract_product_name page) s
  = Val (Py.strip text).
Proof.
  intros Hsel Hbefore Hq Ht Hu.
  unfold result_of, TraderJoesScraper._extract_product_name.
  rewrite Hsel. clear Hsel.
  assert (Hloop : forall s0 : Runtime L, exists s1,
    TraderJoesScraper.name_from_selectors page (before ++ selector :: after) s0
    = (Val (Some (Py.strip text)), s1)).
  { induction before as [|b bs IH]; intros s0; simpl.
    - unfold bind, query_selector, text_content, call. rewrite Hq. simpl.
      rewrite Ht. simpl. simpl in Hu. rewrite Hu. eexists; reflexivity.
    - assert (Hbs : forall x, In x bs -> no_usable_name page x)
        by (intros ? ?; apply Hbefore; right; assumption).
      destruct (Hbefore b (or_introl eq_refl))
        as [Hb | (el' & text' & Hb & Ht' & Hu')];
        unfold bind, query_selector, text_content, call; rewrite Hb; simpl.
      + apply IH, Hbs.
      + rewrite Ht'. simpl. rewrite Hu'. apply IH, Hbs. }
  destruct (Hloop s) as [s1 H1].
  unfold try_except, bind. rewrite H1. reflexivity.
Qed.

(** When every selector fails, the title decides. *)
Lemma extract_product_name_from_title L (page : Page) (s : Runtime L) :
  (forall selector, In selector TraderJoesScraper.name_selectors ->
                    no_usable_name page selector) ->
  result_of (TraderJoesScraper._extract_product_name page) s
  = Val match page_title page with
        | Ok t => default "Unknown Product" (TraderJoesScraper.name_from_title t)
        | Fault _ => "Unknown Product"
        end.
Proof.
  intros H.
  destruct (name_from_selectors_none L page TraderJoesScraper.name_selectors H s)
    as [s' Hs'].
  unfold result_of, TraderJoesScraper._extract_product_name, try_except, bind.
  rewrite Hs'. unfold title, call.
  destruct (page_title page) as [t|e]; simpl; [|reflexivity].
  destruct (TraderJoesScraper.name_from_title t); reflexivity.
Qed.

(** C7: on a page where each name selector finds no element or one that
    reads [Oops!], and whose title gives no name, the name is
    [Unknown Product]; on a page where no name selector finds a usable text
    and whose title is [Strawberry Cookies | Trader Joe's], the name is
    [Strawberry Cookies]. *)
Theorem extract_product_name_sentinel_and_title L (page : Page) (s : Runtime L) :
  ((forall selector, In selector TraderJoesScraper.name_selectors ->
                     absent_or_oops page selector) ->
   title_gives_no_name page ->
   result_of (TraderJoesScraper._extract_product_name page) s
   = Val "Unknown Product")
  /\
  ((forall selector, In selector TraderJoesScraper.name_selectors ->
                     no_usable_name page selector) ->
   page_title page = Ok "Strawberry Cookies | Trader Joe's" ->
   result_of (TraderJoesScraper._extract_product_name page) s
   = Val "Strawberry Cookies").
Proof.
  split.
  - intros H Ht. rewrite extract_product_name_from_title
      by (intros sel Hin; apply absent_or_oops_no_usable_name, H, Hin).
    unfold title_gives_no_name in Ht. destruct (page_title page); [|reflexivity].
    rewrite Ht. reflexivity.
  - intros H Ht. rewrite extract_product_name_from_title by exact H.
    rewrite Ht. reflexivity.
Qed.

(** The two pages of C7: one whose only [h1] and whose title both read
    [Oops!], and one without [h1] titled after the product. *)
Lemma extract_product_name_sentinel_and_title_witness :
  result_of (TraderJoesScraper._extract_product_name
               (page_with_h1 (Some "Oops!") "Oops! | Trader Joe's"))
            (start tt)
  = Val "Unknown Product"
  /\ result_of (TraderJoesScraper._extract_product_name
                  (page_with_h1 None "Strawberry Cookies | Trader Joe's"))
               (start tt)
     = Val "Strawberry Cookies".
Proof.
  split.
  - apply (proj1 (extract_product_name_sentinel_and_title unit
                    (page_with_h1 (Some "Oops!") "Oops! | Trader Joe's")
                    (start tt))).
    + intros selector Hin. unfold TraderJoesScraper.name_selectors in Hin.
      simpl in Hin.
      repeat (destruct Hin as [<- | Hin]; [left; reflexivity|]).
      destruct Hin as [<- | []].
      right. exists (text_element "Oops!"), "Oops!".
      repeat split; reflexivity.
    + reflexivity.
  - apply (proj2 (extract_product_name_sentinel_and_title unit
                    (page_with_h1 None "Strawberry Cookies | Trader Joe's")
                    (start tt))).
    + intros selector Hin. unfold TraderJoesScraper.name_selectors in Hin.
      simpl in Hin.
      repeat (destruct Hin as [<- | Hin]; [left; reflexivity|]).
      destruct Hin.
    + reflexivity.
Defined.

(** ** Computations that end, return, and only append to the trace *)

Section Termination.
Context {L : Type}.

Lemma terminates_ret {A} (a : A) : terminates (L:=L) (ret a).
Proof. intros s; discriminate. Qed.

Lemma terminates_raise {A} e : terminates (L:=L) (A:=A) (raise e).
Proof. intros s; discriminate. Qed.

Lemma terminates_call {A} ev (answer : outcome A) : terminates (L:=L) (call ev answer).
Proof. intros s. unfold result_of, call. destruct answer; discriminate. Qed.

Lemma terminates_now clock : terminates (L:=L) (now clock).
Proof. intros s; discriminate. Qed.

Lemma terminates_uuid4 supply : terminates (L:=L) (uuid4 supply).
Proof. intros s; discriminate. Qed.

Lemma terminates_get_vars : terminates (L:=L) get_vars.
Proof. intros s; discriminate. Qed.

Lemma terminates_set_vars v : terminates (L:=L) (set_vars v).
Proof. intros s; discriminate. Qed.

Lemma terminates_bind {A B} (m : M L A) (k : A -> M L B) :
  terminates m -> (forall a, terminates (k a)) -> terminates (bind m k).
Proof.
  intros Hm Hk s. unfold result_of, bind. specialize (Hm s). unfold result_of in Hm.
  destruct (m s) as [[a|e|] s']; simpl in *; [apply Hk | discriminate | congruence].
Qed.

Lemma terminates_try_except {A} (m : M L A) h :
  terminates m -> (forall e, terminates (h e)) -> terminates (try_except m h).
Proof.
  intros Hm Hh s. unfold result_of, try_except. specialize (Hm s). unfold result_of in Hm.
  destruct (m s) as [[a|e|] s']; simpl in *; [discriminate | apply Hh | congruence].
Qed.

Lemma terminates_leaving {A} (m : M L A) (x : M L unit) :
  terminates m -> terminates x -> terminates (leaving m x).
Proof.
  intros Hm Hx s. unfold result_of, leaving. specialize (Hm s). unfold result_of in Hm.
  destruct (m s) as [[a|e|] s']; simpl in *; try congruence;
    specialize (Hx s'); unfold result_of in Hx;
    destruct (x s') as [[[]|e'|] s'']; simpl in *; congruence.
Qed.

Lemma returns_ret {A} (a : A) : returns (L:=L) (ret a).
Proof. intros s. eexists _, _. reflexivity. Qed.

Lemma returns_bind {A B} (m : M L A) (k : A -> M L B) :
  returns m -> (forall a, returns (k a)) -> returns (bind m k).
Proof.
  intros Hm Hk s. destruct (Hm s) as (a & s' & H). unfold bind. rewrite H. apply Hk.
Qed.

Lemma returns_terminates {A} (m : M L A) : returns m -> terminates m.
Proof. intros H s. destruct (H s) as (a & s' & E). unfold result_of. rewrite E. discriminate. Qed.

(** A handler that returns turns a body that ends into one that returns. *)
Lemma returns_try_except {A} (m : M L A) h :
  terminates m -> (forall e, returns (h e)) -> returns (try_except m h).
Proof.
  intros Hm Hh s. unfold try_except. specialize (Hm s). unfold result_of in Hm.
  destruct (m s) as [[a|e|] s']; simpl in *; [eexists _, _; reflexivity | apply Hh | congruence].
Qed.

Lemma ensures_bind {A B} (m : M L A) (k : A -> M L B) Q :
  (forall a, ensures (k a) Q) -> ensures (bind m k) Q.
Proof.
  intros Hk s b s' H. unfold bind in H.
  destruct (m s) as [[a|e|] s1]; try discriminate. eapply Hk, H.
Qed.

Lemma ensures_leaving {A} (m : M L A) (x : M L unit) Q :
  ensures m Q -> ensures (leaving m x) Q.
Proof.
  intros Hm s a s' H. unfold leaving in H.
  destruct (m s) as [[a0|e|] s1] eqn:E; try discriminate.
  - destruct (x s1) as [[[]|e'|] s2]; try discriminate.
    injection H as <- _. eapply Hm, E.
  - destruct (x s1) as [[[]|e'|] s2]; discriminate.
Qed.

Lemma ensures_raise {A} e (Q : A -> Prop) : ensures (L:=L) (raise e) Q.
Proof. intros s a s' H. discriminate. Qed.

Lemma state_blind_ret {A} (a : A) : state_blind (L:=L) (ret a).
Proof. intros s s'. reflexivity. Qed.

Lemma state_blind_call {A} ev (answer : outcome A) : state_blind (L:=L) (call ev answer).
Proof. intros s s'. unfold result_of, call. destruct answer; reflexivity. Qed.

Lemma state_blind_bind {A B} (m : M L A) (k : A -> M L B) :
  state_blind m -> (forall a, state_blind (k a)) -> state_blind (bind m k).
Proof.
  intros Hm Hk s s'. specialize (Hm s s'). unfold result_of, bind in *.
  destruct (m s) as [[a|e|] s1], (m s') as [[a'|e'|] s1']; simpl in Hm; try discriminate;
    try (injection Hm as ->); try reflexivity.
  apply Hk.
Qed.

Lemma state_blind_try_except {A} (m : M L A) h :
  state_blind m -> (forall e, state_blind (h e)) -> state_blind (try_except m h).
Proof.
  intros Hm Hh s s'. specialize (Hm s s'). unfold result_of, try_except in *.
  destruct (m s) as [[a|e|] s1], (m s') as [[a'|e'|] s1']; simpl in Hm; try discriminate;
    try (injection Hm as ->); try reflexivity.
  apply Hh.
Qed.

End Termination.

Ltac ends :=
  repeat (intros;
    match goal with
    | |- terminates (bind _ _) => apply terminates_bind
    | |- terminates (try_except _ _) => apply terminates_try_except
    | |- terminates (leaving _ _) => apply terminates_leaving
    | |- terminates (ret _) => apply terminates_ret
    | |- terminates (raise _) => apply terminates_raise
    | |- terminates (call _ _) => apply terminates_call
    | |- terminates (now _) => apply terminates_now
    | |- terminates (uuid4 _) => apply terminates_uuid4
    | |- terminates get_vars => apply terminates_get_vars
    | |- terminates (set_vars _) => apply terminates_set_vars
    | |- terminates (match ?x with _ => _ end) => destruct x
    | H : forall s, terminates _ |- _ => apply H
    | H : terminates _ |- _ => exact H
    end).

Ltac blind :=
  repeat (intros;
    match goal with
    | |- state_blind (bind _ _) => apply state_blind_bind
    | |- state_blind (try_except _ _) => apply state_blind_try_except
    | |- state_blind (ret _) => apply state_blind_ret
    | |- state_blind (call _ _) => apply state_blind_call
    | |- state_blind (match ?x with _ => _ end) => destruct x
    | H : state_blind _ |- _ => exact H
    end).

Section ExtractorFacts.
Context {L : Type}.
Import TraderJoesScraper.

Lemma name_from_selectors_terminates page selectors :
  terminates (L:=L) (name_from_selectors page selectors).
Proof.
  induction selectors as [|sel rest IH]; simpl; unfold query_selector, text_content; ends.
Qed.

Lemma name_from_selectors_state_blind page selectors :
  state_blind (L:=L) (name_from_selectors page selectors).
Proof.
  induction selectors as [|sel rest IH]; simpl; unfold query_selector, text_content; blind.
Qed.

Lemma extract_product_name_returns page :
  returns (L:=L) (_extract_product_name page).
Proof.
  apply returns_try_except; [|intros; apply returns_ret].
  unfold title. ends. apply name_from_selectors_terminates.
Qed.

Lemma extract_product_name_state_blind page :
  state_blind (L:=L) (_extract_product_name page).
Proof.
  unfold _extract_product_name, title. blind. apply name_from_selectors_state_blind.
Qed.

Lemma extract_description_returns page :
  returns (L:=L) (_extract_description page).
Proof.
  apply returns_try_except; [|intros; apply returns_ret].
  generalize description_selectors as selectors.
  induction selectors as [|sel rest IH]; simpl; unfold query_selector, text_content; ends.
Qed.

Lemma extract_price_returns page :
  returns (L:=L) (_extract_price page).
Proof.
  apply returns_try_except; [|intros; apply returns_ret].
  generalize price_selectors as selectors.
  induction selectors as [|sel rest IH]; simpl; unfold query_selector, text_content; ends.
Qed.

Lemma extract_ingredients_returns page :
  returns (L:=L) (_extract_ingredients page).
Proof.
  apply returns_try_except; [|intros; apply returns_ret].
  generalize ingredients_selectors as selectors.
  induction selectors as [|sel rest IH]; simpl; unfold query_selector, text_content; ends.
Qed.

Lemma allergens_of_elements_terminates elements allergens :
  terminates (L:=L) (allergens_of_elements elements allergens).
Proof.
  revert allergens.
  induction elements as [|el rest IH]; simpl; unfold text_content; ends.
Qed.

Lemma extract_allergens_returns page :
  returns (L:=L) (_extract_allergens page).
Proof.
  apply returns_try_except; [|intros; apply returns_ret].
  generalize allergens_selectors as selectors.
  induction selectors as [|sel rest IH]; simpl; unfold query_selector_all; ends;
    apply allergens_of_elements_terminates.
Qed.

End ExtractorFacts.

Section Traces.
Context {L : Type}.

Lemma grows_ret {A} (a : A) : grows (L:=L) (ret a).
Proof. intros s. exists []. simpl. rewrite app_nil_r. reflexivity. Qed.

Lemma grows_raise {A} e : grows (L:=L) (A:=A) (raise e).
Proof. intros s. exists []. simpl. rewrite app_nil_r. reflexivity. Qed.

Lemma grows_call {A} ev (answer : outcome A) : grows (L:=L) (call ev answer).
Proof. intros s. exists [ev]. unfold call. destruct answer; reflexivity. Qed.

Lemma grows_now clock : grows (L:=L) (now clock).
Proof. intros s. exists []. simpl. rewrite app_nil_r. reflexivity. Qed.

Lemma grows_uuid4 supply : grows (L:=L) (uuid4 supply).
Proof. intros s. exists []. simpl. rewrite app_nil_r. reflexivity. Qed.

Lemma grows_get_vars : grows (L:=L) get_vars.
Proof. intros s. exists []. simpl. rewrite app_nil_r. reflexivity. Qed.

Lemma grows_set_vars v : grows (L:=L) (set_vars v).
Proof. intros s. exists []. simpl. rewrite app_nil_r. reflexivity. Qed.

Lemma grows_bind {A B} (m : M L A) (k : A -> M L B) :
  grows m -> (forall a, grows (k a)) -> grows (bind m k).
Proof.
  intros Hm Hk s. destruct (Hm s) as [l Hl]. unfold bind.
  destruct (m s) as [[a|e|] s1]; simpl in *; try (exists l; exact Hl).
  destruct (Hk a s1) as [l' Hl']. exists (l ++ l').
  rewrite Hl', Hl, app_assoc. reflexivity.
Qed.

Lemma grows_try_except {A} (m : M L A) h :
  grows m -> (forall e, grows (h e)) -> grows (try_except m h).
Proof.
  intros Hm Hh s. destruct (Hm s) as [l Hl]. unfold try_except.
  destruct (m s) as [[a|e|] s1]; simpl in *; try (exists l; exact Hl).
  destruct (Hh e s1) as [l' Hl']. exists (l ++ l').
  rewrite Hl', Hl, app_assoc. reflexivity.
Qed.

Lemma starts_with_call {A B} ev (answer : outcome A) (k : A -> M L B) :
  (forall a, grows (k a)) -> starts_with ev (bind (call ev answer) k).
Proof.
  intros Hk s. unfold bind, call. destruct answer as [a|e]; simpl.
  - destruct (Hk a {| vars := vars s; ticks := ticks s; ids := ids s;
                      trace := trace s ++ [ev] |}) as [l Hl].
    exists l. rewrite Hl. simpl. rewrite <- app_assoc. reflexivity.
  - exists []. reflexivity.
Qed.

Lemma starts_with_try_except {A} ev (m : M L A) h :
  starts_with ev m -> (forall e, grows (h e)) ->
  starts_with ev (try_except m h).
Proof.
  intros Hm Hh s. destruct (Hm s) as [l Hl]. unfold try_except.
  destruct (m s) as [[a|e|] s1]; simpl in *; try (exists l; exact Hl).
  destruct (Hh e s1) as [l' Hl']. exists (l ++ l').
  rewrite Hl', Hl, <- app_assoc. reflexivity.
Qed.

Lemma starts_with_bind {A B} ev (m : M L A) (k : A -> M L B) :
  starts_with ev m -> (forall a, grows (k a)) -> starts_with ev (bind m k).
Proof.
  intros Hm Hk s. destruct (Hm s) as [l Hl]. unfold bind.
  destruct (m s) as [[a|e|] s1]; simpl in *; try (exists l; exact Hl).
  destruct (Hk a s1) as [l' Hl']. exists (l ++ l').
  rewrite Hl', Hl, <- app_assoc. reflexivity.
Qed.

End Traces.

Ltac growing :=
  repeat (intros;
    match goal with
    | |- grows (bind _ _) => apply grows_bind
    | |- grows (try_except _ _) => apply grows_try_except
    | |- grows (ret _) => apply grows_ret
    | |- grows (raise _) => apply grows_raise
    | |- grows (call _ _) => apply grows_call
    | |- grows (match ?x with _ => _ end) => destruct x
    | H : grows _ |- _ => exact H
    end).

Lemma name_from_selectors_grows L page selectors :
  grows (L:=L) (TraderJoesScraper.name_from_selectors page selectors).
Proof.
  induction selectors as [|sel rest IH]; simpl;
    unfold query_selector, text_content; growing.
Qed.

Lemma name_from_selectors_starts L page selector rest :
  starts_with (L:=L) (EvQuerySelector selector)
    (TraderJoesScraper.name_from_selectors page (selector :: rest)).
Proof.
  cbn [TraderJoesScraper.name_from_selectors]. unfold query_selector at 1.
  apply starts_with_call. intros element. unfold text_content.
  growing; apply name_from_selectors_grows.
Qed.

(** [_extract_product_name] starts by querying its first selector. *)
Lemma extract_product_name_starts L page :
  starts_with (L:=L)
    (EvQuerySelector (attr_selector "h1" "data-testid" "=" "product-name"))
    (TraderJoesScraper._extract_product_name page).
Proof.
  unfold TraderJoesScraper._extract_product_name.
  apply starts_with_try_except; [|intros; apply grows_ret].
  apply starts_with_bind; [apply name_from_selectors_starts|].
  unfold title. growing.
Qed.

Section ScrapeFacts.
Import TraderJoesScraper.

Variable nutrition : forall L : Type, Page -> M L (option NutritionFacts).
Variable w : World.
Variable browser : Session.
Hypothesis nutrition_returns : forall L page, returns (nutrition L page).

Lemma init_returns {L} url name brand description price ingredients allergens
    nutrition_facts scraped_at duration status error :
  returns (L:=L) (ProductData.init w url name brand description price
                    ingredients allergens nutrition_facts scraped_at
                    duration status error).
Proof.
  intros s. unfold ProductData.init, bind, uuid4, now, ret.
  destruct scraped_at; simpl; eexists _, _; reflexivity.
Qed.

Lemma init_ensures {L} url name brand description price ingredients allergens
    nutrition_facts scraped_at duration status error :
  ensures (L:=L) (ProductData.init w url name brand description price
                    ingredients allergens nutrition_facts scraped_at
                    duration status error)
          (fun p => ProductData.scrape_status p = status
                    /\ ProductData.error_message p = error
                    /\ ProductData.product_name p = name
                    /\ ProductData.url p = url
                    /\ ProductData.scrape_duration p = duration).
Proof.
  intros s p s'. unfold ProductData.init, bind, uuid4, now, ret.
  destruct scraped_at; simpl; intros H; injection H as <- _; simpl; auto.
Qed.

Lemma scrape_body_terminates url start_time :
  terminates (scrape_body nutrition w browser url start_time).
Proof.
  unfold scrape_body, setup_page, scrape_page, wait_for_content, goto_,
    wait_for_load_state, wait_for_selector.
  ends; intros; apply returns_terminates;
    auto using extract_product_name_returns, extract_description_returns,
      extract_price_returns, extract_ingredients_returns,
      extract_allergens_returns, init_returns.
Qed.

(** A record that leaves the body of the [try] is a success record. *)
Lemma scrape_body_success url start_time :
  ensures (scrape_body nutrition w browser url start_time)
          (fun p => ProductData.scrape_status p = "success"
                    /\ ProductData.error_message p = None).
Proof.
  unfold scrape_body, scrape_page.
  apply ensures_bind; intros _. apply ensures_leaving.
  repeat (apply ensures_bind; intros ?).
  destruct (negb _); [apply ensures_raise|].
  repeat (apply ensures_bind; intros ?).
  intros s p s' H. injection H as <- _. simpl. auto.
Qed.

(** What [handle_errors] returns. *)
Lemma handle_errors_returns {L} page e (s : Runtime L) :
  exists product s',
    handle_errors w page e s = (Val product, s')
    /\ ProductData.scrape_status product = "failed"
    /\ ProductData.error_message product = Some (exc_str e)
    /\ ProductData.scrape_duration product = 0
    /\ ProductData.url product = page_url page
    /\ (forall s0 : Runtime L,
          result_of (_extract_product_name page) s0
          = Val (ProductData.product_name product))
    /\ (exists l, trace s' = trace s ++ l /\ attempts_name_extraction l).
Proof.
  unfold handle_errors, ProductData.init, bind at 1 2 3, uuid4, now, ret.
  simpl.
  match goal with |- context [try_except _ _ ?s3] => set (s3' := s3) end.
  destruct (extract_product_name_returns (L:=L) page s3') as (name & s4 & Hn).
  destruct (extract_product_name_starts L page s3') as [l Hl].
  rewrite Hn in Hl. simpl in Hl.
  unfold try_except, bind. rewrite Hn. eexists _, _. split; [reflexivity|].
  simpl. repeat split.
  - intros s0. rewrite (extract_product_name_state_blind page s0 s3').
    unfold result_of. rewrite Hn. reflexivity.
  - eexists. split; [exact Hl|].
    eexists. split; [|left; reflexivity]. left. reflexivity.
Qed.

(** C1 (amended): [scrape] always returns a record and no fault leaves
    it.  When the body of its [try] ends by a record, that record is
    returned and is a success record.  When a fault [e] leaves the body,
    the returned record has status [failed] and carries [str(e)]; if the
    page had been created, the name extraction is attempted on it and
    its result is the name of the record; if the fault came before the
    page was created, the handler makes no call and the name stays
    empty. *)
Theorem scrape_always_returns url (s : Runtime (option PageHandle)) :
  let start_time := clock w (ticks s) in
  let s1 := {| vars := None; ticks := S (ticks s); ids := ids s;
               trace := trace s |} in
  exists product s',
    scrape nutrition w browser url s = (Val product, s')
    /\ match scrape_body nutrition w browser url start_time s1 with
       | (Val p, s2) =>
           product = p /\ s' = s2
           /\ ProductData.scrape_status p = "success"
           /\ ProductData.error_message p = None
       | (Exc e, s2) =>
           ProductData.scrape_status product = "failed"
           /\ ProductData.error_message product = Some (exc_str e)
           /\ match vars s2 with
              | Some page =>
                  (forall s0 : Runtime (option PageHandle),
                     result_of (_extract_product_name (once_closed page)) s0
                     = Val (ProductData.product_name product))
                  /\ exists l, trace s' = trace s2 ++ l
                               /\ attempts_name_extraction l
              | None =>
                  ProductData.product_name product = EmptyString
                  /\ trace s' = trace s2
              end
       | (Diverged, _) => False
       end.
Proof.
  intros start_time s1.
  assert (Hrun : scrape nutrition w browser url s
                 = try_except (scrape_body nutrition w browser url start_time)
                              (scrape_handler w url start_time) s1)
    by reflexivity.
  rewrite Hrun. unfold try_except.
  pose proof (scrape_body_terminates url start_time s1) as Hterm.
  pose proof (scrape_body_success url start_time s1) as Hok.
  unfold result_of in Hterm.
  destruct (scrape_body nutrition w browser url start_time s1)
    as [[p|e|] s2]; simpl in Hterm.
  - exists p, s2. specialize (Hok p s2 eq_refl). tauto.
  - unfold scrape_handler, bind at 1, get_vars.
    destruct (vars s2) as [page|] eqn:Hv.
    + destruct (handle_errors_returns (once_closed page) e s2)
        as (product & s' & Hh & Hst & Herr & _ & _ & Hname & Htr).
      exists product, s'. rewrite Hh. auto.
    + unfold ProductData.init, bind, uuid4, now, ret. simpl.
      eexists _, _. split; [reflexivity|]. simpl. auto.
  - congruence.
Qed.

End ScrapeFacts.

Lemma no_nutrition_returns : forall L page, returns (no_nutrition L page).
Proof. intros L page s. eexists _, _. reflexivity. Qed.

(** C1, as the claim states it, fails: when the browser cannot be
    launched, a fault leaves the body of the [try], and the handler returns
    a failed record without attempting any name extraction: the only call
    of the run is the launch, and the name is empty. *)
Lemma scrape_launch_fault_counterexample :
  exists e s2 product s',
    TraderJoesScraper.scrape_body no_nutrition ticking session_launch_fault
      sample_url (clock ticking 0)
      {| vars := None; ticks := 1; ids := 0; trace := [] |} = (Exc e, s2)
    /\ TraderJoesScraper.scrape no_nutrition ticking session_launch_fault
         sample_url (start None) = (Val product, s')
    /\ ProductData.scrape_status product = "failed"
    /\ ProductData.product_name product = EmptyString
    /\ trace s' = [EvLaunch]
    /\ ~ attempts_name_extraction (trace s').
Proof.
  eexists _, _, _, _. split; [reflexivity|]. split; [reflexivity|].
  split; [reflexivity|]. split; [reflexivity|]. split; [reflexivity|].
  intros (selector & _ & Hin). simpl in Hin.
  destruct Hin as [H | []]. discriminate H.
Qed.

(** A run in which the navigation times out once the page exists: the
    record is failed, carries the text of the fault, and is named by the
    extraction attempted on the closed page. *)
Lemma scrape_always_returns_witness :
  exists product s',
    TraderJoesScraper.scrape no_nutrition ticking session_goto_timeout
      sample_url (start None) = (Val product, s')
    /\ ProductData.scrape_status product = "failed"
    /\ ProductData.error_message product = Some "Timeout 30000ms exceeded."
    /\ ProductData.product_name product = "Unknown Product".
Proof.
  destruct (scrape_always_returns no_nutrition ticking session_goto_timeout
              no_nutrition_returns sample_url (start None))
    as (product & s' & Hrun & Hcase).
  exists product, s'. split; [exact Hrun|].
  vm_compute in Hcase. destruct Hcase as (Hst & Herr & Hname & _).
  split; [exact Hst|]. split; [exact Herr|].
  specialize (Hname (start None)). injection Hname as Hname.
  symmetry. exact Hname.
Defined.

(** On the [handle_errors] path the duration is the constant [0], whatever
    the clock reads. *)
Lemma scrape_duration_zero_with_page nutrition w browser url
    (s : Runtime (option PageHandle)) e s2 page product s' :
  TraderJoesScraper.scrape_body nutrition w browser url (clock w (ticks s))
    {| vars := None; ticks := S (ticks s); ids := ids s; trace := trace s |}
  = (Exc e, s2) ->
  vars s2 = Some page ->
  TraderJoesScraper.scrape nutrition w browser url s = (Val product, s') ->
  ProductData.scrape_duration product = 0.
Proof.
  intros Hbody Hpage Hrun.
  change (TraderJoesScraper.scrape nutrition w browser url s)
    with (try_except
            (TraderJoesScraper.scrape_body nutrition w browser url
               (clock w (ticks s)))
            (TraderJoesScraper.scrape_handler w url (clock w (ticks s)))
            {| vars := None; ticks := S (ticks s); ids := ids s;
               trace := trace s |}) in Hrun.
  unfold try_except in Hrun. rewrite Hbody in Hrun.
  unfold TraderJoesScraper.scrape_handler, bind at 1, get_vars in Hrun.
  rewrite Hpage in Hrun.
  destruct (handle_errors_returns w (once_closed page) e s2)
    as (p & s3 & Hh & _ & _ & Hd & _).
  rewrite Hh in Hrun. injection Hrun as <- _. exact Hd.
Qed.

(** When the browser cannot be launched, the handler records the time
    elapsed between the two readings of the clock. *)
Lemma scrape_duration_without_page nutrition w browser url
    (s : Runtime (option PageHandle)) e :
  launch browser = Fault e ->
  exists product s',
    TraderJoesScraper.scrape nutrition w browser url s = (Val product, s')
    /\ ProductData.scrape_duration product
       = clock w (S (ticks s)) - clock w (ticks s).
Proof.
  intros Hl. unfold TraderJoesScraper.scrape, TraderJoesScraper.scrape_body.
  unfold bind at 1, now. unfold bind at 1, set_vars. unfold try_except.
  unfold bind at 1, call at 1. rewrite Hl.
  unfold TraderJoesScraper.scrape_handler, ProductData.init.
  unfold bind, get_vars, now, uuid4, ret. simpl.
  eexists _, _. split; reflexivity.
Qed.

(** C6: when the page was created and the navigation then times out, the
    returned record holds a duration of zero although the clock advanced
    between the invocation and the construction of the record; when the
    browser cannot be launched, the sibling branch of the same handler
    records the elapsed time, and so does a successful run. *)
Theorem scrape_duration_lost_on_page_fault :
  (exists product s',
     TraderJoesScraper.scrape no_nutrition ticking session_goto_timeout
       sample_url (start None) = (Val product, s')
     /\ ProductData.scrape_status product = "failed"
     /\ ProductData.scrape_duration product = 0
     /\ ProductData.scraped_at product - clock ticking 0 = 1500000)
  /\
  (exists product s',
     TraderJoesScraper.scrape no_nutrition ticking session_launch_fault
       sample_url (start None) = (Val product, s')
     /\ ProductData.scrape_status product = "failed"
     /\ ProductData.scrape_duration product = clock ticking 1 - clock ticking 0)
  /\
  (exists product s',
     TraderJoesScraper.scrape no_nutrition ticking session_ok
       sample_url (start None) = (Val product, s')
     /\ ProductData.scrape_status product = "success"
     /\ ProductData.scrape_duration product = clock ticking 2 - clock ticking 0).
Proof.
  split; [|split]; eexists _, _; (split; [vm_compute; reflexivity|]);
    repeat split; reflexivity.
Qed.

(** ** The crawler *)

Section QueryOnly.
Context {L : Type}.

Lemma after_calls_nil (s : Runtime L) : after_calls s [] = s.
Proof. destruct s. unfold after_calls. simpl. rewrite app_nil_r. reflexivity. Qed.

Lemma after_calls_app (s : Runtime L) l l' :
  after_calls (after_calls s l) l' = after_calls s (l ++ l').
Proof. unfold after_calls. simpl. rewrite app_assoc. reflexivity. Qed.

Lemma query_only_ret {A} (a : A) : query_only (L:=L) (ret a).
Proof. exists (Val a), []. intros s. rewrite after_calls_nil. reflexivity. Qed.

Lemma query_only_raise {A} e : query_only (L:=L) (A:=A) (raise e).
Proof. exists (Exc e), []. intros s. rewrite after_calls_nil. reflexivity. Qed.

Lemma query_only_call {A} ev (answer : outcome A) :
  query_only (L:=L) (call ev answer).
Proof.
  destruct answer as [a|e]; [exists (Val a), [ev] | exists (Exc e), [ev]];
    intros s; reflexivity.
Qed.

Lemma query_only_bind {A B} (m : M L A) (k : A -> M L B) :
  query_only m -> (forall a, query_only (k a)) -> query_only (bind m k).
Proof.
  intros (r & l & Hm) Hk. destruct r as [a|e|].
  - destruct (Hk a) as (r' & l' & Hk'). exists r', (l ++ l').
    intros s. unfold bind. rewrite Hm, Hk', after_calls_app. reflexivity.
  - exists (Exc e), l. intros s. unfold bind. rewrite Hm. reflexivity.
  - exists Diverged, l. intros s. unfold bind. rewrite Hm. reflexivity.
Qed.

Lemma query_only_try_except {A} (m : M L A) h :
  query_only m -> (forall e, query_only (h e)) -> query_only (try_except m h).
Proof.
  intros (r & l & Hm) Hh. destruct r as [a|e|].
  - exists (Val a), l. intros s. unfold try_except. rewrite Hm. reflexivity.
  - destruct (Hh e) as (r' & l' & Hh'). exists r', (l ++ l').
    intros s. unfold try_except. rewrite Hm, Hh', after_calls_app. reflexivity.
  - exists Diverged, l. intros s. unfold try_except. rewrite Hm. reflexivity.
Qed.

(** What a computation that only questions the outside gives from one
    state, it gives from every state. *)
Lemma query_only_result {A} (m : M L A) s0 r :
  query_only m -> result_of m s0 = r ->
  forall s, exists l, m s = (r, after_calls s l).
Proof.
  intros (r' & l & Hm) Hr s. exists l. rewrite Hm.
  unfold result_of in Hr. rewrite Hm in Hr. simpl in Hr. subst r'. reflexivity.
Qed.

Lemma ensures_try_except {A} (m : M L A) h Q :
  ensures m Q -> (forall e, ensures (h e) Q) -> ensures (try_except m h) Q.
Proof.
  intros Hm Hh s a s' H. unfold try_except in H.
  destruct (m s) as [[a0|e|] s1] eqn:E; try discriminate.
  - injection H as <- _. eapply Hm, E.
  - eapply Hh, H.
Qed.

Lemma ensures_ret {A} (a : A) (Q : A -> Prop) : Q a -> ensures (L:=L) (ret a) Q.
Proof. intros H s a' s' E. injection E as <- _. exact H. Qed.

End QueryOnly.

Ltac questioning :=
  repeat (intros;
    match goal with
    | |- query_only (bind _ _) => apply query_only_bind
    | |- query_only (try_except _ _) => apply query_only_try_except
    | |- query_only (ret _) => apply query_only_ret
    | |- query_only (raise _) => apply query_only_raise
    | |- query_only (call _ _) => apply query_only_call
    | |- query_only (match ?x with _ => _ end) => destruct x
    | H : forall x, query_only _ |- _ => apply H
    | H : query_only _ |- _ => exact H
    end).

Section CrawlerFacts.
Import ProductUrlScraper.
Context {L : Type}.

Lemma urls_of_links_query_only links urls :
  query_only (L:=L) (urls_of_links links urls).
Proof.
  revert urls. induction links as [|link rest IH]; simpl;
    unfold get_attribute, text_content; questioning.
Qed.

Lemma urls_of_links_terminates links urls :
  terminates (L:=L) (urls_of_links links urls).
Proof.
  revert urls. induction links as [|link rest IH]; simpl;
    unfold get_attribute, text_content; ends.
Qed.

Lemma extract_product_urls_query_only page :
  query_only (L:=L) (_extract_product_urls page).
Proof.
  unfold _extract_product_urls, wait_for_selector, query_selector_all.
  questioning. intros; apply urls_of_links_query_only.
Qed.

Lemma extract_product_urls_returns page :
  returns (L:=L) (_extract_product_urls page).
Proof.
  apply returns_try_except; [|intros; apply returns_ret].
  unfold wait_for_selector, query_selector_all. ends.
  intros; apply urls_of_links_terminates.
Qed.

Lemma find_current_page_query_only items :
  query_only (L:=L) (find_current_page items).
Proof.
  induction items as [|item rest IH]; simpl; unfold get_attribute; questioning.
Qed.

Lemma find_current_page_terminates items :
  terminates (L:=L) (find_current_page items).
Proof.
  induction items as [|item rest IH]; simpl; unfold get_attribute; ends.
Qed.

Lemma get_next_page_url_query_only page :
  query_only (L:=L) (_get_next_page_url page).
Proof.
  unfold _get_next_page_url, wait_for_selector, query_selector,
    query_selector_all, text_content.
  questioning. intros; apply find_current_page_query_only.
Qed.

Lemma get_next_page_url_returns page :
  returns (L:=L) (_get_next_page_url page).
Proof.
  apply returns_try_except; [|intros; apply returns_ret].
  unfold wait_for_selector, query_selector, query_selector_all, text_content.
  ends. intros; apply find_current_page_terminates.
Qed.

End CrawlerFacts.
Section CrawlFacts.
Import ProductUrlScraper.

Variable max_pages : option Z.
Variable site : Listing.

(** What a page yields, from any state of the crawl. *)
Lemma extract_product_urls_run page (s : Runtime (list string)) :
  exists l, _extract_product_urls page s
            = (Val (page_product_urls page), after_calls s l).
Proof.
  destruct (extract_product_urls_returns page (start ([] : list string))) as (urls & s' & Hr).
  apply (query_only_result _ (start ([] : list string))).
  - apply extract_product_urls_query_only.
  - unfold page_product_urls, result_of. rewrite Hr. reflexivity.
Qed.

Lemma get_next_page_url_run page (s : Runtime (list string)) :
  exists l, _get_next_page_url page s
            = (Val (page_next_url page), after_calls s l).
Proof.
  destruct (get_next_page_url_returns page (start ([] : list string))) as (next & s' & Hr).
  apply (query_only_result _ (start ([] : list string))).
  - apply get_next_page_url_query_only.
  - unfold page_next_url, result_of. rewrite Hr. reflexivity.
Qed.

Lemma truthy_append a c r : Py.truthy (a +:+ String c r) = true.
Proof. destruct a; reflexivity. Qed.

(** A next URL is never empty. *)
Lemma page_next_url_truthy page next :
  page_next_url page = Some next -> Py.truthy next = true.
Proof.
  unfold page_next_url, result_of.
  destruct (_get_next_page_url page (start ([] : list string))) as [[r| |] s'] eqn:E;
    simpl; try discriminate.
  intros ->. revert E.
  generalize (start ([] : list string)) as s. intros s E.
  assert (H : ensures (L:=list string) (_get_next_page_url page)
                (fun r => forall u, r = Some u -> Py.truthy u = true)).
  { unfold _get_next_page_url.
    apply ensures_try_except; [|intros; apply ensures_ret; discriminate].
    apply ensures_bind; intros _. apply ensures_bind; intros [button|];
      [|apply ensures_ret; discriminate].
    apply ensures_bind; intros items. apply ensures_bind; intros [item|];
      [|apply ensures_ret; discriminate].
    apply ensures_bind; intros [t|]; [|apply ensures_raise].
    destruct (Py.int _); apply ensures_ret; [|discriminate].
    intros u Hu. injection Hu as <-. unfold next_url. apply truthy_append. }
  eapply H; [exact E | reflexivity].
Qed.

(** A page whose indicator cannot be parsed gives no next URL. *)
Lemma indicator_unparsable_no_next page :
  indicator_unparsable page -> page_next_url page = None.
Proof.
  intros (button & items & item & text & Hw & Hb & Hi & Hc & Ht & Hp).
  unfold page_next_url, result_of, _get_next_page_url, try_except.
  unfold bind at 1, wait_for_selector, call at 1. rewrite Hw.
  unfold bind at 1, query_selector, call at 1. rewrite Hb.
  unfold bind at 1, query_selector_all, call at 1. rewrite Hi.
  unfold bind at 1.
  match goal with
  | |- context [find_current_page items ?s1] =>
      destruct (query_only_result (find_current_page items) (start ([] : list string)) _
                  (find_current_page_query_only items) Hc s1) as [l Hl];
      rewrite Hl
  end.
  unfold bind, text_content, call. rewrite Ht.
  destruct text as [t|]; [rewrite Hp|]; reflexivity.
Qed.

Lemma crawl_loop_unfold fuel current_url k :
  crawl_loop max_pages site (S fuel) current_url k
  = if negb (url_truthy current_url) then ret tt
    else if cap_reached max_pages k then ret tt
    else
      let url := default EmptyString current_url in
      (call (EvGoto url) (listing_goto site k url) ;;;
       let page := listing_page site k url in
       wait_for_load_state page "domcontentloaded" ;;;
       page_urls <- _extract_product_urls page ;;
       product_urls <- get_vars ;;
       set_vars (product_urls ++ page_urls) ;;;
       next <- _get_next_page_url page ;;
       crawl_loop max_pages site fuel next (k + 1))%py.
Proof. reflexivity. Qed.

(** One turn of the loop on a page that loads under the cap. *)
Lemma crawl_loop_turn fuel url k (s : Runtime (list string)) :
  Py.truthy url = true ->
  cap_reached max_pages k = false ->
  page_loads site k url ->
  exists s1,
    crawl_loop max_pages site (S fuel) (Some url) k s
    = crawl_loop max_pages site fuel (page_next_url (listing_page site k url)) (k + 1) s1
    /\ vars s1 = vars s ++ page_product_urls (listing_page site k url).
Proof.
  intros Hu Hcap [Hgoto Hwait].
  rewrite crawl_loop_unfold. unfold url_truthy. rewrite Hu, Hcap.
  cbn [negb default from_option id].
  unfold bind at 1, call at 1. rewrite Hgoto.
  unfold bind at 1, wait_for_load_state, call at 1. rewrite Hwait.
  unfold bind at 1.
  match goal with
  | |- context [_extract_product_urls ?p ?s0] =>
      destruct (extract_product_urls_run p s0) as [l Hl]; rewrite Hl
  end.
  unfold bind at 1, get_vars. unfold bind at 1, set_vars. unfold bind at 1.
  match goal with
  | |- context [_get_next_page_url ?p ?s0] =>
      destruct (get_next_page_url_run p s0) as [l' Hl']; rewrite Hl'
  end.
  eexists. split; [reflexivity|]. reflexivity.
Qed.

(** The loop along a walk that ends on a page without next URL. *)
Lemma crawl_loop_walk k url pages k' url' :
  walk max_pages site k url pages k' url' ->
  Py.truthy url = true ->
  cap_reached max_pages k' = false ->
  page_loads site k' url' ->
  page_next_url (listing_page site k' url') = None ->
  forall fuel (s : Runtime (list string)),
    (length pages < fuel)%nat ->
    exists s',
      crawl_loop max_pages site fuel (Some url) k s = (Val tt, s')
      /\ vars s' = vars s ++ flat_map page_product_urls
                                (pages ++ [listing_page site k' url']).
Proof.
  induction 1 as [k url | k url next pages k' url' Hcap Hload Hnext Hwalk IH];
    intros Hu Hcap' Hload' Hnone fuel s Hfuel.
  - destruct fuel as [|fuel]; [simpl in Hfuel; lia|].
    destruct (crawl_loop_turn fuel url k s Hu Hcap' Hload') as (s1 & Hturn & Hv).
    rewrite Hturn, Hnone. exists s1. split.
    + destruct fuel; reflexivity.
    + rewrite Hv. simpl. rewrite app_nil_r. reflexivity.
  - destruct fuel as [|fuel]; [simpl in Hfuel; lia|].
    destruct (crawl_loop_turn fuel url k s Hu Hcap Hload) as (s1 & Hturn & Hv).
    rewrite Hturn, Hnext.
    destruct (IH (page_next_url_truthy _ _ Hnext) Hcap' Hload' Hnone fuel s1)
      as (s' & Hrun & Hv'); [simpl in Hfuel; lia|].
    exists s'. split; [exact Hrun|].
    rewrite Hv', Hv. simpl. rewrite <- app_assoc. reflexivity.
Qed.

(** C2 (amended): when the crawl starts, walks through [pages] and
    arrives at a page that loads under the cap and whose current-page
    indicator cannot be parsed, [scrape_category] stops there and returns
    the product URLs of all these pages, those of the last page itself
    included. *)
Theorem scrape_category_stops_at_unparsable
    (url : string) pages k' url' fuel (s : Runtime (list string)) :
  crawl_starts site ->
  Py.truthy url = true ->
  walk max_pages site 1 url pages k' url' ->
  cap_reached max_pages k' = false ->
  page_loads site k' url' ->
  indicator_unparsable (listing_page site k' url') ->
  (length pages < fuel)%nat ->
  result_of (scrape_category max_pages site fuel url) s
  = Val (flat_map page_product_urls (pages ++ [listing_page site k' url'])).
Proof.
  intros (Hl & Hn & Hv & Hh & Ht) Hu Hwalk Hcap Hload Hind Hfuel.
  apply indicator_unparsable_no_next in Hind.
  unfold result_of, scrape_category.
  unfold bind at 1, set_vars. unfold try_except.
  unfold bind at 1, call at 1. rewrite Hl.
  unfold leaving, setup_page.
  unfold bind at 1. unfold bind at 1, call at 1. rewrite Hn.
  unfold bind at 1, call at 1. rewrite Hv.
  unfold bind at 1, call at 1. rewrite Hh.
  unfold call at 1. rewrite Ht.
  unfold bind at 1.
  match goal with
  | |- context [crawl_loop max_pages site fuel (Some url) 1 ?s0] =>
      destruct (crawl_loop_walk 1 url pages k' url' Hwalk Hu Hcap Hload Hind
                  fuel s0 Hfuel) as (s' & Hrun & Hvars);
      rewrite Hrun
  end.
  unfold get_vars, call.
  destruct (listing_close site); simpl; rewrite Hvars; reflexivity.
Qed.

End CrawlFacts.
(** C2, as the claim states it, fails: in a category of two pages where
    the first shows the page number 1 and the second shows a text that is
    not a number, the crawl returns the product URLs of both pages, not
    those of the first page only. *)
Lemma scrape_category_unparsable_page_counterexample :
  page_next_url first_page = Some second_url
  /\ indicator_unparsable second_page
  /\ result_of (ProductUrlScraper.scrape_category None two_page_site 5
                  category_url) (start [])
     = Val (page_product_urls first_page ++ page_product_urls second_page)
  /\ result_of (ProductUrlScraper.scrape_category None two_page_site 5
                  category_url) (start [])
     <> Val (page_product_urls first_page).
Proof.
  split; [vm_compute; reflexivity|]. split.
  - exists (text_element EmptyString),
           [text_element "1"; current_item "page two"],
           (current_item "page two"), (Some "page two").
    repeat split; vm_compute; reflexivity.
  - split; [vm_compute; reflexivity|]. vm_compute. discriminate.
Qed.

(** The same category, through the amended statement: the walk is the
    first page, the crawl arrives at the second, and the product URLs of
    both are returned. *)
Lemma scrape_category_stops_at_unparsable_witness :
  result_of (ProductUrlScraper.scrape_category None two_page_site 5
               category_url) (start [])
  = Val [ "https://www.traderjoes.com/home/products/pdp/a-1";
          "https://www.traderjoes.com/home/products/pdp/b-2" ].
Proof.
  rewrite (scrape_category_stops_at_unparsable None two_page_site
             category_url [first_page] 2 second_url 5 (start [])).
  - vm_compute. reflexivity.
  - repeat split; reflexivity.
  - reflexivity.
  - apply walk_next with (next := second_url).
    + reflexivity.
    + split; reflexivity.
    + vm_compute. reflexivity.
    + apply walk_done.
  - reflexivity.
  - split; reflexivity.
  - exists (text_element EmptyString),
           [text_element "1"; current_item "page two"],
           (current_item "page two"), (Some "page two").
    repeat split; vm_compute; reflexivity.
  - simpl. lia.
Defined.

Section Extensionality.
Context {L : Type}.

Lemma bind_ext {A B} (m : M L A) (k k' : A -> M L B) :
  (forall a s, k a s = k' a s) -> forall s, bind m k s = bind m k' s.
Proof.
  intros H s. unfold bind. destruct (m s) as [[a|e|] s']; auto.
Qed.

Lemma bind_ext_l {A B} (m m' : M L A) (k : A -> M L B) :
  (forall s, m s = m' s) -> forall s, bind m k s = bind m' k s.
Proof. intros H s. unfold bind. rewrite H. reflexivity. Qed.

Lemma try_except_ext {A} (m m' : M L A) h :
  (forall s, m s = m' s) -> forall s, try_except m h s = try_except m' h s.
Proof. intros H s. unfold try_except. rewrite H. reflexivity. Qed.

Lemma leaving_ext {A} (m m' : M L A) x :
  (forall s, m s = m' s) -> forall s, leaving m x s = leaving m' x s.
Proof. intros H s. unfold leaving. rewrite H. reflexivity. Qed.

End Extensionality.

(** With a cap of zero the loop is the loop without cap. *)
Lemma crawl_loop_cap_zero site fuel current_url k s :
  ProductUrlScraper.crawl_loop (Some 0) site fuel current_url k s
  = ProductUrlScraper.crawl_loop None site fuel current_url k s.
Proof.
  revert current_url k s. induction fuel as [|fuel IH]; intros current_url k s.
  - reflexivity.
  - rewrite !crawl_loop_unfold.
    destruct (negb (ProductUrlScraper.url_truthy current_url)); [reflexivity|].
    change (ProductUrlScraper.cap_reached (Some 0) k) with false.
    change (ProductUrlScraper.cap_reached None k) with false.
    cbv zeta iota.
    repeat (apply bind_ext; intros).
    apply IH.
Qed.

(** On a category that always offers a next page, a crawl capped at zero
    is still running when its fuel runs out, however much fuel it has. *)
Lemma crawl_loop_endless fuel url k (s : Runtime (list string)) :
  Py.truthy url = true ->
  result_of (ProductUrlScraper.crawl_loop (Some 0) endless_site fuel (Some url) k) s
  = Diverged.
Proof.
  revert url k s. induction fuel as [|fuel IH]; intros url k s Hu.
  - unfold result_of. simpl. rewrite Hu. reflexivity.
  - destruct (crawl_loop_turn (Some 0) endless_site fuel url k s Hu eq_refl)
      as (s1 & Hturn & _); [split; reflexivity|].
    unfold result_of. rewrite Hturn.
    assert (Hnext : page_next_url (listing_page endless_site k url)
                    = Some (ProductUrlScraper.next_url url 2))
      by (vm_compute; reflexivity).
    rewrite Hnext. apply IH. apply (page_next_url_truthy _ _ Hnext).
Qed.

(** C9: a cap of zero never stops the loop, [scrape_category] capped at
    zero is [scrape_category] without cap, and on a category that always
    offers a next page it never stops, whereas a cap of two stops it after
    two pages. *)
Theorem scrape_category_cap_zero_is_no_cap :
  (forall k, ProductUrlScraper.cap_reached (Some 0) k = false)
  /\ (forall site fuel url s,
        ProductUrlScraper.scrape_category (Some 0) site fuel url s
        = ProductUrlScraper.scrape_category None site fuel url s)
  /\ (forall fuel,
        result_of (ProductUrlScraper.scrape_category (Some 0) endless_site
                     fuel category_url) (start [])
        = Diverged)
  /\ navigations
       (trace (snd (ProductUrlScraper.scrape_category (Some 0) endless_site
                      7 category_url (start [])))) = 7%nat
  /\ navigations
       (trace (snd (ProductUrlScraper.scrape_category (Some 2) endless_site
                      7 category_url (start [])))) = 2%nat.
Proof.
  split; [reflexivity|]. split; [|split; [|split; vm_compute; reflexivity]].
  - intros site fuel url s. unfold ProductUrlScraper.scrape_category.
    apply bind_ext; intros _ s0. apply try_except_ext; intros s1.
    apply bind_ext; intros _ s2. apply leaving_ext; intros s3.
    apply bind_ext; intros _ s4. apply bind_ext_l; intros s5.
    apply crawl_loop_cap_zero.
  - intros fuel. unfold result_of, ProductUrlScraper.scrape_category.
    unfold bind at 1, set_vars, try_except. unfold bind at 1, call at 1.
    simpl listing_launch. cbv iota. unfold leaving, ProductUrlScraper.setup_page.
    unfold bind at 1. unfold bind at 1. unfold call. simpl. unfold bind at 1.
    match goal with
    | |- context [ProductUrlScraper.crawl_loop ?c ?site fuel ?u ?k ?s0] =>
        pose proof (crawl_loop_endless fuel category_url k s0 eq_refl) as H;
        unfold result_of in H;
        destruct (ProductUrlScraper.crawl_loop c site fuel u k s0) as [r s'];
        simpl in H; subst r
    end.
    reflexivity.
Qed.

(** ** The job lifecycle *)

(** The two fields are only ever set, never cleared: after a sequence of
    transitions, the result is set exactly when it was set before or the
    sequence holds a [Succeed], and the error likewise with [Fail]. *)
Lemma run_transitions_fields ts job :
  (is_Some (ScrapeJob.result_product_id (run_transitions job ts))
   <-> is_Some (ScrapeJob.result_product_id job) \/ existsb is_succeed ts = true)
  /\ (is_Some (ScrapeJob.error_message (run_transitions job ts))
      <-> is_Some (ScrapeJob.error_message job) \/ existsb is_fail ts = true).
Proof.
  revert job. induction ts as [|t rest IH]; intros job.
  - simpl. split; split; auto; intros [H | H]; auto; discriminate.
  - unfold run_transitions in *. simpl fold_left.
    destruct (IH (apply_transition job t)) as [IHr IHe].
    rewrite IHr, IHe. clear IH IHr IHe.
    destruct t as [u | p u | e u]; simpl; split; split;
      try (intros [H | H]; auto; fail);
      try (intros _; left; eexists; reflexivity);
      try (intros [H | H]; auto; discriminate H).
Qed.

Lemma existsb_firstn {A} (f : A -> bool) n l :
  existsb f (firstn n l) = true -> existsb f l = true.
Proof.
  revert l. induction n as [|n IH]; intros [|x l]; simpl; try discriminate.
  intros H. apply orb_prop in H as [H | H]; [rewrite H; reflexivity|].
  rewrite (IH l H). apply orb_true_r.
Qed.

(** C4, as the claim states it, fails: nothing in [mark_failed] clears the
    result of an earlier [mark_completed], so the sequence Begin, Succeed,
    Fail leaves a job with both fields set. *)
Lemma scrape_job_both_set_counterexample :
  ~ at_most_one_set
      (run_transitions (ScrapeJob.pending "job-1" sample_url 0)
         [Begin 1; Succeed "3f2c9a1e-product" 2; Fail "store unreachable" 3]).
Proof. intros [H | H]; discriminate H. Qed.

(** C4 (amended): along a sequence of transitions that does not hold both
    a [Succeed] and a [Fail], started from a freshly created pending job,
    the job has at most one of its result and its error set at every
    step. *)
Theorem scrape_job_at_most_one_set job_id url created_at ts n :
  succeeds_and_fails ts = false ->
  at_most_one_set
    (run_transitions (ScrapeJob.pending job_id url created_at) (firstn n ts)).
Proof.
  intros H. unfold succeeds_and_fails in H.
  destruct (run_transitions_fields (firstn n ts)
              (ScrapeJob.pending job_id url created_at)) as [Hr He].
  unfold at_most_one_set.
  destruct (existsb is_succeed ts) eqn:Es.
  - simpl in H. right.
    destruct (ScrapeJob.error_message (run_transitions _ _)) eqn:E; [|reflexivity].
    assert (Hs : is_Some (Some s)) by (eexists; reflexivity).
    apply He in Hs. destruct Hs as [[x Hx] | Hx]; [discriminate Hx|].
    apply existsb_firstn in Hx. congruence.
  - left.
    destruct (ScrapeJob.result_product_id (run_transitions _ _)) eqn:E;
      [|reflexivity].
    assert (Hs : is_Some (Some s)) by (eexists; reflexivity).
    apply Hr in Hs. destruct Hs as [[x Hx] | Hx]; [discriminate Hx|].
    apply existsb_firstn in Hx. congruence.
Qed.

(** The life of a job whose scrape times out: pending, processing,
    failed. *)
Lemma scrape_job_at_most_one_set_witness :
  at_most_one_set
    (run_transitions (ScrapeJob.pending "job-1" sample_url 0)
       [Begin 1; Fail "Timeout 30000ms exceeded." 2]).
Proof.
  apply (scrape_job_at_most_one_set "job-1" sample_url 0
           [Begin 1; Fail "Timeout 30000ms exceeded." 2] 2).
  reflexivity.
Defined.

(** The sequences that follow the state machine from [pending] are the
    empty one, Begin, Begin-Succeed and Begin-Fail; none holds both a
    [Succeed] and a [Fail]. *)
Lemma follows_lifecycle_not_both ts :
  follows_lifecycle "pending" ts = true -> succeeds_and_fails ts = false.
Proof.
  destruct ts as [|[u|p u|e u] ts]; simpl; try discriminate; [reflexivity|].
  destruct ts as [|[u1|p1 u1|e1 u1] ts]; simpl; try discriminate;
    [reflexivity| |];
    destruct ts as [|[u2|p2 u2|e2 u2] ts]; simpl; try discriminate; reflexivity.
Qed.

(** ** The form of a digest *)

Lemma hex_digit_lower_hex n :
  0 <= n < 16 -> is_lower_hex (SHA256.hex_digit n) = true.
Proof.
  intros H. rewrite <- (Z2Nat.id n) by lia.
  assert (Hk : (Z.to_nat n < 16)%nat) by lia.
  revert Hk. generalize (Z.to_nat n) as k. intros k Hk.
  do 16 (destruct k as [|k]; [reflexivity|]). lia.
Qed.

(** The digits of a sequence of bytes: two for each byte. *)
Lemma hex_of_bytes bytes :
  Forall (fun b => 0 <= b < 256) bytes ->
  String.length (SHA256.hex bytes) = (2 * length bytes)%nat
  /\ all_chars is_lower_hex (SHA256.hex bytes) = true.
Proof.
  induction 1 as [|b bytes Hb _ [IHl IHc]]; [split; reflexivity|].
  cbn [SHA256.hex String.length all_chars length]. split; [lia|].
  rewrite IHc, !hex_digit_lower_hex; [reflexivity | |].
  - change 15 with (Z.ones 4). rewrite Z.land_ones by lia.
    apply Z.mod_pos_bound. lia.
  - rewrite Z.shiftr_div_pow2 by lia. change (2 ^ 4) with 16.
    split; [apply Z.div_pos; lia | apply Z.div_lt_upper_bound; lia].
Qed.

Lemma be_bytes_bytes n x :
  length (SHA256.be_bytes n x) = n
  /\ Forall (fun b => 0 <= b < 256) (SHA256.be_bytes n x).
Proof.
  induction n as [|n [IHl IHb]]; [split; [reflexivity | constructor]|].
  cbn [SHA256.be_bytes length]. split; [lia|]. constructor; [|exact IHb].
  change 255 with (Z.ones 8). rewrite Z.land_ones by lia.
  apply Z.mod_pos_bound. lia.
Qed.

Lemma blocks_length n h bytes :
  length h = 8%nat -> length (SHA256.blocks n h bytes) = 8%nat.
Proof.
  revert h bytes. induction n as [|n IH]; intros h bytes Hh; [exact Hh|].
  cbn [SHA256.blocks]. apply IH. reflexivity.
Qed.

Lemma flat_map_be_bytes words :
  length (flat_map (SHA256.be_bytes 4) words) = (4 * length words)%nat
  /\ Forall (fun b => 0 <= b < 256) (flat_map (SHA256.be_bytes 4) words).
Proof.
  induction words as [|x words [IHl IHb]]; [split; [reflexivity | constructor]|].
  cbn [flat_map]. destruct (be_bytes_bytes 4 x) as [Hl Hb]. split.
  - rewrite length_app, Hl, IHl. simpl. lia.
  - apply Forall_app. split; assumption.
Qed.

(** A hex digest has 64 characters, each a digit or a letter from [a] to
    [f], whatever the message. *)
Lemma hexdigest_is_hex msg :
  String.length (SHA256.hexdigest msg) = 64%nat
  /\ all_chars is_lower_hex (SHA256.hexdigest msg) = true.
Proof.
  unfold SHA256.hexdigest, SHA256.digest.
  match goal with
  | |- context [SHA256.blocks ?n SHA256.H0 ?p] =>
      pose proof (blocks_length n SHA256.H0 p eq_refl) as Hlen;
      destruct (flat_map_be_bytes (SHA256.blocks n SHA256.H0 p)) as [Hl Hb];
      destruct (hex_of_bytes _ Hb) as [Hhl Hhc]
  end.
  split; [|exact Hhc]. rewrite Hhl, Hl, Hlen. reflexivity.
Qed.

(** ** The store adapter *)

(** [store_product] writes the index entry of the product at the key of
    its URL and leaves the rest of the index as it was. *)
Lemma store_product_index product utcnow db key :
  FirebaseService.url_lookup
    (snd (FirebaseService.store_product product utcnow db)) !! key
  = if decide (FirebaseService._generate_url_hash (ProductData.url product) = key)
    then Some (index_entry product utcnow)
    else FirebaseService.url_lookup db !! key.
Proof. unfold FirebaseService.store_product. simpl. apply lookup_insert. Qed.

(** A URL with the key of the stored product's URL finds the product. *)
Lemma get_product_by_url_same_key product utcnow db url' :
  FirebaseService._generate_url_hash url'
  = FirebaseService._generate_url_hash (ProductData.url product) ->
  FirebaseService.get_product_by_url url'
    (snd (FirebaseService.store_product product utcnow db))
  = Some product.
Proof.
  intros Hkey. unfold FirebaseService.get_product_by_url.
  rewrite store_product_index, Hkey.
  destruct (decide _) as [_ | Hne]; [|congruence].
  unfold FirebaseService.get_product_by_id, FirebaseService.store_product.
  simpl. apply lookup_insert_eq.
Qed.

(** A URL with another key is looked up in the index as it was before. *)
Lemma get_product_by_url_other_key product utcnow db url' :
  FirebaseService._generate_url_hash url'
  <> FirebaseService._generate_url_hash (ProductData.url product) ->
  FirebaseService.url_lookup
    (snd (FirebaseService.store_product product utcnow db))
    !! FirebaseService._generate_url_hash url'
  = FirebaseService.url_lookup db !! FirebaseService._generate_url_hash url'.
Proof.
  intros Hkey. rewrite store_product_index.
  destruct (decide _) as [He | _]; [congruence | reflexivity].
Qed.

(** C10: the key of a URL is the SHA-256 hex digest of its UTF-8 bytes as
    they are: a text of 64 hex digits whatever the URL, which for the
    empty text, for [abc], for the sample URL and for a URL with an
    accented letter is the digest [hashlib] gives; a stored product is
    found by every URL that has the key of its URL; stored in an empty
    store, it is found by a URL exactly when that URL has the key of its
    URL, hence, for a URL that does not collide with it, exactly when the
    two are the same text; and the variants of a URL with a trailing slash
    or in upper case have other keys. *)
Theorem url_index_key_is_raw_sha256 (product : ProductData.t) (utcnow : Z)
    (url' : string) :
  let key := FirebaseService._generate_url_hash in
  let db' := snd (FirebaseService.store_product product utcnow
                    FirebaseService.empty) in
  key url' = SHA256.hexdigest (Utf8.encode url')
  /\ (String.length (key url') = 64%nat
      /\ all_chars is_lower_hex (key url') = true)
  /\ (key EmptyString
      = "e3b0c44298fc1c149afbf4c8996fb92427ae41e4649b934ca495991b7852b855"
      /\ key "abc"
         = "ba7816bf8f01cfea414140de5dae2223b00361a396177a9cb410ff61f20015ad"
      /\ key sample_url
         = "e2207ff14465f3be4d8abb28643a47e787a9eec0d22676d71ce87ba4454bf5d1"
      /\ key accented_url
         = "c0c71654bb4d801cc71b23f5157b4535393de804b4410bc9f7526dcfc5938f9c")
  /\ (forall db,
        key url' = key (ProductData.url product) ->
        FirebaseService.get_product_by_url url'
          (snd (FirebaseService.store_product product utcnow db))
        = Some product)
  /\ (FirebaseService.get_product_by_url url' db' = Some product
      <-> key url' = key (ProductData.url product))
  /\ ((key url' = key (ProductData.url product) -> url' = ProductData.url product) ->
      (FirebaseService.get_product_by_url url' db' = Some product
       <-> url' = ProductData.url product))
  /\ key (sample_url +:+ "/") <> key sample_url
  /\ key "HTTPS://WWW.TRADERJOES.COM/home/products/pdp/strawberry-doodle-cookies-081523"
     <> key sample_url.
Proof.
  intros key db'. subst key db'. cbv beta.
  assert (Hfound :
    FirebaseService.get_product_by_url url'
      (snd (FirebaseService.store_product product utcnow FirebaseService.empty))
    = Some product
    <-> FirebaseService._generate_url_hash url'
        = FirebaseService._generate_url_hash (ProductData.url product)).
  { split.
    - intros Hget.
      destruct (decide (FirebaseService._generate_url_hash url'
                        = FirebaseService._generate_url_hash
                            (ProductData.url product)))
        as [He | Hne]; [exact He|].
      unfold FirebaseService.get_product_by_url in Hget.
      rewrite (get_product_by_url_other_key product utcnow FirebaseService.empty
                 url' Hne) in Hget.
      simpl in Hget. rewrite lookup_empty in Hget. discriminate Hget.
    - apply get_product_by_url_same_key. }
  split; [reflexivity|].
  split; [apply hexdigest_is_hex|].
  split; [repeat split; vm_compute; reflexivity|].
  split; [intros db; apply get_product_by_url_same_key|].
  split; [exact Hfound|]. split.
  - intros Hfree. rewrite Hfound. split; [exact Hfree | intros ->; reflexivity].
  - split; vm_compute; discriminate.
Qed.

(** The stored sample product is found by its URL and not by the same URL
    with a trailing slash. *)
Lemma url_index_key_is_raw_sha256_witness :
  FirebaseService.get_product_by_url sample_url sample_store = Some sample_product
  /\ FirebaseService.get_product_by_url (sample_url +:+ "/") sample_store
     <> Some sample_product.
Proof.
  split.
  - apply (proj1 (proj2 (proj2 (proj2 (url_index_key_is_raw_sha256
                                          sample_product 1700000000000000
                                          sample_url))))).
    reflexivity.
  - intros H.
    apply (proj1 (proj2 (proj2 (proj2 (proj2 (proj2
             (url_index_key_is_raw_sha256 sample_product 1700000000000000
                (sample_url +:+ "/"))))))))
      in H.
    + vm_compute in H. discriminate H.
    + vm_compute. discriminate.
Defined.
(** ** The submit-scrape endpoint *)

Section EndpointFacts.
Variable validation_error : list string -> string.
Variable w : World.

(** When the product exists and no refresh is forced, no job is stored
    and no task is queued; the response model rejects the arguments it
    is given ([job_id=None] for a field declared [str], a [datetime] for
    a field declared [Optional[str]]), and the endpoint answers with
    status 500. *)
Lemma scrape_product_existing request product (s : Runtime Main.App) :
  TraderJoesScraper.can_handle (ScrapeRequest.url request) = true ->
  ScrapeRequest.force_refresh request = false ->
  FirebaseService.get_product_by_url (ScrapeRequest.url request)
    (Main.firebase_service (vars s)) = Some product ->
  exists s',
    Main.scrape_product validation_error w request s
    = (Val (HTTPException 500
              ("Error starting scrape job: "
               +:+ validation_error ["job_id"; "estimated_completion"])), s')
    /\ vars s' = vars s.
Proof.
  intros Hcan Hforce Hget. unfold Main.scrape_product.
  rewrite Hcan, Hforce. unfold try_except, Main.on_service.
  unfold bind, get_vars, set_vars, ret, now, raise. simpl.
  rewrite Hget. simpl. eexists. split; [reflexivity|].
  simpl. destruct (vars s). reflexivity.
Qed.

(** When a refresh is forced, a pending job is stored under a fresh
    identifier and its task is queued, whatever the store holds. *)
Lemma scrape_product_forced request (s : Runtime Main.App) :
  TraderJoesScraper.can_handle (ScrapeRequest.url request) = true ->
  ScrapeRequest.force_refresh request = true ->
  let job := ScrapeJob.pending (uuid_supply w (ids s))
               (ScrapeRequest.url request) (clock w (ticks s)) in
  exists r s',
    Main.scrape_product validation_error w request s = (Val r, s')
    /\ FirebaseService.get_job (ScrapeJob.job_id job)
         (Main.firebase_service (vars s')) = Some job
    /\ Main.background_tasks (vars s')
       = Main.background_tasks (vars s)
         ++ [{| Main.task_job_id := ScrapeJob.job_id job;
                Main.task_url := ScrapeRequest.url request;
                Main.task_store_in_firebase :=
                  ScrapeRequest.store_in_firebase request;
                Main.task_include_nutrition :=
                  ScrapeRequest.include_nutrition request;
                Main.task_webhook_url := ScrapeRequest.webhook_url request |}].
Proof.
  intros Hcan Hforce job. unfold Main.scrape_product.
  rewrite Hcan, Hforce. unfold try_except, Main.on_service, Main.add_task.
  unfold bind, get_vars, set_vars, ret, now, uuid4, raise. simpl.
  eexists _, _. split; [reflexivity|]. simpl. split; [|reflexivity].
  unfold FirebaseService.get_job. simpl. apply lookup_insert_eq.
Qed.

End EndpointFacts.

(** A URL no scraper supports is refused: the status 400 raised inside the
    [try] is caught by its handler and leaves as status 500; nothing is
    stored or queued. *)
Lemma scrape_product_unsupported validation_error w request
    (s : Runtime Main.App) :
  TraderJoesScraper.can_handle (ScrapeRequest.url request) = false ->
  Main.scrape_product validation_error w request s
  = (Val (HTTPException 500
            ("Error starting scrape job: "
             +:+ "400: URL not supported by any available scraper")), s).
Proof.
  intros Hcan. unfold Main.scrape_product. rewrite Hcan. reflexivity.
Qed.

(** C3: the store holds the sample product for the sample URL.  Without
    forced refresh no job is created, but the endpoint does not return a
    response carrying the product id: building the response fails on
    [job_id=None], and the handler turns the fault into status 500.  With
    forced refresh a pending job is stored under a fresh identifier, the
    stored product notwithstanding. *)
Theorem scrape_product_existing_product_fails
    (validation_error : list string -> string) :
  FirebaseService.get_product_by_url sample_url sample_store = Some sample_product
  /\ (exists s',
        Main.scrape_product validation_error ticking (sample_request false)
          (start sample_app)
        = (Val (HTTPException 500
                  ("Error starting scrape job: "
                   +:+ validation_error ["job_id"; "estimated_completion"])), s')
        /\ vars s' = sample_app)
  /\ (exists r s',
        Main.scrape_product validation_error ticking (sample_request true)
          (start sample_app) = (Val r, s')
        /\ FirebaseService.get_job "id-0" (Main.firebase_service (vars s'))
           = Some (ScrapeJob.pending "id-0" sample_url (clock ticking 0))
        /\ length (Main.background_tasks (vars s')) = 1%nat).
Proof.
  assert (Hget : FirebaseService.get_product_by_url sample_url sample_store
                 = Some sample_product) by (vm_compute; reflexivity).
  split; [exact Hget|]. split.
  - apply (scrape_product_existing validation_error ticking (sample_request false)
             sample_product (start sample_app)).
    + vm_compute. reflexivity.
    + reflexivity.
    + exact Hget.
  - destruct (scrape_product_forced validation_error ticking (sample_request true)
                (start sample_app)) as (r & s' & Hrun & Hjob & Htasks).
    + vm_compute. reflexivity.
    + reflexivity.
    + exists r, s'. split; [exact Hrun|]. split; [exact Hjob|].
      rewrite Htasks. reflexivity.
Qed.

(** * Further properties *)

(** ** Tokens of the allergen parsers *)

Lemma all_chars_lstrip p s :
  all_chars p s = true -> all_chars p (Py.lstrip s) = true.
Proof.
  induction s as [|c r IH]; simpl; [auto|].
  intros H. apply andb_prop in H as [Hc Hr].
  destruct (Py.is_space c); [auto|]. simpl. rewrite Hc, Hr. reflexivity.
Qed.

Lemma all_chars_rstrip p s :
  all_chars p s = true -> all_chars p (Py.rstrip s) = true.
Proof.
  induction s as [|c r IH]; simpl; [auto|].
  intros H. apply andb_prop in H as [Hc Hr]. specialize (IH Hr).
  destruct (Py.rstrip r) as [|d r'].
  - destruct (Py.is_space c); simpl; [reflexivity|]. rewrite Hc. reflexivity.
  - change (all_chars p (String c (String d r')))
      with (p c && all_chars p (String d r')).
    rewrite Hc, IH. reflexivity.
Qed.

Lemma all_chars_strip p s :
  all_chars p s = true -> all_chars p (Py.strip s) = true.
Proof. intros H. apply all_chars_rstrip, all_chars_lstrip, H. Qed.

(** A class of characters that lower-casing does not enter or leave. *)
Lemma all_chars_lower p s :
  (forall c, p (Py.lower_char c) = p c) ->
  all_chars p (Py.lower s) = all_chars p s.
Proof.
  intros Hp. induction s as [|c r IH]; simpl; [reflexivity|].
  rewrite Hp, IH. reflexivity.
Qed.

Lemma is_separator_lower_char c :
  BaseScraper.is_separator (Py.lower_char c) = BaseScraper.is_separator c.
Proof. destruct c as [[] [] [] [] [] [] [] []]; reflexivity. Qed.

Lemma is_full_stop_lower_char c :
  Ascii.eqb (Py.lower_char c) "." = Ascii.eqb c ".".
Proof. destruct c as [[] [] [] [] [] [] [] []]; reflexivity. Qed.

Lemma all_chars_and p q s :
  all_chars (fun c => p c && q c) s = all_chars p s && all_chars q s.
Proof.
  induction s as [|c r IH]; simpl; [reflexivity|]. rewrite IH.
  destruct (p c), (q c), (all_chars p r); reflexivity.
Qed.

(** No field of a split holds a separator, and a class of characters the
    text stays in, its fields stay in. *)
Lemma split_on_fields sep p s :
  all_chars p s = true ->
  Forall (fun f => all_chars (fun c => negb (sep c)) f = true
                   /\ all_chars p f = true)
         (Py.split_on sep s).
Proof.
  induction s as [|c r IH]; simpl.
  - intros _. repeat constructor.
  - intros H. apply andb_prop in H as [Hc Hr]. specialize (IH Hr).
    destruct (sep c) eqn:E.
    + constructor; [split; reflexivity | exact IH].
    + destruct (Py.split_on sep r) as [|f fs].
      * repeat constructor; simpl; rewrite ?E, ?Hc; reflexivity.
      * inversion IH as [|? ? [Hf1 Hf2] Hfs]; subst.
        constructor; [|exact Hfs]. simpl. rewrite E, Hc, Hf1, Hf2. auto.
Qed.

Lemma span_fst_all_chars p s : all_chars p (fst (Py.span p s)) = true.
Proof.
  induction s as [|c r IH]; simpl; [reflexivity|].
  destruct (p c) eqn:E; [|reflexivity].
  destruct (Py.span p r) as [g rest]. simpl in *. rewrite E, IH. reflexivity.
Qed.

(** Every match of [finditer] is a match of the pattern somewhere. *)
Lemma finditer_fuel_Forall {A} (Q : A -> Prop) m fuel s :
  (forall s0 a rest, m s0 = Some (a, rest) -> Q a) ->
  Forall Q (Py.finditer_fuel fuel m s).
Proof.
  intros Hm. revert s. induction fuel as [|fuel IH]; intros s; simpl.
  - constructor.
  - destruct (m s) as [[a rest]|] eqn:E.
    + constructor; [eapply Hm, E | apply IH].
    + destruct s; [constructor | apply IH].
Qed.

Lemma fold_left_Forall {A B} (P : A -> Prop) (Q : B -> Prop)
    (f : list A -> B -> list A) l acc :
  (forall acc b, Forall P acc -> Q b -> Forall P (f acc b)) ->
  Forall Q l -> Forall P acc -> Forall P (fold_left f l acc).
Proof.
  intros Hf Hl. revert acc. induction Hl as [|b l Hb Hl IH]; intros acc Hacc; simpl.
  - exact Hacc.
  - apply IH, Hf; assumption.
Qed.

Lemma lower_truthy s : Py.truthy (Py.lower s) = Py.truthy s.
Proof. destruct s; reflexivity. Qed.

(** What one field of a group adds to the list. *)
Lemma parse_allergens_group_Forall allergens group :
  no_full_stop group ->
  Forall (fun x => clean_token x /\ Py.lower x = x /\ no_full_stop x) allergens ->
  Forall (fun x => clean_token x /\ Py.lower x = x /\ no_full_stop x)
         (BaseScraper.parse_allergens_group allergens group).
Proof.
  intros Hg Hacc. unfold BaseScraper.parse_allergens_group.
  apply fold_left_Forall
    with (Q := fun f => all_chars (fun c => negb (BaseScraper.is_separator c)) f = true
                        /\ no_full_stop f);
    [| apply split_on_fields, Hg | exact Hacc].
  clear. intros acc part Hacc [Hsep Hstop].
  destruct (Py.truthy (Py.lower (Py.strip part))) eqn:E; [|exact Hacc].
  apply Forall_app. split; [exact Hacc|]. constructor; [|constructor].
  split; [|split].
  - split; [exact E|]. split.
    + rewrite lower_strip. apply strip_idempotent.
    + rewrite all_chars_lower
        by (intros c; rewrite is_separator_lower_char; reflexivity).
      apply all_chars_strip, Hsep.
  - apply lower_idempotent.
  - unfold no_full_stop.
    rewrite all_chars_lower
      by (intros c; rewrite is_full_stop_lower_char; reflexivity).
    apply all_chars_strip, Hstop.
Qed.

(** X1: [parse_allergens] returns [None] or a list that is not empty, and
    every allergen of the list is not empty, has no whitespace at its
    ends, is in lower case and holds no comma, semicolon or full stop. *)
Theorem parse_allergens_tokens (text : option string) :
  match BaseScraper.parse_allergens text with
  | None => True
  | Some allergens =>
      allergens <> []
      /\ Forall (fun x => clean_token x /\ Py.lower x = x /\ no_full_stop x)
                allergens
  end.
Proof.
  unfold BaseScraper.parse_allergens.
  destruct text as [t|]; [|exact I]. destruct (Py.truthy t); [|exact I].
  assert (H : Forall (fun x => clean_token x /\ Py.lower x = x /\ no_full_stop x)
                (fold_left (BaseScraper.parse_allergens_pattern t)
                   BaseScraper.allergen_labels [])).
  { apply fold_left_Forall with (Q := fun _ => True);
      [| apply Forall_forall; auto | constructor].
    intros acc label Hacc _. unfold BaseScraper.parse_allergens_pattern.
    apply fold_left_Forall with (Q := no_full_stop); [| | exact Hacc].
    - intros acc' group Hacc' Hg. apply parse_allergens_group_Forall; assumption.
    - apply finditer_fuel_Forall. intros s0 g rest Hm.
      unfold BaseScraper.match_allergens in Hm.
      destruct (Py.drop_prefix_ci label s0) as [r|]; [|discriminate].
      injection Hm as Hm.
      pose proof (span_fst_all_chars (fun c => negb (Ascii.eqb c ".")) (Py.lstrip r)) as Hs.
      rewrite Hm in Hs. exact Hs. }
  destruct (fold_left _ _ _) as [|a l] eqn:E; [exact I|].
  split; [discriminate | exact H].
Qed.
(** A literal matches without regard to case where it is a prefix of the
    text in lower case. *)
Lemma drop_prefix_ci_none p s :
  Py.drop_prefix p (Py.lower s) = None -> Py.drop_prefix_ci p s = None.
Proof.
  revert s. induction p as [|a p IH]; intros s; simpl; [discriminate|].
  destruct s as [|b s]; simpl; [reflexivity|].
  destruct (Ascii.eqb a (Py.lower_char b)); [apply IH | reflexivity].
Qed.

Lemma contains_false_tail old c r :
  Py.contains old (String c r) = false ->
  Py.drop_prefix old (String c r) = None /\ Py.contains old r = false.
Proof.
  simpl Py.contains.
  destruct (Py.drop_prefix old (String c r)); [discriminate | auto].
Qed.

Lemma contains_false_head old s :
  Py.contains old s = false -> Py.drop_prefix old s = None.
Proof.
  destruct s as [|c r]; [|intros H; apply (contains_false_tail _ _ _ H)].
  simpl. destruct (Py.drop_prefix old EmptyString); [discriminate | reflexivity].
Qed.

(** Where the literal of a pattern does not occur, the pattern has no
    match. *)
Lemma finditer_without_label label fuel s :
  Py.contains label (Py.lower s) = false ->
  Py.finditer_fuel fuel (BaseScraper.match_allergens label) s = [].
Proof.
  revert s. induction fuel as [|fuel IH]; intros s H; [reflexivity|].
  cbn [Py.finditer_fuel]. unfold BaseScraper.match_allergens at 1.
  rewrite (drop_prefix_ci_none _ _ (contains_false_head _ _ H)).
  destruct s as [|c r]; [reflexivity|].
  apply IH. simpl Py.lower in H. apply (contains_false_tail _ _ _ H).
Qed.

(** X2: a text in which none of the four labels occurs, in any case,
    gives [None]. *)
Theorem parse_allergens_without_label (t : string) :
  (forall label, In label BaseScraper.allergen_labels ->
                 Py.contains label (Py.lower t) = false) ->
  BaseScraper.parse_allergens (Some t) = None.
Proof.
  intros H. unfold BaseScraper.parse_allergens.
  destruct (Py.truthy t); [|reflexivity].
  assert (Hfold : forall labels,
            (forall label, In label labels ->
                           Py.contains label (Py.lower t) = false) ->
            fold_left (BaseScraper.parse_allergens_pattern t) labels [] = []).
  { induction labels as [|label labels IH]; intros Hl; [reflexivity|].
    simpl. unfold BaseScraper.parse_allergens_pattern at 2, Py.finditer.
    rewrite finditer_without_label by (apply Hl; left; reflexivity).
    apply IH. intros l Hin. apply Hl. right. exact Hin. }
  rewrite (Hfold _ H). reflexivity.
Qed.

(** A sentence that names allergens without any of the labels. *)
Lemma parse_allergens_without_label_witness :
  BaseScraper.parse_allergens (Some "Made with milk; contains soy and wheat.")
  = None.
Proof.
  apply (parse_allergens_without_label
           "Made with milk; contains soy and wheat.").
  intros label Hin. simpl in Hin.
  repeat (destruct Hin as [<- | Hin]; [vm_compute; reflexivity|]).
  destruct Hin.
Defined.
(** ** Numbers read by [float] *)

Lemma is_digit_not_float_space c :
  Py.is_digit c = true -> Py.is_float_space c = false.
Proof. destruct c as [[] [] [] [] [] [] [] []]; simpl; try discriminate; reflexivity. Qed.

Lemma is_full_stop_not_float_space c :
  Ascii.eqb c "." = true -> Py.is_float_space c = false.
Proof. intros H. apply Ascii.eqb_eq in H. subst c. reflexivity. Qed.

Lemma numeral_char_not_float_space c :
  Py.is_digit c || Ascii.eqb c "." = true -> Py.is_float_space c = false.
Proof.
  intros H. apply orb_prop in H as [H | H];
    [apply is_digit_not_float_space | apply is_full_stop_not_float_space]; exact H.
Qed.

Lemma rstrip_float_numeral s :
  numeral_chars s = true -> Py.rstrip_float s = s.
Proof.
  unfold numeral_chars. induction s as [|c r IH]; simpl; [reflexivity|].
  intros H. apply andb_prop in H as [Hc Hr]. rewrite (IH Hr).
  destruct r; [|reflexivity].
  rewrite (numeral_char_not_float_space _ Hc). reflexivity.
Qed.

Lemma strip_float_numeral s :
  numeral_chars s = true -> Py.strip_float s = s.
Proof.
  intros H. unfold Py.strip_float.
  assert (Hl : Py.lstrip_float s = s).
  { destruct s as [|c r]; [reflexivity|]. simpl.
    unfold numeral_chars in H. simpl in H. apply andb_prop in H as [Hc _].
    rewrite (numeral_char_not_float_space _ Hc). reflexivity. }
  rewrite Hl. apply rstrip_float_numeral, H.
Qed.

(** A text that starts with a digit has no sign. *)
Lemma is_float_literal_unsigned c r s :
  Py.strip_float s = String c r -> Py.is_digit c = true ->
  Py.is_float_literal s
  = Py.is_floatnumber (String c r) || Py.is_float_word (String c r).
Proof.
  intros Hs Hc. unfold Py.is_float_literal. rewrite Hs.
  destruct c as [[] [] [] [] [] [] [] []]; try discriminate Hc; reflexivity.
Qed.

Lemma digits_rest_app d s :
  all_chars Py.is_digit d = true ->
  match s with
  | EmptyString => True
  | String c _ => Py.is_digit c = false /\ Ascii.eqb c "_" = false
  end ->
  Py.digits_rest (d +:+ s) = s.
Proof.
  intros Hd Hs. induction d as [|a d IH]; simpl.
  - destruct s as [|c r]; [reflexivity|]. destruct Hs as [H1 H2].
    simpl. rewrite H1, H2. reflexivity.
  - simpl in Hd. apply andb_prop in Hd as [Ha Hd]. rewrite Ha. apply IH, Hd.
Qed.

Lemma digitpart_app d s :
  all_chars Py.is_digit d = true -> Py.truthy d = true ->
  match s with
  | EmptyString => True
  | String c _ => Py.is_digit c = false /\ Ascii.eqb c "_" = false
  end ->
  Py.digitpart (d +:+ s) = Some s.
Proof.
  intros Hd Ht Hs. destruct d as [|a d]; [discriminate|].
  simpl in Hd. apply andb_prop in Hd as [Ha Hd].
  simpl. rewrite Ha. f_equal. apply digits_rest_app; assumption.
Qed.

Lemma append_empty_r s : s +:+ EmptyString = s.
Proof.
  induction s as [|c r IH]; [reflexivity|].
  change (String c (r +:+ EmptyString) = String c r). rewrite IH. reflexivity.
Qed.

Lemma all_chars_app p a b :
  all_chars p (a +:+ b) = all_chars p a && all_chars p b.
Proof.
  induction a as [|c r IH]; simpl; [reflexivity|].
  rewrite IH, andb_assoc. reflexivity.
Qed.

Lemma all_chars_weaken (p q : ascii -> bool) s :
  (forall c, p c = true -> q c = true) ->
  all_chars p s = true -> all_chars q s = true.
Proof.
  intros Hpq. induction s as [|c r IH]; simpl; [reflexivity|].
  intros H. apply andb_prop in H as [Hc Hr]. rewrite (Hpq _ Hc), (IH Hr).
  reflexivity.
Qed.

Lemma digits_head d :
  all_chars Py.is_digit d = true -> Py.truthy d = true ->
  exists c r, d = String c r /\ Py.is_digit c = true.
Proof.
  destruct d as [|c r]; [discriminate|]. simpl. intros H _.
  apply andb_prop in H as [H _]. eauto.
Qed.

(** [float] reads a run of digits. *)
Lemma is_float_literal_digits d :
  all_chars Py.is_digit d = true -> Py.truthy d = true ->
  Py.is_float_literal d = true.
Proof.
  intros Hd Ht.
  assert (Hn : numeral_chars d = true)
    by (eapply all_chars_weaken; [|exact Hd]; intros c ->; reflexivity).
  assert (Hp : Py.digitpart d = Some EmptyString).
  { rewrite <- (append_empty_r d) at 1. apply digitpart_app; auto. }
  destruct (digits_head d Hd Ht) as (c & r & E & Hc).
  assert (Hs : Py.strip_float d = String c r)
    by (rewrite strip_float_numeral; assumption).
  rewrite (is_float_literal_unsigned c r d Hs Hc). rewrite <- E.
  unfold Py.is_floatnumber, Py.number. rewrite Hp. reflexivity.
Qed.

(** [float] reads digits, a point and digits, the latter possibly
    none. *)
Lemma is_float_literal_decimal d f :
  all_chars Py.is_digit d = true -> Py.truthy d = true ->
  all_chars Py.is_digit f = true ->
  Py.is_float_literal (d +:+ "." +:+ f) = true.
Proof.
  intros Hd Ht Hf.
  assert (Hn : numeral_chars (d +:+ "." +:+ f) = true).
  { unfold numeral_chars. rewrite all_chars_app. apply andb_true_intro. split.
    - eapply all_chars_weaken; [|exact Hd]. intros c ->. reflexivity.
    - simpl. eapply all_chars_weaken; [|exact Hf]. intros c ->. reflexivity. }
  assert (Hp : Py.digitpart (d +:+ "." +:+ f) = Some ("." +:+ f))
    by (apply digitpart_app; auto; split; reflexivity).
  assert (Hq : Py.truthy f = true -> Py.digitpart f = Some EmptyString).
  { intros Hft. rewrite <- (append_empty_r f) at 1. apply digitpart_app; auto. }
  assert (Hnum : Py.is_floatnumber (d +:+ "." +:+ f) = true).
  { unfold Py.is_floatnumber, Py.number. rewrite Hp.
    change ("." +:+ f) with (String "." f). cbv beta iota.
    destruct f as [|a f']; [reflexivity|]. rewrite (Hq eq_refl). reflexivity. }
  destruct (digits_head d Hd Ht) as (c & r & E & Hc).
  assert (Hs : Py.strip_float (d +:+ "." +:+ f) = String c (r +:+ "." +:+ f))
    by (rewrite strip_float_numeral by exact Hn; rewrite E; reflexivity).
  rewrite (is_float_literal_unsigned c _ _ Hs Hc).
  change (String c (r +:+ "." +:+ f)) with (String c r +:+ "." +:+ f).
  rewrite <- E, Hnum. reflexivity.
Qed.

Lemma take_digits_digits s :
  all_chars Py.is_digit (fst (TraderJoesScraper.take_digits s)) = true.
Proof.
  induction s as [|c r IH]; simpl; [reflexivity|].
  destruct (Py.is_digit c) eqn:E; [|reflexivity].
  destruct (TraderJoesScraper.take_digits r) as [d rest]. simpl in *.
  rewrite E, IH. reflexivity.
Qed.

(** What [decimal] matches, [float] reads. *)
Lemma decimal_is_float_literal s group rest :
  TraderJoesScraper.decimal s = Some (group, rest) ->
  Py.is_float_literal group = true.
Proof.
  unfold TraderJoesScraper.decimal.
  pose proof (take_digits_digits s) as Hw.
  destruct (TraderJoesScraper.take_digits s) as [whole r1]. simpl in Hw.
  destruct (Py.truthy whole) eqn:Ht; [|discriminate].
  assert (Hplain : Some (whole, r1) = Some (group, rest) ->
                   Py.is_float_literal group = true).
  { intros H. injection H as <- _. apply is_float_literal_digits; assumption. }
  destruct r1 as [|c r1']; [exact Hplain|].
  destruct (Ascii.eqb c ".") eqn:Ec.
  - apply Ascii.eqb_eq in Ec. subst c.
    pose proof (take_digits_digits r1') as Hf.
    destruct (TraderJoesScraper.take_digits r1') as [fraction r2]. simpl in Hf.
    destruct (Py.truthy fraction); [|exact Hplain].
    intros H. injection H as <- _.
    apply is_float_literal_decimal; assumption.
  - destruct c as [[] [] [] [] [] [] [] []]; try discriminate Ec; exact Hplain.
Qed.

Lemma float_of_literal s :
  Py.is_float_literal s = true ->
  exists x, TraderJoesScraper.float_of s = Some x.
Proof. intros H. unfold TraderJoesScraper.float_of. rewrite H. eauto. Qed.

(** ** [parse_nutrition] *)

Lemma search_found {A} (m : string -> option A) s a :
  Py.search m s = Some a -> exists s0, m s0 = Some a.
Proof.
  induction s as [|c r IH]; simpl.
  - destruct (m EmptyString) eqn:E; [|discriminate].
    intros H. injection H as <-. eauto.
  - destruct (m (String c r)) eqn:E.
    + intros H. injection H as <-. eauto.
    + exact IH.
Qed.

(** Group 1 of a pattern other than that of the serving size is a number
    [float] reads. *)
Lemma match_shape_is_float_literal shape r group :
  shape <> TraderJoesScraper.RestOfLine ->
  TraderJoesScraper.match_shape shape r = Some group ->
  Py.is_float_literal group = true.
Proof.
  intros Hshape. unfold TraderJoesScraper.match_shape.
  destruct shape; [congruence| | |].
  - pose proof (take_digits_digits (Py.lstrip r)) as Hd.
    destruct (TraderJoesScraper.take_digits (Py.lstrip r)) as [d rest].
    destruct (Py.truthy d) eqn:Ht; [|discriminate].
    intros H. injection H as <-. apply is_float_literal_digits; assumption.
  - destruct (TraderJoesScraper.decimal (Py.lstrip r)) as [[g rest]|] eqn:E;
      [|discriminate].
    destruct (Py.drop_prefix_ci "g" _); [|discriminate].
    intros H. injection H as <-. eapply decimal_is_float_literal, E.
  - pose proof (take_digits_digits (Py.lstrip r)) as Hd.
    destruct (TraderJoesScraper.take_digits (Py.lstrip r)) as [d rest].
    destruct (Py.truthy d) eqn:Ht; [|discriminate].
    destruct (Py.drop_prefix_ci "mg" _); [|discriminate].
    intros H. injection H as <-. apply is_float_literal_digits; assumption.
Qed.

Lemma dict_set_fresh nutrition key value :
  ~ In key (map fst nutrition) ->
  TraderJoesScraper.dict_set nutrition key value = nutrition ++ [(key, value)].
Proof.
  induction nutrition as [|[k v] rest IH]; simpl; [reflexivity|].
  intros H. destruct (String.eqb k key) eqn:E.
  - apply String.eqb_eq in E. tauto.
  - rewrite IH by tauto. reflexivity.
Qed.

(** One pattern adds nothing, or one entry at the end under its key. *)
Lemma parse_nutrition_step_fresh text nutrition key label shape :
  ~ In key (map fst nutrition) ->
  (shape = TraderJoesScraper.RestOfLine -> key = "serving_size") ->
  TraderJoesScraper.parse_nutrition_step text nutrition (key, (label, shape))
  = nutrition
  \/ exists value,
       TraderJoesScraper.parse_nutrition_step text nutrition (key, (label, shape))
       = nutrition ++ [(key, value)]
       /\ number_or_serving_size (key, value).
Proof.
  intros Hkey Hshape. unfold TraderJoesScraper.parse_nutrition_step.
  destruct (TraderJoesScraper.search_pattern label shape text) as [group|] eqn:E;
    [|left; reflexivity].
  right.
  destruct (TraderJoesScraper.float_of group) as [x|] eqn:Ef.
  - exists (NumberValue x). split; [apply dict_set_fresh, Hkey|].
    right. exists x. reflexivity.
  - exists (TextValue group). split; [apply dict_set_fresh, Hkey|].
    left. apply Hshape.
    assert (Hdec : shape = TraderJoesScraper.RestOfLine
                   \/ shape <> TraderJoesScraper.RestOfLine)
      by (destruct shape; [left; reflexivity | right; discriminate ..]).
    destruct Hdec as [Hs | Hs]; [exact Hs | exfalso].
    unfold TraderJoesScraper.search_pattern in E.
    apply search_found in E as [s0 E].
    destruct (Py.drop_prefix_ci label s0) as [r|]; [|discriminate].
    apply (match_shape_is_float_literal _ _ _ Hs) in E.
    apply float_of_literal in E as [x E]. congruence.
Qed.

Lemma parse_nutrition_fold text rest :
  forall done nutrition,
    NoDup (map fst (done ++ rest)) ->
    Forall (fun pattern => snd (snd pattern) = TraderJoesScraper.RestOfLine ->
                           fst pattern = "serving_size") rest ->
    map fst nutrition `sublist_of` map fst done ->
    Forall number_or_serving_size nutrition ->
    map fst (fold_left (TraderJoesScraper.parse_nutrition_step text) rest nutrition)
      `sublist_of` map fst (done ++ rest)
    /\ Forall number_or_serving_size
         (fold_left (TraderJoesScraper.parse_nutrition_step text) rest nutrition).
Proof.
  induction rest as [|[key [label shape]] rest IH];
    intros done nutrition Hnd Hshapes Hsub Hall.
  - simpl. rewrite app_nil_r. auto.
  - cbn [fold_left].
    inversion Hshapes as [|? ? Hshape Hshapes']; subst. simpl in Hshape.
    assert (Hfresh : ~ In key (map fst nutrition)).
    { intros Hin. rewrite map_app in Hnd. simpl in Hnd.
      apply NoDup_app in Hnd as (_ & Hnd & _). apply (Hnd key).
      - eapply elem_of_sublist; [|exact Hsub]. apply list_elem_of_In, Hin.
      - left. }
    replace (done ++ (key, (label, shape)) :: rest)
      with ((done ++ [(key, (label, shape))]) ++ rest) in *
      by (rewrite <- app_assoc; reflexivity).
    destruct (parse_nutrition_step_fresh text nutrition key label shape
                Hfresh Hshape) as [-> | (value & -> & Hv)].
    + apply IH; try assumption.
      rewrite map_app. apply sublist_inserts_r, Hsub.
    + apply IH; try assumption.
      * rewrite !map_app. simpl. apply sublist_app; [exact Hsub | reflexivity].
      * apply Forall_app. split; [exact Hall|].
        constructor; [exact Hv | constructor].
Qed.

(** X3: [parse_nutrition] returns [None] or a [dict] that is not empty;
    its keys are among the twelve keys of the patterns, each at most
    once and in the order of the patterns; and every value is a number,
    except that of [serving_size], which is a number when [float] reads
    the rest of the line and the text of that rest otherwise. *)
Theorem parse_nutrition_entries (text : option string) :
  match TraderJoesScraper.parse_nutrition text with
  | None => True
  | Some nutrition =>
      nutrition <> []
      /\ map fst nutrition `sublist_of` nutrition_keys
      /\ Forall number_or_serving_size nutrition
  end.
Proof.
  unfold TraderJoesScraper.parse_nutrition.
  destruct text as [t|]; [|exact I]. destruct (Py.truthy t); [|exact I].
  destruct (parse_nutrition_fold t TraderJoesScraper.nutrition_patterns [] [])
    as [Hsub Hall].
  - apply (bool_decide_unpack _). vm_compute. reflexivity.
  - unfold TraderJoesScraper.nutrition_patterns.
    repeat (apply List.Forall_cons;
            [simpl; intros H; first [reflexivity | discriminate H]|]).
    apply List.Forall_nil.
  - constructor.
  - constructor.
  - destruct (fold_left _ _ _) as [|entry entries]; [exact I|].
    split; [discriminate|]. split; assumption.
Qed.
(** ** [_extract_nutrition] *)

Lemma nutrition_keys_NoDup : NoDup nutrition_keys.
Proof. apply (bool_decide_unpack _). vm_compute. reflexivity. Qed.

Lemma sublist_well_keyed nutrition :
  map fst nutrition `sublist_of` nutrition_keys -> well_keyed nutrition.
Proof.
  intros H. split.
  - eapply sublist_NoDup; [apply nutrition_keys_NoDup | exact H].
  - apply Forall_forall. intros key Hin. apply list_elem_of_In.
    eapply elem_of_sublist; [exact Hin | exact H].
Qed.

(** What [parse_nutrition] returns is well keyed. *)
Lemma parse_nutrition_well_keyed text nutrition :
  TraderJoesScraper.parse_nutrition text = Some nutrition -> well_keyed nutrition.
Proof.
  unfold TraderJoesScraper.parse_nutrition.
  destruct text as [t|]; [|discriminate]. destruct (Py.truthy t); [|discriminate].
  destruct (parse_nutrition_fold t TraderJoesScraper.nutrition_patterns [] [])
    as [Hsub _].
  - apply nutrition_keys_NoDup.
  - unfold TraderJoesScraper.nutrition_patterns.
    repeat (apply List.Forall_cons;
            [simpl; intros H; first [reflexivity | discriminate H]|]).
    apply List.Forall_nil.
  - constructor.
  - constructor.
  - destruct (fold_left _ _ _) as [|entry entries]; [discriminate|].
    intros H. injection H as <-. apply sublist_well_keyed, Hsub.
Qed.

Lemma dict_set_keys nutrition key value :
  map fst (TraderJoesScraper.dict_set nutrition key value)
  = if bool_decide (key ∈ map fst nutrition) then map fst nutrition
    else map fst nutrition ++ [key].
Proof.
  induction nutrition as [|[k v] rest IH]; simpl; [reflexivity|].
  destruct (String.eqb k key) eqn:E.
  - apply String.eqb_eq in E. subst k. simpl.
    rewrite bool_decide_eq_true_2 by left. reflexivity.
  - apply String.eqb_neq in E. simpl. rewrite IH.
    destruct (bool_decide (key ∈ map fst rest)) eqn:Eb.
    + apply bool_decide_eq_true_1 in Eb.
      rewrite bool_decide_eq_true_2 by (right; exact Eb). reflexivity.
    + apply bool_decide_eq_false_1 in Eb.
      rewrite bool_decide_eq_false_2; [reflexivity|].
      intros H. apply elem_of_cons in H as [H | H]; [congruence | tauto].
Qed.

Lemma dict_set_well_keyed nutrition key value :
  In key nutrition_keys -> well_keyed nutrition ->
  well_keyed (TraderJoesScraper.dict_set nutrition key value).
Proof.
  intros Hkey [Hnd Hall]. unfold well_keyed. rewrite dict_set_keys.
  destruct (bool_decide (key ∈ map fst nutrition)) eqn:Eb; [split; assumption|].
  apply bool_decide_eq_false_1 in Eb. split.
  - apply NoDup_app. split; [exact Hnd|]. split; [|apply NoDup_singleton].
    intros x Hx Hx'. apply list_elem_of_singleton in Hx'. subst x. tauto.
  - apply Forall_app. split; [exact Hall|]. constructor; [exact Hkey | constructor].
Qed.

Lemma table_branch_key label branches key cell :
  TraderJoesScraper.table_branch label branches = Some (key, cell) ->
  In key (map (fun branch => fst (snd branch)) branches).
Proof.
  induction branches as [|[needle branch] rest IH]; simpl; [discriminate|].
  destruct (Py.contains needle label).
  - intros H. injection H as ->. left. reflexivity.
  - intros H. right. apply IH, H.
Qed.

Lemma table_labels_keys key :
  In key (map (fun branch => fst (snd branch)) TraderJoesScraper.table_labels) ->
  In key nutrition_keys.
Proof.
  assert (H : Forall (fun k => k ∈ nutrition_keys)
                (map (fun branch => fst (snd branch))
                     TraderJoesScraper.table_labels))
    by (apply (bool_decide_unpack _); vm_compute; reflexivity).
  intros Hin. apply list_elem_of_In.
  apply (proj1 (Forall_forall _ _) H). apply list_elem_of_In, Hin.
Qed.

Lemma set_number_well_keyed nutrition key found :
  In key nutrition_keys -> well_keyed nutrition ->
  well_keyed (TraderJoesScraper.set_number nutrition key found).
Proof.
  intros Hkey Hn. unfold TraderJoesScraper.set_number.
  destruct found as [group|]; [|exact Hn].
  destruct (TraderJoesScraper.float_of group); [|exact Hn].
  apply dict_set_well_keyed; assumption.
Qed.

(** A row of the table keeps the facts well keyed. *)
Lemma table_row_well_keyed nutrition label value :
  well_keyed nutrition ->
  well_keyed (TraderJoesScraper.table_row nutrition label value).
Proof.
  intros Hn. unfold TraderJoesScraper.table_row.
  destruct (TraderJoesScraper.table_branch _ _) as [[key cell]|] eqn:E;
    [|exact Hn].
  apply table_branch_key, table_labels_keys in E.
  destruct cell; [apply dict_set_well_keyed | apply set_number_well_keyed ..];
    assumption.
Qed.

Section NutritionFacts.
Import TraderJoesScraper.

Variable dom : ElementHandle -> string -> outcome (list ElementHandle).
Context {L : Type}.

Lemma table_rows_terminates rows nutrition :
  terminates (L:=L) (table_rows dom rows nutrition).
Proof.
  revert nutrition.
  induction rows as [|row rest IH]; intros nutrition; cbn [table_rows];
    unfold query_selector_all_in, text_content; ends.
Qed.

Lemma table_rows_well_keyed rows nutrition :
  well_keyed nutrition ->
  ensures (L:=L) (table_rows dom rows nutrition) well_keyed.
Proof.
  revert nutrition.
  induction rows as [|row rest IH]; intros nutrition Hn; cbn [table_rows].
  - apply ensures_ret, Hn.
  - apply ensures_bind. intros [|cell0 [|cell1 cells]]; try (apply IH, Hn).
    apply ensures_bind. intros label. apply ensures_bind. intros value.
    destruct label as [label|], value as [value|]; try apply ensures_raise.
    apply IH, table_row_well_keyed, Hn.
Qed.

Lemma nutrition_from_table_returns element :
  returns (L:=L) (nutrition_from_table dom element).
Proof.
  apply returns_try_except; [|intros; apply returns_ret].
  unfold query_selector_all_in. ends. apply table_rows_terminates.
Qed.

Lemma nutrition_from_table_found element :
  ensures (L:=L) (nutrition_from_table dom element) found_facts.
Proof.
  apply ensures_try_except; [|intros; apply ensures_ret; exact I].
  apply ensures_bind. intros [|row rows]; [apply ensures_ret; exact I|].
  intros s facts s' H. unfold bind in H.
  destruct (table_rows dom (row :: rows) [] s) as [[nutrition| |] s1] eqn:E;
    try discriminate.
  apply (table_rows_well_keyed (row :: rows) []) in E;
    [|split; constructor].
  destruct nutrition as [|entry entries]; injection H as <- _; [exact I|].
  split; [discriminate | exact E].
Qed.

Lemma nutrition_from_selectors_terminates page selectors :
  terminates (L:=L) (nutrition_from_selectors dom page selectors).
Proof.
  induction selectors as [|selector rest IH]; cbn [nutrition_from_selectors];
    unfold query_selector, text_content; ends;
    apply returns_terminates, nutrition_from_table_returns.
Qed.

Lemma nutrition_from_selectors_found page selectors :
  ensures (L:=L) (nutrition_from_selectors dom page selectors) found_facts.
Proof.
  induction selectors as [|selector rest IH]; cbn [nutrition_from_selectors].
  - apply ensures_ret. exact I.
  - apply ensures_bind. intros [el|]; [|exact IH].
    apply ensures_bind. intros [t|]; [|exact IH].
    destruct (Py.truthy t); [|exact IH].
    destruct (parse_nutrition (Some t)) as [[|entry entries]|] eqn:E.
    + intros s facts s' H. unfold bind in H.
      destruct (nutrition_from_table dom el s) as [[[n|]| |] s1] eqn:Et;
        try discriminate.
      * injection H as <- _. eapply nutrition_from_table_found, Et.
      * eapply IH, H.
    + apply ensures_ret. split; [discriminate|].
      eapply parse_nutrition_well_keyed, E.
    + intros s facts s' H. unfold bind in H.
      destruct (nutrition_from_table dom el s) as [[[n|]| |] s1] eqn:Et;
        try discriminate.
      * injection H as <- _. eapply nutrition_from_table_found, Et.
      * eapply IH, H.
Qed.

Lemma extract_nutrition_always_returns page :
  returns (L:=L) (_extract_nutrition dom L page).
Proof.
  apply returns_try_except; [|intros; apply returns_ret].
  apply nutrition_from_selectors_terminates.
Qed.

End NutritionFacts.

(** X4: whatever the page and the elements below it answer,
    [_extract_nutrition] returns and no fault leaves it; it returns
    [None] or facts that are not empty, in which no key occurs twice and
    every key is one of the twelve keys of [parse_nutrition]. *)
Theorem extract_nutrition_returns_well_keyed
    (dom : ElementHandle -> string -> outcome (list ElementHandle))
    (L : Type) (page : Page) (s : Runtime L) :
  exists facts s',
    TraderJoesScraper._extract_nutrition dom L page s = (Val facts, s')
    /\ match facts with
       | None => True
       | Some nutrition => nutrition <> [] /\ well_keyed nutrition
       end.
Proof.
  destruct (extract_nutrition_always_returns dom page s) as (facts & s' & H).
  exists facts, s'. split; [exact H|].
  revert H. unfold TraderJoesScraper._extract_nutrition.
  apply (ensures_try_except _ _ found_facts).
  - apply nutrition_from_selectors_found.
  - intros e. apply ensures_ret. exact I.
Qed.
(** ** What the field extractors return *)

Section Ensures.
Context {L : Type}.

(** The rule of sequencing, with what the first computation ensures
    passed on to the second. *)
Lemma ensures_bind_post {A B} (m : M L A) (k : A -> M L B) P Q :
  ensures m P -> (forall a, P a -> ensures (k a) Q) -> ensures (bind m k) Q.
Proof.
  intros Hm Hk s b s' H. unfold bind in H.
  destruct (m s) as [[a|e|] s1] eqn:E; try discriminate.
  eapply Hk; [eapply Hm, E | exact H].
Qed.

Lemma ensures_weaken {A} (m : M L A) (P Q : A -> Prop) :
  (forall a, P a -> Q a) -> ensures m P -> ensures m Q.
Proof. intros HPQ Hm s a s' H. apply HPQ. eapply Hm, H. Qed.

(** A computation that returns and ensures [Q] returns a value that
    satisfies [Q]. *)
Lemma returns_ensures {A} (m : M L A) Q s :
  returns m -> ensures m Q -> exists a s', m s = (Val a, s') /\ Q a.
Proof.
  intros Hr He. destruct (Hr s) as (a & s' & H). exists a, s'.
  split; [exact H | eapply He, H].
Qed.

End Ensures.

Lemma usable_name_proper text :
  TraderJoesScraper.usable_name text = true ->
  proper_name (Py.strip (default EmptyString text)).
Proof.
  unfold TraderJoesScraper.usable_name. destruct text as [t|]; [|discriminate].
  intros H. apply andb_prop in H as [H Hoops]. apply andb_prop in H as [_ Hs].
  simpl. split; [exact Hs|]. split; [apply strip_idempotent|].
  intros E. rewrite E in Hoops. discriminate Hoops.
Qed.

Lemma name_from_title_proper title name :
  TraderJoesScraper.name_from_title title = Some name -> proper_name name.
Proof.
  unfold TraderJoesScraper.name_from_title.
  destruct (_ && _); [|discriminate].
  match goal with |- context [Py.truthy ?n && _] => set (n0 := n) end.
  destruct (Py.truthy n0) eqn:Ht; [|discriminate].
  destruct (String.eqb n0 "Oops!") eqn:Eo; [discriminate|].
  simpl. intros H. injection H as <-.
  split; [exact Ht|]. split; [apply strip_idempotent|].
  intros E. rewrite E in Eo. discriminate Eo.
Qed.

Lemma name_from_selectors_proper L page selectors :
  ensures (L:=L) (TraderJoesScraper.name_from_selectors page selectors)
    (fun found => match found with
                  | Some name => proper_name name
                  | None => True
                  end).
Proof.
  induction selectors as [|selector rest IH];
    cbn [TraderJoesScraper.name_from_selectors].
  - apply ensures_ret. exact I.
  - apply ensures_bind. intros [el|]; [|exact IH].
    apply ensures_bind. intros text.
    destruct (TraderJoesScraper.usable_name text) eqn:E; [|exact IH].
    apply ensures_ret, usable_name_proper, E.
Qed.

Lemma extract_product_name_proper L page :
  ensures (L:=L) (TraderJoesScraper._extract_product_name page) proper_name.
Proof.
  assert (Hunknown : proper_name "Unknown Product")
    by (split; [reflexivity|]; split; [reflexivity | discriminate]).
  apply ensures_try_except; [|intros; apply ensures_ret, Hunknown].
  eapply ensures_bind_post; [apply name_from_selectors_proper|].
  intros [name|] Hn; [apply ensures_ret, Hn|].
  apply ensures_bind. intros title.
  destruct (TraderJoesScraper.name_from_title title) as [name|] eqn:E.
  - apply ensures_ret. eapply name_from_title_proper, E.
  - apply ensures_ret, Hunknown.
Qed.

(** X5: whatever the page answers, [_extract_product_name] returns a name
    that is not empty, has no whitespace at its ends and is not the
    sentinel [Oops!]. *)
Theorem extract_product_name_is_proper (L : Type) (page : Page) (s : Runtime L) :
  exists name s',
    TraderJoesScraper._extract_product_name page s = (Val name, s')
    /\ proper_name name.
Proof.
  apply returns_ensures.
  - apply extract_product_name_returns.
  - apply extract_product_name_proper.
Qed.

(** X6: whatever the page answers, [_extract_description] returns [None]
    or a text that is not empty and has no whitespace at its ends. *)
Theorem extract_description_is_trimmed (L : Type) (page : Page) (s : Runtime L) :
  exists description s',
    TraderJoesScraper._extract_description page s = (Val description, s')
    /\ match description with
       | Some text => trimmed_text text
       | None => True
       end.
Proof.
  apply returns_ensures; [apply extract_description_returns|].
  apply ensures_try_except; [|intros; apply ensures_ret; exact I].
  generalize TraderJoesScraper.description_selectors as selectors.
  induction selectors as [|selector rest IH];
    cbn [TraderJoesScraper.description_from_selectors].
  - apply ensures_ret. exact I.
  - apply ensures_bind. intros [el|]; [|exact IH].
    apply ensures_bind. intros [t|]; [|exact IH].
    destruct (Py.truthy t && Py.truthy (Py.strip t)) eqn:E; [|exact IH].
    apply andb_prop in E as [_ E]. apply ensures_ret.
    split; [exact E | apply strip_idempotent].
Qed.
Lemma take_digits_head c r :
  Py.is_digit c = true ->
  Py.truthy (fst (TraderJoesScraper.take_digits (String c r))) = true.
Proof.
  intros H. simpl. rewrite H.
  destruct (TraderJoesScraper.take_digits r). reflexivity.
Qed.

(** What the search for a price matches, [float] reads. *)
Lemma search_price_is_float_literal text lit :
  TraderJoesScraper.search_price text = Some lit ->
  Py.is_float_literal lit = true.
Proof.
  induction text as [|c r IH]; [discriminate|].
  cbn [TraderJoesScraper.search_price].
  destruct (Py.is_digit c) eqn:Ec; [|exact IH].
  pose proof (take_digits_digits (String c r)) as Hd.
  pose proof (take_digits_head c r Ec) as Ht.
  destruct (TraderJoesScraper.take_digits (String c r)) as [whole rest].
  simpl in Hd, Ht.
  assert (Hplain : Some whole = Some lit -> Py.is_float_literal lit = true).
  { intros H. injection H as <-. apply is_float_literal_digits; assumption. }
  destruct rest as [|d rest']; [exact Hplain|].
  destruct (Ascii.eqb d ".") eqn:Ed.
  - apply Ascii.eqb_eq in Ed. subst d. intros H. injection H as <-.
    apply is_float_literal_decimal; try assumption. apply take_digits_digits.
  - destruct d as [[] [] [] [] [] [] [] []]; try discriminate Ed; exact Hplain.
Qed.

(** X7: whatever the page answers, [_extract_price] returns [None] or a
    number: the text it hands to [float] is always one [float] reads. *)
Theorem extract_price_is_number (L : Type) (page : Page) (s : Runtime L) :
  exists price s',
    TraderJoesScraper._extract_price page s = (Val price, s')
    /\ match price with
       | Some x => Py.is_float_literal (literal x) = true
       | None => True
       end.
Proof.
  apply returns_ensures; [apply extract_price_returns|].
  apply ensures_try_except; [|intros; apply ensures_ret; exact I].
  generalize TraderJoesScraper.price_selectors as selectors.
  induction selectors as [|selector rest IH];
    cbn [TraderJoesScraper.price_from_selectors].
  - apply ensures_ret. exact I.
  - apply ensures_bind. intros [el|]; [|exact IH].
    apply ensures_bind. intros [t|]; [|exact IH].
    destruct (Py.truthy t); [|exact IH].
    destruct (TraderJoesScraper.search_price t) as [lit|] eqn:E; [|exact IH].
    apply ensures_ret. simpl. eapply search_price_is_float_literal, E.
Qed.

(** ** Allergens of the page *)

Lemma allergens_of_text_clean allergens text :
  Forall clean_token allergens ->
  Forall clean_token (TraderJoesScraper.allergens_of_text allergens text).
Proof.
  intros Hacc. unfold TraderJoesScraper.allergens_of_text.
  match goal with |- context [Py.split_on _ ?t] => generalize t as cleaned end.
  intros cleaned.
  apply fold_left_Forall
    with (Q := fun f => all_chars (fun c => negb (BaseScraper.is_separator c)) f = true
                        /\ all_chars (fun _ => true) f = true);
    [| apply split_on_fields | exact Hacc].
  - clear. intros acc part Hacc [Hsep _].
    destruct (Py.truthy (Py.strip part)) eqn:E; [|exact Hacc].
    apply Forall_app. split; [exact Hacc|]. constructor; [|constructor].
    split; [exact E|]. split; [apply strip_idempotent|].
    apply all_chars_strip, Hsep.
  - clear. induction cleaned as [|c r IH]; simpl; [reflexivity | exact IH].
Qed.

Lemma allergens_of_elements_clean L elements allergens :
  Forall clean_token allergens ->
  ensures (L:=L) (TraderJoesScraper.allergens_of_elements elements allergens)
    (Forall clean_token).
Proof.
  revert allergens. induction elements as [|element rest IH]; intros allergens Hacc;
    cbn [TraderJoesScraper.allergens_of_elements].
  - apply ensures_ret, Hacc.
  - apply ensures_bind. intros [t|]; [|apply IH, Hacc].
    destruct (Py.truthy t); [|apply IH, Hacc].
    apply IH, allergens_of_text_clean, Hacc.
Qed.

(** X8: whatever the page answers, [_extract_allergens] returns [None]
    or a list that is not empty, and every allergen of the list is not
    empty, has no whitespace at its ends and holds no comma or
    semicolon. *)
Theorem extract_allergens_are_clean (L : Type) (page : Page) (s : Runtime L) :
  exists allergens s',
    TraderJoesScraper._extract_allergens page s = (Val allergens, s')
    /\ match allergens with
       | Some found => found <> [] /\ Forall clean_token found
       | None => True
       end.
Proof.
  apply returns_ensures; [apply extract_allergens_returns|].
  apply ensures_try_except; [|intros; apply ensures_ret; exact I].
  generalize TraderJoesScraper.allergens_selectors as selectors.
  induction selectors as [|selector rest IH];
    cbn [TraderJoesScraper.allergens_from_selectors].
  - apply ensures_ret. exact I.
  - apply ensures_bind. intros [|element elements]; [exact IH|].
    eapply ensures_bind_post;
      [apply allergens_of_elements_clean; constructor|].
    intros [|allergen allergens] Hclean; [exact IH|].
    apply ensures_ret. split; [discriminate | exact Hclean].
Qed.
(** ** Ingredients of the page *)

Lemma all_chars_tail p c r :
  all_chars p (String c r) = true -> all_chars p r = true.
Proof. simpl. intros H. apply andb_prop in H as [_ H]. exact H. Qed.

Lemma parse_ingredients_normalised text :
  Forall normalised_ingredient (BaseScraper.parse_ingredients text).
Proof.
  destruct text as [t|]; [|constructor].
  apply Forall_forall. intros x Hx. apply list_elem_of_In in Hx.
  destruct (parse_ingredients_elements t x Hx)
    as ((part & Hpart & _ & ->) & Hstrip & Hlower).
  split; [exact Hstrip|]. split; [exact Hlower|].
  pose (p := fun c => negb (BaseScraper.is_separator c)).
  apply (sub_ingredients_keeps (fun s => all_chars p s = true) (all_chars_tail p)).
  apply (sub_contains_keeps (fun s => all_chars p s = true) (all_chars_tail p)).
  unfold p. rewrite all_chars_lower
    by (intros c; rewrite is_separator_lower_char; reflexivity).
  apply all_chars_strip.
  assert (Hall : all_chars (fun _ => true) t = true)
    by (clear; induction t as [|c r IH]; simpl; [reflexivity | exact IH]).
  pose proof (split_on_fields BaseScraper.is_separator (fun _ => true) t Hall) as Hf.
  apply (proj1 (Forall_forall _ _) Hf part). apply list_elem_of_In, Hpart.
Qed.

(** X9: whatever the page answers, [_extract_ingredients] returns a
    list, and every ingredient of it is in lower case, has no whitespace
    at its ends and holds no comma or semicolon. *)
Theorem extract_ingredients_are_normalised (L : Type) (page : Page)
    (s : Runtime L) :
  exists ingredients s',
    TraderJoesScraper._extract_ingredients page s = (Val ingredients, s')
    /\ Forall normalised_ingredient ingredients.
Proof.
  apply returns_ensures; [apply extract_ingredients_returns|].
  apply ensures_try_except; [|intros; apply ensures_ret; constructor].
  generalize TraderJoesScraper.ingredients_selectors as selectors.
  induction selectors as [|selector rest IH];
    cbn [TraderJoesScraper.ingredients_from_selectors].
  - apply ensures_ret. constructor.
  - apply ensures_bind. intros [el|]; [|exact IH].
    apply ensures_bind. intros [t|]; [|exact IH].
    destruct (Py.truthy t); [|exact IH].
    match goal with
    | |- context [BaseScraper.parse_ingredients ?x] =>
        pose proof (parse_ingredients_normalised x) as Hn;
        destruct (BaseScraper.parse_ingredients x) as [|i l]
    end; [exact IH|].
    apply ensures_ret, Hn.
Qed.

(** ** Records of [scrape] and their validity *)

Section ScrapeRecords.
Import TraderJoesScraper.

Variable nutrition : forall L : Type, Page -> M L (option NutritionFacts).
Variable w : World.
Variable browser : Session.

Lemma init_fields {L} url name brand description price ingredients allergens
    nutrition_facts scraped_at duration status error :
  ensures (L:=L) (ProductData.init w url name brand description price
                    ingredients allergens nutrition_facts scraped_at
                    duration status error)
          (fun p => ProductData.scrape_status p = status
                    /\ ProductData.error_message p = error
                    /\ ProductData.product_name p = name
                    /\ ProductData.url p = url
                    /\ ProductData.ingredients p = ingredients).
Proof.
  intros s p s'. unfold ProductData.init, bind, uuid4, now, ret.
  destruct scraped_at; simpl; intros H; injection H as <- _; simpl; auto.
Qed.

Lemma scrape_body_outcome url start_time :
  ensures (scrape_body nutrition w browser url start_time) (scrape_outcome url).
Proof.
  unfold scrape_body, scrape_page.
  apply ensures_bind; intros _. apply ensures_leaving.
  repeat (apply ensures_bind; intros ?).
  destruct (negb _); [apply ensures_raise|].
  eapply ensures_bind_post; [apply extract_product_name_proper|].
  intros name Hname. repeat (apply ensures_bind; intros ?).
  intros s p s' H. injection H as <- _. left. simpl.
  repeat split; try reflexivity; apply Hname.
Qed.

Lemma scrape_handler_outcome url start_time e :
  ensures (scrape_handler w url start_time e) (scrape_outcome url).
Proof.
  unfold scrape_handler. apply ensures_bind. intros [page|].
  - unfold handle_errors.
    eapply ensures_bind_post; [apply init_fields|].
    intros product (Hs & He & _ & _ & Hi).
    assert (Hfailed : scrape_outcome url product)
      by (right; rewrite Hs, He, Hi; repeat split; discriminate).
    apply ensures_try_except; [|intros; apply ensures_ret, Hfailed].
    apply ensures_bind. intros name. apply ensures_ret.
    right. simpl. rewrite Hs, He, Hi. repeat split; discriminate.
  - apply ensures_bind. intros finished.
    eapply ensures_weaken; [|apply init_fields].
    intros p (Hs & He & _ & _ & Hi). right. rewrite Hs, He, Hi.
    repeat split; discriminate.
Qed.

Lemma scrape_handler_returns url start_time e :
  returns (scrape_handler w url start_time e).
Proof.
  intros s. unfold scrape_handler, bind at 1, get_vars.
  destruct (vars s) as [page|].
  - destruct (handle_errors_returns w (once_closed page) e s)
      as (product & s' & H & _). eauto.
  - unfold bind at 1, now. apply init_returns.
Qed.

Hypothesis nutrition_returns : forall L page, returns (nutrition L page).

Lemma scrape_outcome_returned url (s : Runtime (option PageHandle)) :
  exists product s',
    scrape nutrition w browser url s = (Val product, s')
    /\ scrape_outcome url product.
Proof.
  apply returns_ensures.
  - unfold scrape. apply returns_bind; [intros s0; eexists _, _; reflexivity|].
    intros start_time.
    apply returns_bind; [intros s0; eexists _, _; reflexivity|]. intros _.
    apply returns_try_except.
    + apply scrape_body_terminates, nutrition_returns.
    + apply scrape_handler_returns.
  - unfold scrape. apply ensures_bind. intros start_time.
    apply ensures_bind. intros _.
    apply ensures_try_except;
      [apply scrape_body_outcome | apply scrape_handler_outcome].
Qed.

End ScrapeRecords.

(** X10: with the extractor of nutrition facts of the scraper, [scrape]
    always returns a record; the record is a success record for the URL
    asked for, with a proper name, or a failed record with an error
    message and no ingredients; and it passes [is_valid] exactly when it
    is a success record, the URL is not empty and some ingredient was
    found. *)
Theorem scrape_record_valid_iff
    (dom : ElementHandle -> string -> outcome (list ElementHandle))
    (w : World) (browser : Session) (url : string)
    (s : Runtime (option PageHandle)) :
  exists product s',
    TraderJoesScraper.scrape (TraderJoesScraper._extract_nutrition dom)
      w browser url s = (Val product, s')
    /\ scrape_outcome url product
    /\ (ProductData.is_valid product = true
        <-> ProductData.scrape_status product = "success"
            /\ url <> EmptyString
            /\ ProductData.ingredients product <> []).
Proof.
  destruct (scrape_outcome_returned (TraderJoesScraper._extract_nutrition dom)
              w browser
              (fun L page => extract_nutrition_always_returns dom page)
              url s) as (product & s' & Hrun & Hout).
  exists product, s'. split; [exact Hrun|]. split; [exact Hout|].
  unfold ProductData.is_valid.
  destruct Hout as [(Hs & _ & Hu & Hn & _) | (Hs & _ & Hi)].
  - rewrite Hs, Hu, Hn. simpl.
    destruct url as [|c r]; simpl.
    + split; [discriminate | intros (_ & H & _); congruence].
    + destruct (ProductData.ingredients product); simpl.
      * split; [discriminate | intros (_ & _ & H); congruence].
      * split; [intros _; repeat split; discriminate | reflexivity].
  - rewrite Hs, Hi. rewrite !andb_false_r. simpl.
    split; [discriminate | intros (H & _); discriminate H].
Qed.
(** ** [can_handle] *)

Lemma drop_prefix_Some p s r :
  Py.drop_prefix p s = Some r <-> s = p +:+ r.
Proof.
  revert s. induction p as [|a p IH]; intros s; simpl.
  - split; [intros H; injection H as ->; reflexivity | intros ->; reflexivity].
  - destruct s as [|b s].
    + split; discriminate.
    + destruct (Ascii.eqb a b) eqn:E.
      * apply Ascii.eqb_eq in E. subst b. rewrite IH.
        change (String a p +:+ r) with (String a (p +:+ r)).
        split; [intros ->; reflexivity | intros H; injection H as ->; reflexivity].
      * apply Ascii.eqb_neq in E. split; [discriminate|].
        change (String a p +:+ r) with (String a (p +:+ r)).
        intros H. injection H as H _. congruence.
Qed.

(** [old in s] holds exactly when [old] occurs in [s]. *)
Lemma contains_occurs_in old s :
  Py.contains old s = true <-> occurs_in old s.
Proof.
  split.
  - induction s as [|c r IH]; simpl.
    + destruct (Py.drop_prefix old EmptyString) as [rest|] eqn:E; [|discriminate].
      intros _. apply drop_prefix_Some in E. exists EmptyString, rest. exact E.
    + destruct (Py.drop_prefix old (String c r)) as [rest|] eqn:E.
      * intros _. apply drop_prefix_Some in E. exists EmptyString, rest. exact E.
      * intros H. destruct (IH H) as (a & b & ->).
        exists (String c a), b. reflexivity.
  - intros (a & b & ->). induction a as [|c a IH].
    + change (EmptyString +:+ old +:+ b) with (old +:+ b).
      assert (E : Py.drop_prefix old (old +:+ b) = Some b)
        by (apply drop_prefix_Some; reflexivity).
      destruct (old +:+ b); simpl; rewrite E; reflexivity.
    + change (String c a +:+ old +:+ b) with (String c (a +:+ old +:+ b)).
      simpl. rewrite IH. destruct (Py.drop_prefix old _); reflexivity.
Qed.

(** X11: [can_handle] accepts a URL exactly when [traderjoes.com] and
    [/products/] both occur in it once it is put in lower case, wherever
    and in whichever order they occur. *)
Theorem can_handle_iff_occurs (url : string) :
  TraderJoesScraper.can_handle url = true
  <-> occurs_in "traderjoes.com" (Py.lower url)
      /\ occurs_in "/products/" (Py.lower url).
Proof.
  unfold TraderJoesScraper.can_handle.
  rewrite andb_true_iff, !contains_occurs_in. reflexivity.
Qed.

(** ** Documents of products *)

(** X12: a record turned into a document by [to_dict] is read back by
    [from_dict] as the same record, although [from_dict] draws an
    identifier and reads the clock for the defaults it does not use; and
    from a document without any key it builds a pending record with a
    fresh identifier and the time of the reading, which is not valid. *)
Theorem from_dict_to_dict_round_trip (L : Type) (w : World)
    (product : ProductData.t) (s : Runtime L) :
  ProductData.from_dict w (ProductData.to_dict product) s
  = (Val product, after_id_and_reading s)
  /\ exists fresh,
       ProductData.from_dict w empty_document s
       = (Val fresh, after_id_and_reading s)
       /\ ProductData.id fresh = uuid_supply w (ids s)
       /\ ProductData.scraped_at fresh = clock w (ticks s)
       /\ ProductData.scrape_status fresh = "pending"
       /\ ProductData.ingredients fresh = []
       /\ ProductData.is_valid fresh = false.
Proof.
  split.
  - destruct product. reflexivity.
  - eexists. split; [reflexivity|]. repeat split.
Qed.

(** ** Counters of a job *)

(** X13: along any sequence of calls of its methods, the retry count of
    a job grows by one with every [mark_failed] and is changed by nothing
    else, and the identifier, the URL, the creation time, the limit of
    retries and the options of the job stay as they were; nothing
    compares the count with the limit. *)
Theorem scrape_job_counts_failures (job : ScrapeJob.t) (ts : list Transition) :
  ScrapeJob.retry_count (run_transitions job ts)
  = ScrapeJob.retry_count job + failures ts
  /\ ScrapeJob.max_retries (run_transitions job ts) = ScrapeJob.max_retries job
  /\ ScrapeJob.job_id (run_transitions job ts) = ScrapeJob.job_id job
  /\ ScrapeJob.url (run_transitions job ts) = ScrapeJob.url job
  /\ ScrapeJob.created_at (run_transitions job ts) = ScrapeJob.created_at job
  /\ ScrapeJob.options (run_transitions job ts) = ScrapeJob.options job.
Proof.
  revert job. unfold failures.
  induction ts as [|t rest IH]; intros job.
  - simpl. repeat split. lia.
  - unfold run_transitions in *. cbn [fold_left].
    destruct (IH (apply_transition job t)) as (Hr & Hm & Hj & Hu & Hc & Ho).
    rewrite Hr, Hm, Hj, Hu, Hc, Ho.
    destruct t as [u | p u | e u]; simpl; repeat split; lia.
Qed.
(** ** The form of a key, for every URL *)

(** X14: the key of any URL is a text of 64 characters, each a digit or a
    letter from [a] to [f]. *)
Theorem generate_url_hash_is_hex (url : string) :
  String.length (FirebaseService._generate_url_hash url) = 64%nat
  /\ all_chars is_lower_hex (FirebaseService._generate_url_hash url) = true.
Proof.
  unfold FirebaseService._generate_url_hash, SHA256.hexdigest, SHA256.digest.
  match goal with
  | |- context [SHA256.blocks ?n SHA256.H0 ?p] =>
      pose proof (blocks_length n SHA256.H0 p eq_refl) as Hlen;
      destruct (flat_map_be_bytes (SHA256.blocks n SHA256.H0 p)) as [Hl Hb];
      destruct (hex_of_bytes _ Hb) as [Hhl Hhc]
  end.
  split; [|exact Hhc]. rewrite Hhl, Hl, Hlen. reflexivity.
Qed.
(** ** Documents of the store *)

(** X15: [store_product] succeeds; afterwards the product is found under
    its identifier, every other identifier finds what it found before,
    and the jobs are as they were. *)
Theorem store_product_then_get_by_id (product : ProductData.t) (utcnow : Z)
    (db : FirebaseService.t) (product_id : string) :
  fst (FirebaseService.store_product product utcnow db) = true
  /\ FirebaseService.get_product_by_id product_id
       (snd (FirebaseService.store_product product utcnow db))
     = (if decide (product_id = ProductData.id product) then Some product
        else FirebaseService.get_product_by_id product_id db)
  /\ FirebaseService.jobs (snd (FirebaseService.store_product product utcnow db))
     = FirebaseService.jobs db.
Proof.
  split; [reflexivity|]. split; [|reflexivity].
  unfold FirebaseService.get_product_by_id, FirebaseService.store_product.
  simpl. destruct (decide (product_id = ProductData.id product)) as [-> | Hne].
  - apply lookup_insert_eq.
  - apply lookup_insert_ne. congruence.
Qed.

(** X16: when a second record of the same URL is stored under another
    identifier, the URL finds the second record, and the first record
    stays in the store under its identifier: nothing removes it. *)
Theorem store_product_same_url_keeps_old (first second : ProductData.t)
    (t1 t2 : Z) (db : FirebaseService.t) :
  ProductData.url second = ProductData.url first ->
  ProductData.id second <> ProductData.id first ->
  let db' := snd (FirebaseService.store_product second t2
                    (snd (FirebaseService.store_product first t1 db))) in
  FirebaseService.get_product_by_url (ProductData.url first) db' = Some second
  /\ FirebaseService.get_product_by_id (ProductData.id first) db' = Some first.
Proof.
  intros Hurl Hid db'. subst db'. split.
  - apply get_product_by_url_same_key. rewrite Hurl. reflexivity.
  - unfold FirebaseService.get_product_by_id, FirebaseService.store_product.
    simpl. rewrite lookup_insert_ne by exact Hid. apply lookup_insert_eq.
Qed.

(** The sample product, then the record of a second scrape of its URL. *)
Lemma store_product_same_url_keeps_old_witness :
  let db' := snd (FirebaseService.store_product rescraped_product
                    1700086400000000 sample_store) in
  FirebaseService.get_product_by_url sample_url db' = Some rescraped_product
  /\ FirebaseService.get_product_by_id "3f2c9a1e-product" db'
     = Some sample_product.
Proof.
  apply (store_product_same_url_keeps_old sample_product rescraped_product
           1700000000000000 1700086400000000 FirebaseService.empty).
  - reflexivity.
  - discriminate.
Defined.

(** X17: [store_job] succeeds; afterwards the job is found under its
    identifier, in place of any job stored there before, every other
    identifier finds what it found before, and the products and the index
    are as they were. *)
Theorem store_job_then_get_job (job : ScrapeJob.t) (db : FirebaseService.t)
    (job_id : string) :
  fst (FirebaseService.store_job job db) = true
  /\ FirebaseService.get_job job_id (snd (FirebaseService.store_job job db))
     = (if decide (job_id = ScrapeJob.job_id job) then Some job
        else FirebaseService.get_job job_id db)
  /\ FirebaseService.products (snd (FirebaseService.store_job job db))
     = FirebaseService.products db
  /\ FirebaseService.url_lookup (snd (FirebaseService.store_job job db))
     = FirebaseService.url_lookup db.
Proof.
  split; [reflexivity|]. split; [|split; reflexivity].
  unfold FirebaseService.get_job, FirebaseService.store_job. simpl.
  destruct (decide (job_id = ScrapeJob.job_id job)) as [-> | Hne].
  - apply lookup_insert_eq.
  - apply lookup_insert_ne. congruence.
Qed.

(** ** [cleanup_old_jobs] *)

Lemma filter_complement_size (cutoff : Z) (jobs : gmap string ScrapeJob.t) :
  (size (filter (fun entry : string * ScrapeJob.t =>
                   FirebaseService.old_job cutoff entry.2 = true) jobs)
   + size (filter (fun entry : string * ScrapeJob.t =>
                     FirebaseService.old_job cutoff entry.2 = false) jobs)
   = size jobs)%nat.
Proof.
  rewrite <- (map_filter_union_complement
                (fun entry : string * ScrapeJob.t =>
                   FirebaseService.old_job cutoff entry.2 = true) jobs) at 3.
  rewrite map_size_disj_union by apply map_disjoint_filter_complement.
  f_equal. f_equal. apply map_filter_ext. intros i x _. simpl.
  destruct (FirebaseService.old_job cutoff x); split; congruence.
Qed.

(** X18: [cleanup_old_jobs] leaves the products and the index as they
    were.  When the number of days and the cutoff are in range, it removes
    exactly the jobs that are completed or failed and were completed
    before the cutoff, and every other job stays as it was, the pending
    and processing ones among them; otherwise it removes nothing.  In
    both cases it returns the number of jobs it removed. *)
Theorem cleanup_old_jobs_removes_old (days_old utcnow : Z)
    (db : FirebaseService.t) :
  let cutoff := utcnow - days_old * FirebaseService.microseconds_per_day in
  let deleted := fst (FirebaseService.cleanup_old_jobs days_old utcnow db) in
  let db' := snd (FirebaseService.cleanup_old_jobs days_old utcnow db) in
  FirebaseService.products db' = FirebaseService.products db
  /\ FirebaseService.url_lookup db' = FirebaseService.url_lookup db
  /\ (forall job_id,
        FirebaseService.get_job job_id db'
        = match FirebaseService.get_job job_id db with
          | Some job =>
              if cutoff_in_range days_old utcnow
                 && FirebaseService.old_job cutoff job
              then None else Some job
          | None => None
          end)
  /\ deleted = Z.of_nat (size (FirebaseService.jobs db))
               - Z.of_nat (size (FirebaseService.jobs db')).
Proof.
  intros cutoff deleted db'. subst deleted db'.
  unfold FirebaseService.cleanup_old_jobs, cutoff_in_range.
  fold cutoff.
  destruct (Z.abs days_old <=? FirebaseService.timedelta_max_days);
    [|simpl; repeat split; [intros j; destruct (FirebaseService.get_job j db);
                            reflexivity | lia]].
  destruct ((FirebaseService.datetime_min <=? cutoff)
            && (cutoff <=? FirebaseService.datetime_max)) eqn:E.
  - apply andb_prop in E as [E1 E2]. rewrite E1, E2. simpl.
    split; [reflexivity|]. split; [reflexivity|]. split.
    + intros j. unfold FirebaseService.get_job. simpl.
      rewrite map_lookup_filter.
      destruct (FirebaseService.jobs db !! j) as [job|]; [|reflexivity].
      simpl. destruct (FirebaseService.old_job cutoff job) eqn:Eo.
      * rewrite option_guard_False by (simpl; congruence). reflexivity.
      * rewrite option_guard_True by reflexivity. reflexivity.
    + pose proof (filter_complement_size cutoff (FirebaseService.jobs db)). lia.
  - simpl. repeat split; [|lia].
    intros j. destruct (FirebaseService.get_job j db); [|reflexivity].
    rewrite E. reflexivity.
Qed.
(** ** The endpoint and its background task *)

(** X19: [scrape_product] never returns a response: whatever the request
    and the store, it ends by raising status 500.  An unsupported URL,
    an existing product and a job just stored all end so, the last two
    because the response model rejects a [datetime] for its field
    [estimated_completion]. *)
Theorem scrape_product_always_fails
    (validation_error : list string -> string) (w : World)
    (request : ScrapeRequest.t) (s : Runtime Main.App) :
  exists reason s',
    Main.scrape_product validation_error w request s
    = (Val (HTTPException 500 ("Error starting scrape job: " +:+ reason)), s').
Proof.
  destruct (TraderJoesScraper.can_handle (ScrapeRequest.url request)) eqn:Hcan.
  - destruct (ScrapeRequest.force_refresh request) eqn:Hforce.
    + unfold Main.scrape_product. rewrite Hcan, Hforce.
      unfold try_except, Main.on_service, Main.add_task.
      unfold bind, get_vars, set_vars, ret, now, uuid4, raise. simpl.
      eexists _, _. reflexivity.
    + destruct (FirebaseService.get_product_by_url (ScrapeRequest.url request)
                  (Main.firebase_service (vars s))) as [product|] eqn:Hget.
      * destruct (scrape_product_existing validation_error w request product s
                    Hcan Hforce Hget) as (s' & H & _).
        eexists _, _. exact H.
      * unfold Main.scrape_product. rewrite Hcan, Hforce.
        unfold try_except, Main.on_service, Main.add_task.
        unfold bind, get_vars, set_vars, ret, now, uuid4, raise. simpl.
        rewrite Hget. simpl. eexists _, _. reflexivity.
  - rewrite (scrape_product_unsupported validation_error w request s Hcan).
    eexists _, _. reflexivity.
Qed.

(** X20: [process_scrape_job] never gets to the scraper.  For a job that
    is not in the store it returns at once.  For a stored job it marks
    its local copy as processing, and the call of [update_job_status]
    with the job alone raises; the handler marks a fresh copy as failed
    and the same call raises again, out of the task.  In both cases the
    store is left as it was, no browser is launched and no identifier is
    drawn; the stored job stays as it was stored. *)
Theorem process_scrape_job_never_scrapes (w : World) (browser : Session)
    (dom : ElementHandle -> string -> outcome (list ElementHandle))
    (job_id url : string) (store_in_firebase include_nutrition : bool)
    (webhook_url : option string) (s : Runtime Main.App) :
  let run := Main.process_scrape_job w browser dom job_id url
               store_in_firebase include_nutrition webhook_url s in
  vars (snd run) = vars s
  /\ trace (snd run) = trace s
  /\ ids (snd run) = ids s
  /\ match FirebaseService.get_job job_id (Main.firebase_service (vars s)) with
     | None => fst run = Val tt /\ ticks (snd run) = ticks s
     | Some job =>
         (exists e, fst run = Exc e) /\ ticks (snd run) = S (S (ticks s))
     end.
Proof.
  intros run. subst run. unfold Main.process_scrape_job.
  unfold try_except, Main.on_service, Main.update_job_status_with_job.
  unfold bind, get_vars, set_vars, ret, now, raise. simpl.
  destruct (FirebaseService.get_job job_id (Main.firebase_service (vars s)))
    as [job|] eqn:Hjob; simpl.
  - rewrite Hjob. simpl. destruct (vars s). repeat split. eauto.
  - destruct (vars s). repeat split.
Qed.
(** ** URLs of the crawl *)

Lemma first_field_app sep a c r :
  all_chars (fun x => negb (sep x)) a = true -> sep c = true ->
  Py.first_field sep (a +:+ String c r) = a.
Proof.
  intros Ha Hc. unfold Py.first_field. induction a as [|x a IH].
  - simpl. rewrite Hc. reflexivity.
  - simpl in Ha. apply andb_prop in Ha as [Hx Ha]. specialize (IH Ha).
    change (String x a +:+ String c r) with (String x (a +:+ String c r)).
    cbn [Py.split_on]. apply negb_true_iff in Hx. rewrite Hx.
    destruct (Py.split_on sep (a +:+ String c r)) as [|f fs];
      [|rewrite IH]; congruence.
Qed.

Lemma first_field_free sep s :
  all_chars (fun x => negb (sep x)) (Py.first_field sep s) = true.
Proof.
  unfold Py.first_field. induction s as [|x s IH]; [reflexivity|].
  cbn [Py.split_on]. destruct (sep x) eqn:E; [reflexivity|].
  destruct (Py.split_on sep s) as [|f fs]; simpl; rewrite E; simpl;
    [reflexivity | exact IH].
Qed.

(** X21: the URL of the next page keeps the current URL up to its first
    question mark and replaces the rest by the page filter; so the next
    URL of a next URL is the next URL of the URL the crawl started from,
    with the new page number. *)
Theorem next_url_replaces_query (current_url : string) (n m : Z) :
  ProductUrlScraper.next_url current_url n
  = Py.first_field (Ascii.eqb "?") current_url
    +:+ "?filters=%7B%22page%22%3A" +:+ Py.str_of_int n +:+ "%7D"
  /\ ProductUrlScraper.next_url (ProductUrlScraper.next_url current_url n) m
     = ProductUrlScraper.next_url current_url m.
Proof.
  split; [reflexivity|].
  unfold ProductUrlScraper.next_url at 1 3. f_equal.
  unfold ProductUrlScraper.next_url.
  change ("?filters=%7B%22page%22%3A" +:+ Py.str_of_int n +:+ "%7D")
    with (String "?" ("filters=%7B%22page%22%3A" +:+ Py.str_of_int n +:+ "%7D")).
  apply first_field_app; [apply first_field_free | reflexivity].
Qed.

(** The loop over the links, from what the links answer. *)
Lemma urls_of_links_hrefs L links :
  forall urls (s : Runtime L),
    match hrefs_of links with
    | Some hrefs =>
        exists s',
          ProductUrlScraper.urls_of_links links urls s
          = (Val (urls ++ map (fun href => "https://www.traderjoes.com" +:+ href)
                              hrefs), s')
    | None =>
        exists e s',
          ProductUrlScraper.urls_of_links links urls s = (Exc e, s')
    end.
Proof.
  induction links as [|link rest IH]; intros urls s.
  - simpl. rewrite app_nil_r. eexists. reflexivity.
  - cbn [hrefs_of].
    remember (ProductUrlScraper.urls_of_links (link :: rest) urls s) as run
      eqn:Hrun.
    cbn [ProductUrlScraper.urls_of_links] in Hrun.
    unfold bind at 1, get_attribute, call at 1 in Hrun.
    destruct (el_get_attribute link "href") as [href|e];
      [|subst run; eexists _, _; reflexivity].
    unfold bind at 1, text_content, call at 1 in Hrun.
    destruct (el_text_content link) as [text|e];
      [|subst run; eexists _, _; reflexivity].
    destruct href as [h|]; [destruct (Py.truthy h)|]; cbv beta iota in Hrun;
      match type of Hrun with
      | context [ProductUrlScraper.urls_of_links rest ?u ?s1] =>
          specialize (IH u s1)
      end;
      rewrite Hrun; destruct (hrefs_of rest) as [hrefs|]; try exact IH.
    destruct IH as [s' IH]. exists s'. rewrite IH. simpl.
    rewrite <- app_assoc. reflexivity.
Qed.

(** X22: [_extract_product_urls] returns, in the order of the links, the
    [href] of every link that has one, each after the address of the
    site; links without [href] are left out.  When the product list does
    not show up, or the query or the reading of any one link faults, it
    returns the empty list: the URLs read before the fault are lost. *)
Theorem extract_product_urls_all_or_nothing (L : Type) (page : Page)
    (s : Runtime L) :
  result_of (ProductUrlScraper._extract_product_urls page) s
  = Val (product_urls_of page).
Proof.
  unfold result_of, ProductUrlScraper._extract_product_urls, product_urls_of.
  unfold try_except, bind at 1, wait_for_selector, call at 1.
  destruct (page_wait_for_selector page ProductUrlScraper.product_list_selector)
    as [[]|e]; [|reflexivity].
  unfold bind at 1, query_selector_all, call at 1.
  destruct (page_query_selector_all page ProductUrlScraper.product_link_selector)
    as [links|e]; [|reflexivity].
  match goal with
  | |- context [ProductUrlScraper.urls_of_links links [] ?s1] =>
      pose proof (urls_of_links_hrefs L links [] s1) as H
  end.
  destruct (hrefs_of links) as [hrefs|].
  - destruct H as [s' H]. rewrite H. reflexivity.
  - destruct H as (e & s' & H). rewrite H. reflexivity.
Qed.
(** ** Navigations of the crawl *)

Lemma navigations_app l l' :
  navigations (l ++ l') = (navigations l + navigations l')%nat.
Proof. unfold navigations. rewrite List.filter_app, length_app. reflexivity. Qed.

Section Within.
Context {L : Type}.

Lemma within_ret {A} (a : A) : within (L:=L) 0 (ret a).
Proof. intros s. split; [discriminate | simpl; lia]. Qed.

Lemma within_raise {A} e : within (L:=L) (A:=A) 0 (raise e).
Proof. intros s. split; [discriminate | simpl; lia]. Qed.

Lemma within_get_vars : within (L:=L) 0 get_vars.
Proof. intros s. split; [discriminate | simpl; lia]. Qed.

Lemma within_set_vars v : within (L:=L) 0 (set_vars v).
Proof. intros s. split; [discriminate | simpl; lia]. Qed.

Lemma within_call {A} ev (answer : outcome A) :
  not_goto ev = true -> within (L:=L) 0 (call ev answer).
Proof.
  intros Hev s. unfold result_of, call.
  destruct answer; (split; [discriminate|]); simpl;
    rewrite navigations_app; destruct ev; try discriminate Hev;
    unfold navigations; simpl; lia.
Qed.

Lemma within_goto {A} url (answer : outcome A) :
  within (L:=L) 1 (call (EvGoto url) answer).
Proof.
  intros s. unfold result_of, call.
  destruct answer; (split; [discriminate|]); simpl;
    rewrite navigations_app; unfold navigations; simpl; lia.
Qed.

Lemma within_bind {A B} n n' (m : M L A) (k : A -> M L B) :
  within n m -> (forall a, within n' (k a)) -> within (n + n') (bind m k).
Proof.
  intros Hm Hk s. destruct (Hm s) as [Hr Hn]. unfold result_of, bind in *.
  destruct (m s) as [[a|e|] s1]; simpl in *.
  - destruct (Hk a s1) as [Hr' Hn']. split; [exact Hr' | lia].
  - split; [discriminate | lia].
  - congruence.
Qed.

Lemma within_try_except {A} n n' (m : M L A) h :
  within n m -> (forall e, within n' (h e)) ->
  within (n + n') (try_except m h).
Proof.
  intros Hm Hh s. destruct (Hm s) as [Hr Hn]. unfold result_of, try_except in *.
  destruct (m s) as [[a|e|] s1]; simpl in *.
  - split; [discriminate | lia].
  - destruct (Hh e s1) as [Hr' Hn']. split; [exact Hr' | lia].
  - congruence.
Qed.

Lemma within_leaving {A} n n' (m : M L A) (x : M L unit) :
  within n m -> within n' x -> within (n + n') (leaving m x).
Proof.
  intros Hm Hx s. destruct (Hm s) as [Hr Hn]. unfold result_of, leaving in *.
  destruct (m s) as [[a|e|] s1]; simpl in *; try congruence;
    destruct (Hx s1) as [Hr' Hn']; unfold result_of in Hr';
    destruct (x s1) as [[[]|e'|] s2]; simpl in *;
    (split; [congruence | lia]).
Qed.

Lemma within_weaken {A} n n' (m : M L A) :
  (n <= n')%nat -> within n m -> within n' m.
Proof. intros Hle Hm s. destruct (Hm s) as [Hr Hn]. split; [exact Hr | lia]. Qed.

End Within.

(** Computations that make no navigation. *)
Ltac quiet :=
  repeat (intros;
    match goal with
    | |- within 0 (bind _ _) => apply (within_bind 0 0)
    | |- within 0 (try_except _ _) => apply (within_try_except 0 0)
    | |- within 0 (ret _) => apply within_ret
    | |- within 0 (raise _) => apply within_raise
    | |- within 0 (call _ _) => apply within_call; reflexivity
    | |- within 0 get_vars => apply within_get_vars
    | |- within 0 (set_vars _) => apply within_set_vars
    | |- within 0 (match ?x with _ => _ end) => destruct x
    | H : forall x, within 0 _ |- _ => apply H
    | H : within 0 _ |- _ => exact H
    end).

Section CappedCrawl.
Import ProductUrlScraper.

Lemma extract_product_urls_quiet L page :
  within (L:=L) 0 (_extract_product_urls page).
Proof.
  assert (Hloop : forall links urls, within (L:=L) 0 (urls_of_links links urls)).
  { induction links as [|link rest IH]; intros urls; cbn [urls_of_links];
      unfold get_attribute, text_content; quiet. }
  unfold _extract_product_urls, wait_for_selector, query_selector_all.
  quiet. intros. apply Hloop.
Qed.

Lemma get_next_page_url_quiet L page :
  within (L:=L) 0 (_get_next_page_url page).
Proof.
  assert (Hloop : forall items, within (L:=L) 0 (find_current_page items)).
  { induction items as [|item rest IH]; cbn [find_current_page];
      unfold get_attribute; quiet. }
  unfold _get_next_page_url, wait_for_selector, query_selector,
    query_selector_all, text_content.
  quiet.
Qed.

Variable cap : Z.
Variable site : Listing.
Hypothesis cap_positive : 0 < cap.

(** From the page numbered [k] on, at most the pages up to the cap are
    loaded. *)
Lemma crawl_loop_within fuel :
  forall current_url k,
    1 <= k -> (Z.to_nat (cap + 1 - k) < fuel)%nat ->
    within (Z.to_nat (cap + 1 - k))
      (crawl_loop (Some cap) site fuel current_url k).
Proof.
  induction fuel as [|fuel IH]; intros current_url k Hk Hfuel; [lia|].
  rewrite crawl_loop_unfold.
  destruct (negb (url_truthy current_url));
    [eapply within_weaken; [|apply within_ret]; lia|].
  destruct (cap_reached (Some cap) k) eqn:Ecap;
    [eapply within_weaken; [|apply within_ret]; lia|].
  assert (Hle : k <= cap).
  { unfold cap_reached in Ecap. apply andb_false_iff in Ecap as [E | E].
    - apply negb_false_iff, Z.eqb_eq in E. lia.
    - apply Z.ltb_ge in E. exact E. }
  cbv zeta.
  eapply within_weaken;
    [|apply (within_bind 1 (Z.to_nat (cap + 1 - (k + 1)))); [apply within_goto|]];
    [lia|].
  intros _.
  apply (within_bind 0 _); [unfold wait_for_load_state; quiet|]. intros _.
  apply (within_bind 0 _); [apply extract_product_urls_quiet|]. intros page_urls.
  apply (within_bind 0 _); [apply within_get_vars|]. intros product_urls.
  apply (within_bind 0 _); [apply within_set_vars|]. intros _.
  apply (within_bind 0 _); [apply get_next_page_url_quiet|]. intros next.
  apply IH; lia.
Qed.

Lemma scrape_category_within fuel category_url :
  (Z.to_nat cap < fuel)%nat ->
  within (Z.to_nat cap) (scrape_category (Some cap) site fuel category_url).
Proof.
  intros Hfuel. unfold scrape_category, setup_page.
  apply (within_bind 0 (Z.to_nat cap)); [apply within_set_vars|]. intros _.
  apply (within_weaken (Z.to_nat cap + 0)); [lia|].
  apply (within_try_except (Z.to_nat cap) 0); [|intros; apply within_get_vars].
  apply (within_bind 0 (Z.to_nat cap)); [quiet|]. intros _.
  apply (within_weaken (Z.to_nat cap + 0)); [lia|].
  apply (within_leaving (Z.to_nat cap) 0); [|quiet].
  apply (within_bind 0 (Z.to_nat cap)); [quiet|]. intros _.
  apply (within_weaken (Z.to_nat cap + 0)); [lia|].
  apply (within_bind (Z.to_nat cap) 0); [|intros; apply within_get_vars].
  replace (Z.to_nat cap) with (Z.to_nat (cap + 1 - 1)) at 1 by (f_equal; lia).
  apply crawl_loop_within; [lia|]. replace (cap + 1 - 1) with cap by lia.
  exact Hfuel.
Qed.

End CappedCrawl.

(** No fault leaves [scrape_category]. *)
Lemma scrape_category_no_fault max_pages site fuel category_url s e :
  result_of (ProductUrlScraper.scrape_category max_pages site fuel category_url) s
  <> Exc e.
Proof.
  unfold result_of, ProductUrlScraper.scrape_category.
  unfold bind at 1, set_vars, try_except.
  match goal with
  | |- context [bind ?m ?k ?s1] => destruct (bind m k s1) as [[a|e'|] s']
  end; discriminate.
Qed.

(** X23: under a positive cap the crawl ends, whatever the site answers:
    [scrape_category] returns a list, and it has made at most as many
    navigations as the cap allows. *)
Theorem scrape_category_capped_returns (cap : Z) (site : Listing)
    (fuel : nat) (category_url : string) (s : Runtime (list string)) :
  0 < cap -> (Z.to_nat cap < fuel)%nat ->
  exists urls s',
    ProductUrlScraper.scrape_category (Some cap) site fuel category_url s
    = (Val urls, s')
    /\ (navigations (trace s') <= navigations (trace s) + Z.to_nat cap)%nat.
Proof.
  intros Hcap Hfuel.
  destruct (scrape_category_within cap site Hcap fuel category_url Hfuel s)
    as [Hr Hn].
  pose proof (scrape_category_no_fault (Some cap) site fuel category_url s) as He.
  unfold result_of in Hr, He.
  destruct (ProductUrlScraper.scrape_category (Some cap) site fuel category_url s)
    as [[urls|e|] s']; simpl in *.
  - exists urls, s'. split; [reflexivity | exact Hn].
  - destruct (He e eq_refl).
  - congruence.
Qed.

(** On a category that always offers a next page, a crawl capped at two
    returns, after two navigations, the URLs of two pages. *)
Lemma scrape_category_capped_returns_witness :
  exists urls s',
    ProductUrlScraper.scrape_category (Some 2) endless_site 7 category_url
      (start [])
    = (Val urls, s')
    /\ (navigations (trace s') <= 2)%nat.
Proof.
  destruct (scrape_category_capped_returns 2 endless_site 7 category_url
              (start [])) as (urls & s' & H & Hn); [lia | simpl; lia |].
  exists urls, s'. split; [exact H | exact Hn].
Defined.
(** ** What a crawl that is stopped returns *)

Section StoppedCrawl.
Import ProductUrlScraper.

Variable max_pages : option Z.
Variable site : Listing.

(** The loop along a walk that ends where the crawl is stopped: the URLs
    of the pages walked are gathered when the loop ends, by leaving or by
    a fault. *)
Lemma crawl_loop_walk_stop k url pages k' url' :
  walk max_pages site k url pages k' url' ->
  Py.truthy url = true ->
  stops_before max_pages site k' url' ->
  forall fuel (s : Runtime (list string)),
    (length pages < fuel)%nat ->
    exists r s',
      crawl_loop max_pages site fuel (Some url) k s = (r, s')
      /\ r <> Diverged
      /\ vars s' = vars s ++ flat_map page_product_urls pages.
Proof.
  induction 1 as [k url | k url next pages k' url' Hcap Hload Hnext Hwalk IH];
    intros Hu Hstop fuel s Hfuel.
  - destruct fuel as [|fuel]; [simpl in Hfuel; lia|].
    rewrite crawl_loop_unfold. unfold url_truthy. rewrite Hu.
    cbn [negb default from_option id]. simpl flat_map. rewrite app_nil_r.
    destruct (cap_reached max_pages k) eqn:Ecap.
    + eexists _, _. split; [reflexivity|]. split; [discriminate | reflexivity].
    + cbv zeta. unfold bind at 1, call at 1.
      destruct Hstop as [Hc | [[e He] | [e He]]]; [congruence | |].
      * rewrite He. eexists _, _. split; [reflexivity|].
        split; [discriminate | reflexivity].
      * destruct (listing_goto site k url) as [[]|e'].
        -- unfold bind at 1, wait_for_load_state, call at 1. rewrite He.
           eexists _, _. split; [reflexivity|].
           split; [discriminate | reflexivity].
        -- eexists _, _. split; [reflexivity|].
           split; [discriminate | reflexivity].
  - destruct fuel as [|fuel]; [simpl in Hfuel; lia|].
    destruct (crawl_loop_turn max_pages site fuel url k s Hu Hcap Hload)
      as (s1 & Hturn & Hv).
    rewrite Hturn, Hnext.
    destruct (IH (page_next_url_truthy _ _ Hnext) Hstop fuel s1)
      as (r & s' & Hrun & Hr & Hv'); [simpl in Hfuel; lia|].
    exists r, s'. split; [exact Hrun|]. split; [exact Hr|].
    rewrite Hv', Hv. simpl. rewrite <- app_assoc. reflexivity.
Qed.

End StoppedCrawl.

(** X24: when the crawl starts, walks through [pages] and is then
    stopped, because the cap is reached or because the navigation to the
    next page or the wait after it faults, [scrape_category] returns the
    product URLs of the pages walked: what was gathered before the fault
    is not lost. *)
Theorem scrape_category_returns_gathered (max_pages : option Z)
    (site : Listing) (url : string) pages k' url' fuel
    (s : Runtime (list string)) :
  crawl_starts site ->
  Py.truthy url = true ->
  walk max_pages site 1 url pages k' url' ->
  stops_before max_pages site k' url' ->
  (length pages < fuel)%nat ->
  result_of (ProductUrlScraper.scrape_category max_pages site fuel url) s
  = Val (flat_map page_product_urls pages).
Proof.
  intros (Hl & Hn & Hv & Hh & Ht) Hu Hwalk Hstop Hfuel.
  unfold result_of, ProductUrlScraper.scrape_category.
  unfold bind at 1, set_vars. unfold try_except.
  unfold bind at 1, call at 1. rewrite Hl.
  unfold leaving, ProductUrlScraper.setup_page.
  unfold bind at 1. unfold bind at 1, call at 1. rewrite Hn.
  unfold bind at 1, call at 1. rewrite Hv.
  unfold bind at 1, call at 1. rewrite Hh.
  unfold call at 1. rewrite Ht.
  unfold bind at 1.
  match goal with
  | |- context [ProductUrlScraper.crawl_loop max_pages site fuel (Some url) 1 ?s0] =>
      destruct (crawl_loop_walk_stop max_pages site 1 url pages k' url'
                  Hwalk Hu Hstop fuel s0 Hfuel)
        as (r & s' & Hrun & Hr & Hvars);
      rewrite Hrun
  end.
  unfold get_vars, call.
  destruct r as [[]|e|]; [| |congruence];
    destruct (listing_close site); simpl; rewrite Hvars; reflexivity.
Qed.

(** A crawl without cap whose third navigation times out returns the
    product URLs of the first two pages. *)
Lemma scrape_category_returns_gathered_witness :
  result_of (ProductUrlScraper.scrape_category None timeout_site 9
               category_url) (start [])
  = Val [ "https://www.traderjoes.com/home/products/pdp/item-1";
          "https://www.traderjoes.com/home/products/pdp/item-2" ].
Proof.
  rewrite (scrape_category_returns_gathered None timeout_site category_url
             [ listing_page timeout_site 1 category_url;
               listing_page timeout_site 2 second_url ]
             3 second_url 9 (start [])).
  - vm_compute. reflexivity.
  - repeat split; reflexivity.
  - reflexivity.
  - apply walk_next with (next := second_url).
    + reflexivity.
    + split; reflexivity.
    + vm_compute. reflexivity.
    + apply walk_next with (next := second_url).
      * reflexivity.
      * split; reflexivity.
      * vm_compute. reflexivity.
      * apply walk_done.
  - right. left. eexists. reflexivity.
  - simpl. lia.
Defined.
(** ** The URL of the next page *)

Lemma find_current_page_of L items (s : Runtime L) :
  match current_item_of items with
  | Some found =>
      exists s', ProductUrlScraper.find_current_page items s = (Val found, s')
  | None =>
      exists e s', ProductUrlScraper.find_current_page items s = (Exc e, s')
  end.
Proof.
  revert s. induction items as [|item rest IH]; intros s.
  - eexists. reflexivity.
  - cbn [current_item_of].
    remember (ProductUrlScraper.find_current_page (item :: rest) s) as run
      eqn:Hrun.
    cbn [ProductUrlScraper.find_current_page] in Hrun.
    unfold bind at 1, get_attribute, call at 1 in Hrun.
    destruct (el_get_attribute item "aria-current") as [[a|]|e];
      [destruct (String.eqb a "page")| |]; cbv beta iota in Hrun;
      try (subst run; eexists; reflexivity);
      try (subst run; eexists _, _; reflexivity);
      match type of Hrun with
      | context [ProductUrlScraper.find_current_page rest ?s1] =>
          specialize (IH s1)
      end;
      rewrite Hrun; exact IH.
Qed.

(** X25: [_get_next_page_url] returns the current URL up to its first
    question mark, followed by the filter for the page after the one the
    pagination marks as current, when the pagination shows up with a
    next button that is not disabled, a marked item and a text that
    reads as an integer; in every other case, a fault of the page or of
    an element included, it returns [None].  The page number comes from
    what the page shows, not from the count the crawl keeps. *)
Theorem get_next_page_url_from_indicator (L : Type) (page : Page)
    (s : Runtime L) :
  result_of (ProductUrlScraper._get_next_page_url page) s
  = Val (next_url_of page).
Proof.
  unfold result_of, ProductUrlScraper._get_next_page_url, next_url_of.
  unfold try_except, bind at 1, wait_for_selector, call at 1.
  destruct (page_wait_for_selector page ProductUrlScraper.pagination_selector)
    as [[]|e]; [|reflexivity].
  unfold bind at 1, query_selector, call at 1.
  destruct (page_query_selector page ProductUrlScraper.next_button_selector)
    as [[button|]|e]; [|reflexivity|reflexivity].
  unfold bind at 1, query_selector_all, call at 1.
  destruct (page_query_selector_all page
              ProductUrlScraper.pagination_item_selector)
    as [items|e]; [|reflexivity].
  unfold bind at 1.
  match goal with
  | |- context [ProductUrlScraper.find_current_page items ?s1] =>
      pose proof (find_current_page_of L items s1) as H
  end.
  destruct (current_item_of items) as [[item|]|].
  - destruct H as [s' H]. rewrite H.
    unfold bind, text_content, call.
    destruct (el_text_content item) as [[text|]|e]; try reflexivity.
    destruct (Py.int _); reflexivity.
  - destruct H as [s' H]. rewrite H. reflexivity.
  - destruct H as (e & s' & H). rewrite H. reflexivity.
Qed.
(** ** The browser of [scrape] *)

Lemma grows_leaving {L A} (m : M L A) (x : M L unit) :
  grows m -> grows x -> grows (leaving m x).
Proof.
  intros Hm Hx s. destruct (Hm s) as [l Hl]. unfold leaving.
  destruct (m s) as [[a|e|] s1]; simpl in *; try (exists l; exact Hl);
    destruct (Hx s1) as [l' Hl']; exists (l ++ l');
    destruct (x s1) as [[[]|e'|] s2]; simpl in *;
    rewrite Hl', Hl, app_assoc; reflexivity.
Qed.

Ltac appending :=
  repeat (intros;
    match goal with
    | |- grows (bind _ _) => apply grows_bind
    | |- grows (try_except _ _) => apply grows_try_except
    | |- grows (leaving _ _) => apply grows_leaving
    | |- grows (ret _) => apply grows_ret
    | |- grows (raise _) => apply grows_raise
    | |- grows (call _ _) => apply grows_call
    | |- grows (now _) => apply grows_now
    | |- grows (uuid4 _) => apply grows_uuid4
    | |- grows get_vars => apply grows_get_vars
    | |- grows (set_vars _) => apply grows_set_vars
    | |- grows (match ?x with _ => _ end) => destruct x
    | H : forall x, grows _ |- _ => apply H
    | H : grows _ |- _ => exact H
    end).

Section ScrapeTrace.
Import TraderJoesScraper.

Variable dom : ElementHandle -> string -> outcome (list ElementHandle).
Variable w : World.
Variable browser : Session.

Lemma init_grows {L} url name brand description price ingredients allergens
    nutrition_facts scraped_at duration status error :
  grows (L:=L) (ProductData.init w url name brand description price
                  ingredients allergens nutrition_facts scraped_at
                  duration status error).
Proof. unfold ProductData.init. appending. Qed.

Lemma extract_product_name_grows L page :
  grows (L:=L) (_extract_product_name page).
Proof.
  unfold _extract_product_name, title. appending.
  apply name_from_selectors_grows.
Qed.

Lemma extract_description_grows L page :
  grows (L:=L) (_extract_description page).
Proof.
  unfold _extract_description. appending.
  generalize description_selectors as selectors.
  induction selectors as [|selector rest IH]; cbn [description_from_selectors];
    unfold query_selector, text_content; appending.
Qed.

Lemma extract_price_grows L page : grows (L:=L) (_extract_price page).
Proof.
  unfold _extract_price. appending.
  generalize price_selectors as selectors.
  induction selectors as [|selector rest IH]; cbn [price_from_selectors];
    unfold query_selector, text_content; appending.
Qed.

Lemma extract_ingredients_grows L page :
  grows (L:=L) (_extract_ingredients page).
Proof.
  unfold _extract_ingredients. appending.
  generalize ingredients_selectors as selectors.
  induction selectors as [|selector rest IH]; cbn [ingredients_from_selectors];
    unfold query_selector, text_content; appending.
Qed.

Lemma extract_allergens_grows L page :
  grows (L:=L) (_extract_allergens page).
Proof.
  assert (Hloop : forall elements allergens,
            grows (L:=L) (allergens_of_elements elements allergens)).
  { induction elements as [|element rest IH]; intros allergens;
      cbn [allergens_of_elements]; unfold text_content; appending. }
  unfold _extract_allergens. appending.
  generalize allergens_selectors as selectors.
  induction selectors as [|selector rest IH]; cbn [allergens_from_selectors];
    unfold query_selector_all; appending; apply Hloop.
Qed.

Lemma extract_nutrition_grows L page :
  grows (L:=L) (_extract_nutrition dom L page).
Proof.
  assert (Hrows : forall rows nutrition,
            grows (L:=L) (table_rows dom rows nutrition)).
  { induction rows as [|row rest IH]; intros nutrition; cbn [table_rows];
      unfold query_selector_all_in, text_content; appending. }
  assert (Htable : forall element,
            grows (L:=L) (nutrition_from_table dom element)).
  { intros element. unfold nutrition_from_table, query_selector_all_in.
    appending; apply Hrows. }
  unfold _extract_nutrition. appending.
  generalize nutrition_selectors as selectors.
  induction selectors as [|selector rest IH]; cbn [nutrition_from_selectors];
    unfold query_selector, text_content; appending.
Qed.

Lemma while_browser_open_grows url start_time :
  grows (while_browser_open (_extract_nutrition dom) w browser url start_time).
Proof.
  unfold while_browser_open, setup_page, scrape_page, wait_for_content, goto_,
    wait_for_load_state, wait_for_selector.
  appending;
    auto using extract_product_name_grows, extract_description_grows,
      extract_price_grows, extract_ingredients_grows, extract_allergens_grows,
      extract_nutrition_grows, init_grows.
Qed.

Lemma while_browser_open_terminates url start_time :
  terminates (while_browser_open (_extract_nutrition dom) w browser url
                start_time).
Proof.
  unfold while_browser_open, setup_page, scrape_page, wait_for_content, goto_,
    wait_for_load_state, wait_for_selector.
  ends; intros; apply returns_terminates;
    auto using extract_product_name_returns, extract_description_returns,
      extract_price_returns, extract_ingredients_returns,
      extract_allergens_returns, extract_nutrition_always_returns, init_returns.
Qed.

Lemma scrape_handler_grows url start_time e :
  grows (scrape_handler w url start_time e).
Proof.
  unfold scrape_handler, handle_errors. appending;
    auto using extract_product_name_grows, init_grows.
Qed.

End ScrapeTrace.

(** X26: when the browser starts, [scrape] closes it before it returns,
    whether the page was read or a fault came in between: the trace of
    the run holds the launch, then the close. *)
Theorem scrape_closes_browser
    (dom : ElementHandle -> string -> outcome (list ElementHandle))
    (w : World) (browser : Session) (url : string)
    (s : Runtime (option PageHandle)) :
  launch browser = Ok tt ->
  exists product s',
    TraderJoesScraper.scrape (TraderJoesScraper._extract_nutrition dom)
      w browser url s = (Val product, s')
    /\ launched_and_closed s s'.
Proof.
  intros Hlaunch. set (nutrition := TraderJoesScraper._extract_nutrition dom).
  set (start_time := clock w (ticks s)).
  unfold TraderJoesScraper.scrape.
  unfold bind at 1, now. unfold bind at 1, set_vars. fold start_time.
  unfold try_except.
  change (TraderJoesScraper.scrape_body nutrition w browser url start_time)
    with (bind (call EvLaunch (launch browser))
            (fun _ => leaving
                        (while_browser_open nutrition w browser url start_time)
                        (call EvClose (close browser)))).
  unfold bind at 1, call at 1. rewrite Hlaunch.
  match goal with
  | |- context [leaving _ _ ?s2] => set (s2' := s2)
  end.
  destruct (while_browser_open_grows dom w browser url start_time s2')
    as [during Hduring].
  pose proof (while_browser_open_terminates dom w browser url start_time s2')
    as Hterm.
  fold nutrition in Hduring, Hterm.
  unfold leaving, result_of in *.
  destruct (while_browser_open nutrition w browser url start_time s2')
    as [[p|e|] s3]; simpl in Hduring, Hterm; [| |congruence].
  - unfold call. destruct (close browser) as [[]|e'].
    + eexists _, _. split; [reflexivity|]. exists during, []. simpl.
      rewrite Hduring. unfold s2'. simpl. rewrite <- !app_assoc. reflexivity.
    + match goal with
      | |- context [TraderJoesScraper.scrape_handler ?w0 ?u ?t ?e0 ?s4] =>
          destruct (scrape_handler_returns w0 u t e0 s4) as (product & s' & Hh);
          destruct (scrape_handler_grows w0 u t e0 s4) as [after Hafter]
      end.
      rewrite Hh in *. exists product, s'. split; [reflexivity|].
      exists during, after. simpl in Hafter. rewrite Hafter, Hduring.
      unfold s2'. simpl. rewrite <- !app_assoc. reflexivity.
  - unfold call.
    destruct (close browser) as [[]|e'];
      match goal with
      | |- context [TraderJoesScraper.scrape_handler ?w0 ?u ?t ?e0 ?s4] =>
          destruct (scrape_handler_returns w0 u t e0 s4) as (product & s' & Hh);
          destruct (scrape_handler_grows w0 u t e0 s4) as [after Hafter]
      end;
      rewrite Hh in *; exists product, s'; (split; [reflexivity|]);
      exists during, after; simpl in Hafter; rewrite Hafter, Hduring;
      unfold s2'; simpl; rewrite <- !app_assoc; reflexivity.
Qed.

(** A run in which every call succeeds. *)
Lemma scrape_closes_browser_witness :
  exists product s',
    TraderJoesScraper.scrape
      (TraderJoesScraper._extract_nutrition (fun _ _ => Ok []))
      ticking session_ok sample_url (start None) = (Val product, s')
    /\ launched_and_closed (start None) s'.
Proof.
  apply (scrape_closes_browser (fun _ _ => Ok []) ticking session_ok sample_url
           (start None)).
  reflexivity.
Defined.
(** X27: the URL of the record [scrape] returns.  A success record and
    a failed record made before the page existed carry the URL asked
    for; a failed record made once the page existed carries the URL the
    page reports after the browser was closed, whatever URL was asked
    for. *)
Theorem scrape_record_url
    (dom : ElementHandle -> string -> outcome (list ElementHandle))
    (w : World) (browser : Session) (url : string)
    (s : Runtime (option PageHandle)) :
  let nutrition := TraderJoesScraper._extract_nutrition dom in
  let start_time := clock w (ticks s) in
  let s1 := {| vars := None; ticks := S (ticks s); ids := ids s;
               trace := trace s |} in
  exists product s',
    TraderJoesScraper.scrape nutrition w browser url s = (Val product, s')
    /\ match TraderJoesScraper.scrape_body nutrition w browser url start_time s1 with
       | (Val _, _) => ProductData.url product = url
       | (Exc _, s2) =>
           match vars s2 with
           | Some page => ProductData.url product = page_url (once_closed page)
           | None => ProductData.url product = url
           end
       | (Diverged, _) => False
       end.
Proof.
  intros nutrition start_time s1.
  assert (Hnut : forall L page, returns (nutrition L page))
    by (intros L page; apply extract_nutrition_always_returns).
  assert (Hrun : TraderJoesScraper.scrape nutrition w browser url s
                 = try_except
                     (TraderJoesScraper.scrape_body nutrition w browser url
                        start_time)
                     (TraderJoesScraper.scrape_handler w url start_time) s1)
    by reflexivity.
  rewrite Hrun. unfold try_except.
  pose proof (scrape_body_terminates nutrition w browser Hnut url start_time s1)
    as Hterm.
  pose proof (scrape_body_outcome nutrition w browser url start_time s1) as Hout.
  pose proof (scrape_body_success nutrition w browser url start_time s1) as Hok.
  unfold result_of in Hterm.
  destruct (TraderJoesScraper.scrape_body nutrition w browser url start_time s1)
    as [[p|e|] s2]; simpl in Hterm; [| |congruence].
  - exists p, s2. split; [reflexivity|].
    destruct (Hout p s2 eq_refl) as [(_ & _ & Hu & _) | (Hf & _)]; [exact Hu|].
    destruct (Hok p s2 eq_refl) as [Hs _]. congruence.
  - unfold TraderJoesScraper.scrape_handler, bind at 1, get_vars.
    destruct (vars s2) as [page|].
    + destruct (handle_errors_returns w (once_closed page) e s2)
        as (product & s' & Hh & _ & _ & _ & Hu & _).
      exists product, s'. rewrite Hh. auto.
    + unfold ProductData.init, bind, uuid4, now, ret. simpl.
      eexists _, _. split; reflexivity.
Qed.

(** A page whose only [h1] holds the name between spaces: the first seven
    selectors find nothing, the last one decides. *)
Lemma extract_product_name_first_usable_witness :
  result_of (TraderJoesScraper._extract_product_name
               (page_with_h1 (Some "  Mandarin Orange Chicken ") "Oops!"))
            (start tt)
  = Val "Mandarin Orange Chicken".
Proof.
  apply (extract_product_name_first_usable unit
           (page_with_h1 (Some "  Mandarin Orange Chicken ") "Oops!")
           (start tt)
           (firstn 7 TraderJoesScraper.name_selectors) "h1" []
           (text_element "  Mandarin Orange Chicken ")
           "  Mandarin Orange Chicken ").
  - reflexivity.
  - intros x Hin. left. simpl in Hin.
    repeat (destruct Hin as [<- | Hin]; [reflexivity|]). destruct Hin.
  - reflexivity.
  - reflexivity.
  - reflexivity.
Defined.
